(** * trading_bot.py: a shallow embedding and its verified properties

    The bot of [src/trading_bot.py] talks to an exchange through the module
    level [client], computes with Python floats (IEEE 754 binary64) and logs
    what it does.  The embedding below keeps these three ingredients apart:

    - [PyFloat]: the Python float operations the source uses ([float(s)],
      [/], [//], [round(x, n)], [max], [str.find]) on Rocq's primitive
      binary64 floats;
    - [Bot]: the six functions of the source, written in a state and
      exception monad over an abstract exchange, with every client call,
      log record and sleep appended to a trace;
    - the theorems, one per property of the specification. *)

From Stdlib Require Import ZArith List String Ascii Bool Lia Floats.
Import ListNotations.

Set Warnings "-inexact-float".

(** ** Python exceptions

    [BinanceAPIException] is the only exception the source catches by name;
    every other one travels up to the [except Exception] of
    [run_trading_bot]. *)
Inductive exn : Type :=
| BinanceAPIException (msg : string)
| ZeroDivisionError
| IndexError
| ValueError
| StopIteration
| OverflowError
| OtherException (name : string).

Definition is_binance (e : exn) : bool :=
  match e with BinanceAPIException _ => true | _ => false end.

(** ** Python float operations on binary64 *)
Module PyFloat.

Local Open Scope Z_scope.

(** The double nearest to the rational [n / d] (ties to even), with sign
    [s]: the division of [SpecFloat] on exact integer mantissas. *)
Definition float_of_ratio (s : bool) (n d : positive) : float :=
  SF2Prim (SFdiv prec emax (S754_finite s n 0) (S754_finite false d 0)).

Definition signed_zero (s : bool) : float :=
  if s then neg_zero else zero.

(** The double nearest to [(-1)^s * m * 10^e10]. *)
Definition float_of_decimal (s : bool) (m : Z) (e10 : Z) : float :=
  match m with
  | Zpos p =>
      float_of_ratio s (p * Z.to_pos (10 ^ Z.max e10 0))
                       (Z.to_pos (10 ^ Z.max (- e10) 0))
  | _ => signed_zero s
  end.

(** *** [float(s)] for a string [s] of ASCII characters *)

Definition is_digit (c : ascii) : bool :=
  ((48 <=? nat_of_ascii c) && (nat_of_ascii c <=? 57))%nat.

Definition digit_val (c : ascii) : Z := Z.of_nat (nat_of_ascii c) - 48.

(** Python's [str.strip()] whitespace, as [float] applies it. *)
Definition is_space (c : ascii) : bool :=
  let n := nat_of_ascii c in
  ((n =? 32) || ((9 <=? n) && (n <=? 13)))%nat.

Fixpoint lstrip (l : list ascii) : list ascii :=
  match l with
  | c :: r => if is_space c then lstrip r else l
  | [] => []
  end.

Definition strip (l : list ascii) : list ascii :=
  rev (lstrip (rev (lstrip l))).

(** Underscores are legal only between two digits; they are dropped. *)
Fixpoint drop_underscores (prev_digit : bool) (l : list ascii)
  : option (list ascii) :=
  match l with
  | [] => Some []
  | c :: r =>
      if Ascii.eqb c "_"%char then
        match r with
        | d :: _ =>
            if prev_digit && is_digit d then drop_underscores false r
            else None
        | [] => None
        end
      else option_map (cons c) (drop_underscores (is_digit c) r)
  end.

(** A run of digits: its value on top of [acc], how many there were, and
    what follows. *)
Fixpoint take_digits (l : list ascii) (acc : Z) (n : nat)
  : Z * nat * list ascii :=
  match l with
  | c :: r => if is_digit c then take_digits r (10 * acc + digit_val c) (S n)
              else (acc, n, l)
  | [] => (acc, n, [])
  end.

Definition lower (c : ascii) : ascii :=
  let n := nat_of_ascii c in
  if ((65 <=? n) && (n <=? 90))%nat then ascii_of_nat (n + 32) else c.

Definition take_sign (l : list ascii) : bool * list ascii :=
  match l with
  | "-"%char :: r => (true, r)
  | "+"%char :: r => (false, r)
  | _ => (false, l)
  end.

(** The optional exponent part; [None] when what is left is not one. *)
Definition parse_exponent (l : list ascii) : option Z :=
  match l with
  | [] => Some 0
  | c :: r =>
      if Ascii.eqb (lower c) "e"%char then
        let '(s, r1) := take_sign r in
        match take_digits r1 0 0 with
        | (_, O, _) => None
        | (v, _, []) => Some (if s then - v else v)
        | _ => None
        end
      else None
  end.

Definition parse_unsigned (s : bool) (l : list ascii) : option float :=
  let word := string_of_list_ascii (map lower l) in
  if (String.eqb word "inf" || String.eqb word "infinity")%bool then
    Some (if s then neg_infinity else infinity)
  else if String.eqb word "nan" then Some nan
  else
    let '(ip, ni, r) := take_digits l 0 0 in
    let '(m, nf, r2) :=
      match r with
      | "."%char :: r1 => take_digits r1 ip 0
      | _ => (ip, O, r)
      end in
    match (ni + nf)%nat with
    | O => None
    | _ =>
        match parse_exponent r2 with
        | Some e => Some (float_of_decimal s m (e - Z.of_nat nf))
        | None => None
        end
    end.

(** [float(s)]: [inl ValueError] where Python raises it. *)
Definition py_float (str : string) : exn + float :=
  match drop_underscores false (strip (list_ascii_of_string str)) with
  | Some l =>
      let '(s, r) := take_sign l in
      match parse_unsigned s r with
      | Some x => inr x
      | None => inl ValueError
      end
  | None => inl ValueError
  end.

(** *** [str.find(sub)]: the first index of [sub], or -1 *)
Definition str_find (s sub : string) : Z :=
  match String.index 0 sub s with
  | Some i => Z.of_nat i
  | None => -1
  end.

(** *** Arithmetic *)

(** [a / b]: Python raises on a zero divisor instead of returning an
    infinity or a nan. *)
Definition py_truediv (a b : float) : exn + float :=
  if (b =? 0)%float then inl ZeroDivisionError else inr (a / b)%float.

(** [max(a, b)]: the first argument unless the second is greater. *)
Definition py_max (a b : float) : float :=
  if (a <? b)%float then b else a.

(** C's [if (x)] on a double. *)
Definition nonzero (x : float) : bool := negb (x =? 0)%float.

Definition float_of_Z (z : Z) : float :=
  SF2Prim (binary_normalize prec emax z 0 false).

(** C's [floor]. *)
Definition c_floor (x : float) : float :=
  match Prim2SF x with
  | S754_finite s m e =>
      if 0 <=? e then x
      else
        let q := Zpos m / 2 ^ (- e) in
        let r := Zpos m mod 2 ^ (- e) in
        if s then float_of_Z (- (if r =? 0 then q else q + 1))
        else float_of_Z q
  | _ => x
  end.

(** C's [fmod]: the exact remainder of the truncated quotient, with the
    sign of [x]. *)
Definition c_fmod (x y : float) : float :=
  match Prim2SF x, Prim2SF y with
  | S754_nan, _ | _, S754_nan => nan
  | S754_infinity _, _ => nan
  | _, S754_zero _ => nan
  | S754_zero _, _ => x
  | S754_finite _ _ _, S754_infinity _ => x
  | S754_finite sx mx ex, S754_finite _ my ey =>
      let e0 := Z.min ex ey in
      let r := (Zpos mx * 2 ^ (ex - e0)) mod (Zpos my * 2 ^ (ey - e0)) in
      match r with
      | Zpos p => SF2Prim (binary_normalize prec emax (if sx then Zneg p else r) e0 false)
      | _ => signed_zero sx
      end
  end.

Definition copysign_zero (x : float) : float :=
  signed_zero (get_sign x).

(** [vx // wx], following [_float_div_mod] of CPython's floatobject.c. *)
Definition py_floordiv (vx wx : float) : exn + float :=
  if (wx =? 0)%float then inl ZeroDivisionError
  else
    let mod_ := c_fmod vx wx in
    let div := ((vx - mod_) / wx)%float in
    let div :=
      if nonzero mod_ && negb (Bool.eqb (wx <? 0)%float (mod_ <? 0)%float)
      then (div - 1)%float else div in
    if nonzero div then
      let floordiv := c_floor div in
      inr (if (0.5 <? div - floordiv)%float then (floordiv + 1)%float
           else floordiv)
    else inr (copysign_zero (vx / wx)%float).

(** The integer nearest to [n / d] ([d > 0]), ties to the even one. *)
Definition round_half_even (n d : Z) : Z :=
  let q := n / d in
  let r := n mod d in
  match 2 * r ?= d with
  | Lt => q
  | Gt => q + 1
  | Eq => if Z.even q then q else q + 1
  end.

(** [round(x, ndigits)] on a float: the exact binary value is rounded to
    [ndigits] decimals (half to even) and the decimal read back as a double,
    as [float___round___impl] and [double_round] do. *)
Definition py_round (x : float) (ndigits : Z) : exn + float :=
  match Prim2SF x with
  | S754_finite s m e =>
      if 323 <? ndigits then inr x
      else if ndigits <? -308 then inr (0 * x)%float
      else
        let num := Zpos m * 2 ^ Z.max e 0 * 10 ^ Z.max ndigits 0 in
        let den := 2 ^ Z.max (- e) 0 * 10 ^ Z.max (- ndigits) 0 in
        let y := float_of_decimal s (round_half_even num den) (- ndigits) in
        if is_infinity y then inl OverflowError else inr y
  | _ => inr x
  end.

(** A zero or a finite number, on the specification side of a float. *)
Definition finite (x : spec_float) : Prop :=
  match x with S754_zero _ | S754_finite _ _ _ => True | _ => False end.

End PyFloat.

(** ** The exchange and the trace of a run *)

(** The payloads of the exchange, with the keys the source reads. *)

(** One candle: open time, open, high, low, close, ... *)
Definition kline : Type := list string.

Record ticker : Type := { price : string }.

Record balance : Type := { free : string }.

Record exchange_filter : Type :=
  { filterType : string; minQty : string; stepSize : string }.

Record symbol_info : Type :=
  { symbol : string; filters : list exchange_filter }.

Record exchange_info : Type := { symbols : list symbol_info }.

Record fill : Type := { fill_price : string; qty : string }.

Record order : Type := { fills : list fill }.

(** [active_trade = (top_loss_crypto, buy_price, amount_bought)].  The
    symbol is whatever the scanner returned, [None] included. *)
Definition trade : Type := (option string * float * float)%type.

(** A call of a method of [client], with its keyword arguments. *)
Inductive request : Type :=
| GetKlines (symbol : string) (interval : string) (limit : Z)
| GetSymbolTicker (symbol : option string)
| GetExchangeInfo
| GetAssetBalance (asset : string)
| OrderMarketBuy (symbol : option string) (quantity : float)
| OrderMarketSell (symbol : option string) (quantity : float).

Inductive response : Type :=
| Klines (ohlcv : list kline)
| Ticker (t : ticker)
| ExchangeInfo (info : exchange_info)
| Balance (b : balance)
| Order (o : order).

(** The [logging] calls of the source, one constructor per call site, with
    the values its message interpolates. *)
Inductive log_record : Type :=
| LogKlinesError (crypto : string) (e : exn)
| LogTopLoss (timeframe : string) (best_crypto : option string)
             (best_loss : option float)
| LogBought (amount_to_buy : float) (crypto : option string)
            (amount_to_invest current_price : float)
| LogBuyError (crypto : option string) (e : exn)
| LogPriceError (crypto : option string) (e : exn)
| LogSold (quantity : float) (crypto : option string) (sell_price : float)
| LogSellError (crypto : option string) (e : exn)
| LogTradeCompleted (crypto : option string)
| LogSellFailed (crypto : option string)
| LogInsufficientBalance
| LogActiveTrade (active_trade : trade)
| LogUnexpected (e : exn).

Inductive levelname : Type := INFO | WARNING | ERROR.

Definition level (r : log_record) : levelname :=
  match r with
  | LogTopLoss _ _ _ | LogBought _ _ _ _ | LogSold _ _ _
  | LogTradeCompleted _ | LogActiveTrade _ => INFO
  | LogInsufficientBalance => WARNING
  | LogKlinesError _ _ | LogBuyError _ _ | LogPriceError _ _
  | LogSellError _ _ | LogSellFailed _ | LogUnexpected _ => ERROR
  end.

(** What a run leaves behind, in order. *)
Inductive event : Type :=
| Call (req : request) (reply : exn + response)
| Log (r : log_record)
| Sleep (seconds : Z).

(** The exchange behind [client]: every method takes the state of the world
    and answers with a payload or an exception. *)
Class Exchange (W : Type) : Type :=
  { get_klines : string -> string -> Z -> W -> (exn + list kline) * W;
    get_symbol_ticker : option string -> W -> (exn + ticker) * W;
    get_exchange_info : W -> (exn + exchange_info) * W;
    get_asset_balance : string -> W -> (exn + balance) * W;
    order_market_buy : option string -> float -> W -> (exn + order) * W;
    order_market_sell : option string -> float -> W -> (exn + order) * W }.

(** ** The monad of the bot: world, trace and exceptions *)

(** How a computation ends.  [Running] is the model's own: the fuel given to
    a [while True] loop ran out and the loop is still going. *)
Inductive outcome (A : Type) : Type :=
| Returned (a : A)
| Raised (e : exn)
| Running.

Arguments Returned {A} a.
Arguments Raised {A} e.
Arguments Running {A}.

Definition M (W A : Type) : Type := W -> outcome A * W * list event.

Definition ret {W A} (a : A) : M W A := fun w => (Returned a, w, []).

Definition raise {W A} (e : exn) : M W A := fun w => (Raised e, w, []).

Definition bind {W A B} (m : M W A) (f : A -> M W B) : M W B :=
  fun w =>
    match m w with
    | (Returned a, w1, t1) =>
        let '(r, w2, t2) := f a w1 in (r, w2, t1 ++ t2)
    | (Raised e, w1, t1) => (Raised e, w1, t1)
    | (Running, w1, t1) => (Running, w1, t1)
    end.

Declare Scope bot_scope.
Delimit Scope bot_scope with bot.
Notation "x <- m ;; k" := (bind m (fun x => k))
  (at level 61, m at next level, right associativity) : bot_scope.
Notation "' p <- m ;; k" := (bind m (fun p => k))
  (at level 61, p pattern, m at next level, right associativity) : bot_scope.
Notation "m ;; k" := (bind m (fun _ => k))
  (at level 61, right associativity) : bot_scope.

(** A pure Python expression that may raise. *)
Definition lift {W A} (r : exn + A) : M W A :=
  match r with inl e => raise e | inr a => ret a end.

(** [try: m except BinanceAPIException as e: h e]. *)
Definition try_binance {W A} (m : M W A) (h : exn -> M W A) : M W A :=
  fun w =>
    match m w with
    | (Raised e, w1, t1) =>
        if is_binance e
        then let '(r, w2, t2) := h e w1 in (r, w2, t1 ++ t2)
        else (Raised e, w1, t1)
    | o => o
    end.

(** [try: m except Exception as e: h e]. *)
Definition try_exception {W A} (m : M W A) (h : exn -> M W A) : M W A :=
  fun w =>
    match m w with
    | (Raised e, w1, t1) => let '(r, w2, t2) := h e w1 in (r, w2, t1 ++ t2)
    | o => o
    end.

Definition logging {W} (r : log_record) : M W unit :=
  fun w => (Returned tt, w, [Log r]).

Definition time_sleep {W} (seconds : Z) : M W unit :=
  fun w => (Returned tt, w, [Sleep seconds]).

(** [l[i]] on a list. *)
Definition getitem {A} (l : list A) (i : nat) : exn + A :=
  match nth_error l i with Some a => inr a | None => inl IndexError end.

(** [next(x for x in l if p x)]. *)
Definition next_such {A} (p : A -> bool) (l : list A) : exn + A :=
  match find p l with Some a => inr a | None => inl StopIteration end.

(** [item['symbol'] == crypto]: a string never equals [None]. *)
Definition symbol_eqb (s : string) (crypto : option string) : bool :=
  match crypto with Some c => String.eqb s c | None => false end.

(** ** The functions of [trading_bot.py] *)
Module Bot.

Import PyFloat.
Local Open Scope bot_scope.
Local Open Scope string_scope.

(** The module-level watchlist. *)
Definition cryptos : list string :=
  [ "BTCUSDT"; "ETHUSDT"; "BNBUSDT"; "XRPUSDT"; "ADAUSDT"; "SOLUSDT";
    "DOGEUSDT"; "DOTUSDT"; "AVAXUSDT"; "LTCUSDT"; "LINKUSDT" ].

Section WithClient.

Context {W : Type} {client : Exchange W}.

(** A method call on [client]: the reply is recorded in the trace. *)
Definition client_call {A} (req : request) (wrap : A -> response)
    (method : W -> (exn + A) * W) : M W A :=
  fun w =>
    match method w with
    | (inr a, w1) => (Returned a, w1, [Call req (inr (wrap a))])
    | (inl e, w1) => (Raised e, w1, [Call req (inl e)])
    end.

Definition client_get_klines (symbol interval : string) (limit : Z)
  : M W (list kline) :=
  client_call (GetKlines symbol interval limit) Klines
              (get_klines symbol interval limit).

Definition client_get_symbol_ticker (symbol : option string) : M W ticker :=
  client_call (GetSymbolTicker symbol) Ticker (get_symbol_ticker symbol).

Definition client_get_exchange_info : M W exchange_info :=
  client_call GetExchangeInfo ExchangeInfo get_exchange_info.

Definition client_get_asset_balance (asset : string) : M W balance :=
  client_call (GetAssetBalance asset) Balance (get_asset_balance asset).

Definition client_order_market_buy (symbol : option string)
    (quantity : float) : M W order :=
  client_call (OrderMarketBuy symbol quantity) Order
              (order_market_buy symbol quantity).

Definition client_order_market_sell (symbol : option string)
    (quantity : float) : M W order :=
  client_call (OrderMarketSell symbol quantity) Order
              (order_market_sell symbol quantity).

(** *** [get_top_loss_crypto] *)

(** Lines 46-50: the percent change of the two fetched candles. *)
Definition price_change_percent (ohlcv : list kline) : exn + float :=
  match getitem ohlcv 0 with inl e => inl e | inr row0 =>
  match getitem row0 1 with inl e => inl e | inr o =>
  match py_float o with inl e => inl e | inr opening_price =>
  match getitem ohlcv 1 with inl e => inl e | inr row1 =>
  match getitem row1 4 with inl e => inl e | inr c =>
  match py_float c with inl e => inl e | inr closing_price =>
  match py_truediv (closing_price - opening_price) opening_price with
  | inl e => inl e
  | inr q => inr (q * 100)%float
  end end end end end end end.

(** [best_loss is None or price_change_percent < best_loss]. *)
Definition improves (change : float) (best_loss : option float) : bool :=
  match best_loss with
  | None => true
  | Some b => (change <? b)%float
  end.

(** The loop variables [best_loss] and [best_crypto]. *)
Definition best : Type := (option float * option string)%type.

(** Lines 52-54. *)
Definition update (b : best) (crypto : string) (change : float) : best :=
  if improves change (fst b) then (Some change, Some crypto) else b.

(** The body of the [for] loop, lines 43-56. *)
Definition scan_symbol (timeframe : string) (b : best) (crypto : string)
  : M W best :=
  try_binance
    (ohlcv <- client_get_klines crypto timeframe 2 ;;
     change <- lift (price_change_percent ohlcv) ;;
     ret (update b crypto change))
    (fun e => logging (LogKlinesError crypto e) ;; ret b).

Fixpoint scan (timeframe : string) (b : best) (cryptos : list string)
  : M W best :=
  match cryptos with
  | [] => ret b
  | crypto :: rest =>
      b1 <- scan_symbol timeframe b crypto ;; scan timeframe b1 rest
  end.

Definition get_top_loss_crypto (cryptos : list string) (timeframe : string)
  : M W (option string) :=
  '(best_loss, best_crypto) <- scan timeframe (None, None) cryptos ;;
  logging (LogTopLoss timeframe best_crypto best_loss) ;;
  ret best_crypto.

(** *** [kelly_criterion] and the buy path *)

Definition kelly_criterion (win_prob win_loss_ratio : float) : exn + float :=
  match py_truediv (1 - win_prob) win_loss_ratio with
  | inl e => inl e
  | inr q => inr (win_prob - q)%float
  end.

(** Lines 96-104: the raw quantity brought to the LOT_SIZE rules. *)
Definition quantity_precision (lot_size_filter : exchange_filter) : Z :=
  (str_find (stepSize lot_size_filter) "1" - 1)%Z.

Definition adjust_quantity (lot_size_filter : exchange_filter)
    (amount_to_buy : float) : exn + float :=
  match py_float (minQty lot_size_filter) with inl e => inl e | inr min_qty =>
  match py_float (stepSize lot_size_filter) with inl e => inl e | inr step_size =>
  match py_floordiv amount_to_buy step_size with inl e => inl e | inr steps =>
    py_round (py_max min_qty (steps * step_size)%float)
             (quantity_precision lot_size_filter)
  end end end.

Definition has_type (t : string) (f : exchange_filter) : bool :=
  String.eqb (filterType f) t.

(** A successful buy returns [(order, current_price)], a rejected one
    [(None, None)]: [Some (order, current_price)] and [None] here. *)
Definition invest_in_crypto (crypto : option string) (amount_to_invest : float)
  : M W (option (order * float)) :=
  t <- client_get_symbol_ticker crypto ;;
  current_price <- lift (py_float (price t)) ;;
  amount_to_buy <- lift (py_truediv amount_to_invest current_price) ;;
  info <- client_get_exchange_info ;;
  symbol_info <- lift (next_such (fun item => symbol_eqb (symbol item) crypto)
                                 (symbols info)) ;;
  lot_size_filter <- lift (next_such (has_type "LOT_SIZE")
                                     (filters symbol_info)) ;;
  precision_filter <- lift (next_such (has_type "PRICE_FILTER")
                                      (filters symbol_info)) ;;
  amount_to_buy <- lift (adjust_quantity lot_size_filter amount_to_buy) ;;
  try_binance
    (o <- client_order_market_buy crypto amount_to_buy ;;
     logging (LogBought amount_to_buy crypto amount_to_invest current_price) ;;
     ret (Some (o, current_price)))
    (fun e => logging (LogBuyError crypto e) ;; ret None).

Definition invest_using_kelly (crypto : option string) (usdt_balance : float)
    (win_prob win_loss_ratio : float) : M W (option (order * float)) :=
  kelly_fraction <- lift (kelly_criterion win_prob win_loss_ratio) ;;
  let amount_to_invest := (usdt_balance * kelly_fraction)%float in
  invest_in_crypto crypto amount_to_invest.

(** *** [wait_for_pump] *)

(** One round of the [while True] loop, lines 122-129: [Some p] when the
    function returns [p], [None] when the loop goes round again. *)
Definition poll (crypto : option string) (buy_price target_gain : float)
  : M W (option float) :=
  try_binance
    (t <- client_get_symbol_ticker crypto ;;
     current_price <- lift (py_float (price t)) ;;
     if (buy_price * target_gain <=? current_price)%float
     then ret (Some current_price)
     else time_sleep 1 ;; ret None)
    (fun e => logging (LogPriceError crypto e) ;; time_sleep 1 ;; ret None).

(** The loop has no exit but the [return]: with [fuel] rounds and none of
    them returning, the outcome is [Running]. *)
Fixpoint wait_for_pump (fuel : nat) (crypto : option string)
    (buy_price target_gain : float) : M W float :=
  match fuel with
  | O => fun w => (Running, w, [])
  | S fuel' =>
      r <- poll crypto buy_price target_gain ;;
      match r with
      | Some current_price => ret current_price
      | None => wait_for_pump fuel' crypto buy_price target_gain
      end
  end.

(** *** [sell_crypto] *)

(** The [6] of [round(amount, 6)]. *)
Definition sell_precision : Z := 6.

Definition sell_crypto (crypto : option string) (amount : float)
  : M W (option order) :=
  try_binance
    (quantity <- lift (py_round amount sell_precision) ;;
     o <- client_order_market_sell crypto quantity ;;
     f <- lift (getitem (fills o) 0) ;;
     sell_price <- lift (py_float (fill_price f)) ;;
     shown <- lift (py_round amount sell_precision) ;;
     logging (LogSold shown crypto sell_price) ;;
     ret (Some o))
    (fun e => logging (LogSellError crypto e) ;; ret None).

(** *** [run_trading_bot] *)

(** How the [try] block of an iteration ends: by [continue], which skips
    the [time.sleep(1)] of line 189, or by falling through to it. *)
Inductive flow : Type := Continue | FallThrough.

Definition default_target_gain : float := 1.005.
Definition default_win_prob : float := 0.6.
Definition default_win_loss_ratio : float := 2.
Definition default_timeframe : string := "1h".

(** Lines 156-166: an active trade is held. *)
Definition holding (fuel : nat) (active_trade : trade)
  : M W (option trade * flow) :=
  let '(crypto, buy_price, amount_bought) := active_trade in
  target_price <- wait_for_pump fuel crypto buy_price default_target_gain ;;
  sell_order <- sell_crypto crypto amount_bought ;;
  active_trade' <-
    match sell_order with
    | Some _ => logging (LogTradeCompleted crypto) ;; ret None
    | None => logging (LogSellFailed crypto) ;; ret (Some active_trade)
    end ;;
  time_sleep 1 ;;
  ret (active_trade', FallThrough).

(** Lines 169-183: no active trade. *)
Definition idle : M W (option trade * flow) :=
  b <- client_get_asset_balance "USDT" ;;
  usdt_balance <- lift (py_float (free b)) ;;
  if (usdt_balance <? 10)%float then
    logging LogInsufficientBalance ;; time_sleep 1 ;; ret (None, Continue)
  else
    top_loss_crypto <- get_top_loss_crypto cryptos default_timeframe ;;
    bought <- invest_using_kelly top_loss_crypto usdt_balance
                                 default_win_prob default_win_loss_ratio ;;
    match bought with
    | None => ret (None, Continue)
    | Some (o, buy_price) =>
        f <- lift (getitem (fills o) 0) ;;
        amount_bought <- lift (py_float (qty f)) ;;
        let active_trade := (top_loss_crypto, buy_price, amount_bought) in
        logging (LogActiveTrade active_trade) ;;
        ret (Some active_trade, FallThrough)
    end.

(** One iteration of the [while True] of [run_trading_bot], from the value
    of [active_trade] to its next value.  [active_trade] is assigned only as
    the last step before a log record, and neither [logging] nor
    [time.sleep] raises, so the handler of line 185 always runs with the
    value the iteration started with. *)
Definition iteration (fuel : nat) (active_trade : option trade)
  : M W (option trade) :=
  '(active_trade', how) <-
    try_exception
      (match active_trade with
       | Some t => holding fuel t
       | None => idle
       end)
      (fun e => logging (LogUnexpected e) ;; time_sleep 1 ;;
                ret (active_trade, FallThrough)) ;;
  match how with
  | Continue => ret active_trade'
  | FallThrough => time_sleep 1 ;; ret active_trade'
  end.

(** [n] iterations of the [while True] loop. *)
Fixpoint iterations (n fuel : nat) (active_trade : option trade)
  : M W (option trade) :=
  match n with
  | O => ret active_trade
  | S n' =>
      active_trade' <- iteration fuel active_trade ;;
      iterations n' fuel active_trade'
  end.

(** The first [n] iterations of [run_trading_bot], which starts with no
    active trade; the function itself never returns. *)
Definition run_trading_bot (n fuel : nat) : M W (option trade) :=
  iterations n fuel None.

End WithClient.

End Bot.

(** ** Reading a trace *)
Module Trace.

(** The watchlist as the scan went through it: every symbol asked for, with
    its percent change when its candles arrived and gave one. *)
Definition changes (t : list event) : list (string * option float) :=
  flat_map (fun ev => match ev with
                      | Call (GetKlines s _ _) (inr (Klines ohlcv)) =>
                          match Bot.price_change_percent ohlcv with
                          | inr change => [(s, Some change)]
                          | inl _ => [(s, None)]
                          end
                      | Call (GetKlines s _ _) _ => [(s, None)]
                      | _ => []
                      end) t.

(** Not a candle request, or one that ended in a [BinanceAPIException]. *)
Definition fetch_failedb (ev : event) : bool :=
  match ev with
  | Call (GetKlines _ _ _) (inl e) => is_binance e
  | Call (GetKlines _ _ _) (inr _) => false
  | _ => true
  end.

(** Every request sent to the exchange, in order. *)
Definition requests (t : list event) : list request :=
  flat_map (fun ev => match ev with Call req _ => [req] | _ => [] end) t.

(** A reply to a candle request that the scanner can digest: a
    [BinanceAPIException], or candles whose percent change is computable. *)
Definition reply_ok (ev : event) : Prop :=
  match ev with
  | Call (GetKlines _ _ _) (inl e) => is_binance e = true
  | Call (GetKlines _ _ _) (inr (Klines ohlcv)) =>
      exists change, Bot.price_change_percent ohlcv = inr change
  | Call (GetKlines _ _ _) (inr _) => False
  | _ => True
  end.

(** [reply_ok], decided. *)
Definition reply_okb (ev : event) : bool :=
  match ev with
  | Call (GetKlines _ _ _) (inl e) => is_binance e
  | Call (GetKlines _ _ _) (inr (Klines ohlcv)) =>
      match Bot.price_change_percent ohlcv with
      | inr _ => true
      | inl _ => false
      end
  | Call (GetKlines _ _ _) (inr _) => false
  | _ => true
  end.

(** No change is a nan, decided. *)
Definition numberb (sv : string * option float) : bool :=
  match snd sv with
  | Some v => negb (is_nan v)
  | None => true
  end.

(** The specification's formula for the percent change. *)
Definition percent_change (current_open previous_close : float) : float :=
  ((previous_close - current_open) / current_open * 100)%float.

(** The specification's choice along the watchlist: [s] attains the minimum
    of the changes, and it is the first to do so. *)
Definition first_minimum (l : list (string * option float)) (s : string)
  : Prop :=
  exists i v,
    nth_error l i = Some (s, Some v) /\
    (forall j s' v', nth_error l j = Some (s', Some v') ->
                     (v' <? v)%float = false) /\
    (forall j s' v', (j < i)%nat -> nth_error l j = Some (s', Some v') ->
                     (v <? v')%float = true).

(** No symbol delivered a change. *)
Definition all_failed (l : list (string * option float)) : Prop :=
  forall s o, In (s, o) l -> o = None.

(** The loop variables after the entries [l], starting from [b]. *)
Definition chosen (b : Bot.best) (l : list (string * option float))
  : Bot.best :=
  fold_left (fun b sv => match snd sv with
                         | Some change => Bot.update b (fst sv) change
                         | None => b
                         end) l b.

(** What the loop variables say about the entries seen so far. *)
Definition tracks (l : list (string * option float)) (b : Bot.best) : Prop :=
  match b with
  | (None, None) => all_failed l
  | (Some v, Some s) =>
      exists i,
        nth_error l i = Some (s, Some v) /\
        (forall j s' v', nth_error l j = Some (s', Some v') ->
                         (v' <? v)%float = false) /\
        (forall j s' v', (j < i)%nat -> nth_error l j = Some (s', Some v') ->
                         (v <? v')%float = true)
  | _ => False
  end.

(** [n] rounds of [wait_for_pump] that did not return: each is a price
    fetch that failed with a [BinanceAPIException], logged, or one that
    delivered a price short of the target; each ends with the same
    [time.sleep(1)]. *)
Inductive polled (crypto : option string) (buy_price target_gain : float)
  : nat -> list event -> Prop :=
| polled_none : polled crypto buy_price target_gain 0 []
| polled_failure n e t :
    is_binance e = true ->
    polled crypto buy_price target_gain n t ->
    polled crypto buy_price target_gain (S n)
           (Call (GetSymbolTicker crypto) (inl e)
              :: Log (LogPriceError crypto e) :: Sleep 1 :: t)
| polled_short n tk current_price t :
    PyFloat.py_float (price tk) = inr current_price ->
    (buy_price * target_gain <=? current_price)%float = false ->
    polled crypto buy_price target_gain n t ->
    polled crypto buy_price target_gain (S n)
           (Call (GetSymbolTicker crypto) (inr (Ticker tk)) :: Sleep 1 :: t).

(** The Kelly fraction of the loop's constants, as binary64 computes it. *)
Definition default_fraction : float := 0.39999999999999997.

(** [k] zeros in front of [rest]. *)
Fixpoint zeros (k : nat) (rest : string) : string :=
  match k with
  | O => rest
  | S k' => String "0" (zeros k' rest)
  end.

(** The step size [10^-(k+1)] as the exchange writes it: ["0."], [k] zeros,
    a one, and [z] more zeros. *)
Definition decimal_step (k z : nat) : string :=
  String "0" (String "." (zeros k (String "1" (zeros z "")))).

Definition is_buy (ev : event) : bool :=
  match ev with Call (OrderMarketBuy _ _) _ => true | _ => false end.

Definition is_sell (ev : event) : bool :=
  match ev with Call (OrderMarketSell _ _) _ => true | _ => false end.

Definition is_exchange_info (ev : event) : bool :=
  match ev with Call GetExchangeInfo _ => true | _ => false end.

(** The quantities submitted by [order_market_buy] and
    [order_market_sell]. *)
Definition submitted (t : list event) : list float :=
  flat_map (fun ev => match ev with
                      | Call (OrderMarketBuy _ q) _ => [q]
                      | Call (OrderMarketSell _ q) _ => [q]
                      | _ => []
                      end) t.

End Trace.

(** ** A scripted exchange

    The world is a script of replies: candles by symbol, a queue of ticker
    replies (the last one repeats), and one reply for each other method. *)
Module Mock.

Local Open Scope string_scope.

Record world : Type :=
  { klines_of : string -> exn + list kline;
    tickers : list (exn + ticker);
    info : exn + exchange_info;
    usdt : exn + balance;
    buy : exn + order;
    sell : exn + order }.

Definition next_ticker (w : world) : (exn + ticker) * world :=
  match tickers w with
  | [] => (inl (OtherException "ConnectionError"), w)
  | [r] => (r, w)
  | r :: rest =>
      (r, {| klines_of := klines_of w; tickers := rest; info := info w;
             usdt := usdt w; buy := buy w; sell := sell w |})
  end.

#[global] Instance exchange : Exchange world :=
  { get_klines := fun s _ _ w => (klines_of w s, w);
    get_symbol_ticker := fun _ w => next_ticker w;
    get_exchange_info := fun w => (info w, w);
    get_asset_balance := fun _ w => (usdt w, w);
    order_market_buy := fun _ _ w => (buy w, w);
    order_market_sell := fun _ _ w => (sell w, w) }.

(** A candle row with the given open and close. *)
Definition candle (open_ close_ : string) : kline :=
  [ "0"; open_; open_; close_; close_; "1" ]%string.

Definition lot_size (min_qty step_size : string) : exchange_filter :=
  {| filterType := "LOT_SIZE"; minQty := min_qty; stepSize := step_size |}.

Definition price_filter : exchange_filter :=
  {| filterType := "PRICE_FILTER"; minQty := ""; stepSize := "" |}.

Definition rules (s min_qty step_size : string) : symbol_info :=
  {| symbol := s; filters := [ price_filter; lot_size min_qty step_size ] |}.

Definition filled (p q : string) : order :=
  {| fills := [ {| fill_price := p; qty := q |} ] |}.

Definition binance_error : exn := BinanceAPIException "APIError(code=-1003)".


(** A scan in which BTCUSDT fails, ETHUSDT and BNBUSDT tie at the largest
    loss and every other symbol is flat. *)
Definition falling : list kline :=
  [ candle "2100" "2090"; candle "2050" "2000" ].

Definition flat : list kline :=
  [ candle "100" "100"; candle "100" "100" ].

Definition scan_world : world :=
  {| klines_of := fun s =>
       if String.eqb s "BTCUSDT" then inl binance_error
       else if (String.eqb s "ETHUSDT" || String.eqb s "BNBUSDT")%bool
            then inr falling
            else inr flat;
     tickers := [];
     info := inl binance_error;
     usdt := inl binance_error;
     buy := inl binance_error;
     sell := inl binance_error |}.

Definition scan_example : outcome (option string) * world * list event :=
  Bot.get_top_loss_crypto Bot.cryptos "1h" scan_world.

(** A held ETHUSDT position: the first price request fails, the second is
    short of the target, the third reaches it; the sale is answered by
    [sell_reply]. *)
Definition eth_trade : trade := (Some "ETHUSDT", 2000%float, 0.02%float).

Definition hold_world (sell_reply : exn + order) : world :=
  {| klines_of := fun _ => inl binance_error;
     tickers := [ inl binance_error; inr {| price := "2005.00" |};
                  inr {| price := "2010.50" |} ];
     info := inl binance_error;
     usdt := inl binance_error;
     buy := inl binance_error;
     sell := sell_reply |}.

Definition wait_example : outcome float * world * list event :=
  Bot.wait_for_pump 5 (Some "ETHUSDT") 2000%float 1.005%float
                    (hold_world (inl binance_error)).

Definition failed_sell_example
  : outcome (option trade) * world * list event :=
  Bot.iteration 5 (Some eth_trade) (hold_world (inl binance_error)).

Definition sold_example : outcome (option trade) * world * list event :=
  Bot.iteration 5 (Some eth_trade) (hold_world (inr (filled "2011.00" "0.02"))).

(** An exchange that has no candles to give, and lists DOGEUSDT and BTCUSDT
    with the step sizes 1 and 0.001. *)
Definition blackout_world : world :=
  {| klines_of := fun _ => inl binance_error;
     tickers := [ inr {| price := "1.00000000" |} ];
     info := inr {| symbols :=
                      [ rules "DOGEUSDT" "1.00000000" "1.00000000";
                        rules "BTCUSDT" "0.00100000" "0.00100000" ] |};
     usdt := inr {| free := "100.00000000" |};
     buy := inr (filled "1.00000000" "0.00000000");
     sell := inr {| fills := [] |} |}.

Definition blackout_example : outcome (option trade) * world * list event :=
  Bot.iteration 5 None blackout_world.

(** 4.7 USDT of DOGEUSDT at a price of 1: a raw quantity of 4.7. *)
Definition doge_example
  : outcome (option (order * float)) * world * list event :=
  Bot.invest_in_crypto (Some "DOGEUSDT") 4.7%float blackout_world.

(** 0.00456 USDT of BTCUSDT at a price of 1: a raw quantity of 0.00456. *)
Definition btc_example
  : outcome (option (order * float)) * world * list event :=
  Bot.invest_in_crypto (Some "BTCUSDT") 0.00456%float blackout_world.

(** The sale of 1.23456789 ETHUSDT. *)
Definition sell_example : outcome (option order) * world * list event :=
  Bot.sell_crypto (Some "ETHUSDT") 1.23456789%float
                  (hold_world (inr (filled "2011.00" "1.23456789"))).

(** A market on which ETHUSDT has fallen most: a balance of 100 USDT, a
    price of 2000 and a step of 0.0001; the buy is filled with 0.02. *)
Definition market_world : world :=
  {| klines_of := klines_of scan_world;
     tickers := [ inr {| price := "2000.00" |} ];
     info := inr {| symbols :=
                      [ rules "BTCUSDT" "0.00001000" "0.00001000";
                        rules "ETHUSDT" "0.00010000" "0.00010000" ] |};
     usdt := inr {| free := "100.00000000" |};
     buy := inr (filled "2000.00" "0.02");
     sell := inr {| fills := [] |} |}.

Definition buy_example : outcome (option trade) * world * list event :=
  Bot.iteration 5 None market_world.

(** A market on which only DOGEUSDT has candles: a balance of 11.75 USDT, a
    price of 1 and a step of 1; the exchange rejects the order. *)
Definition doge_world : world :=
  {| klines_of := fun s =>
       if String.eqb s "DOGEUSDT" then inr falling else inl binance_error;
     tickers := [ inr {| price := "1.00000000" |} ];
     info := inr {| symbols :=
                      [ rules "DOGEUSDT" "1.00000000" "1.00000000" ] |};
     usdt := inr {| free := "11.75000000" |};
     buy := inl binance_error;
     sell := inl binance_error |}.

Definition doge_loop_example : outcome (option trade) * world * list event :=
  Bot.iteration 5 None doge_world.

End Mock.

(** ** More readings of a trace, and more scripts *)
Module More.

Import Trace.

Local Open Scope string_scope.

(** A sale of [q] of [crypto] is backed by what went before it, [before],
    when [before] holds a market buy of [crypto] that was answered with an
    order whose first fill has a quantity that rounds to [q]. *)
Definition backed (before : list event) (crypto : option string) (q : float)
  : Prop :=
  exists bought o f rest amount_bought,
    In (Call (OrderMarketBuy crypto bought) (inr (Order o))) before /\
    fills o = f :: rest /\
    PyFloat.py_float (qty f) = inr amount_bought /\
    PyFloat.py_round amount_bought Bot.sell_precision = inr q.

(** The candle requests for the symbols [cs]. *)
Definition klines_requests (timeframe : string) (cs : list string)
  : list request :=
  map (fun c => GetKlines c timeframe 2) cs.

(** A balance of 5 USDT. *)
Definition poor_world : Mock.world :=
  {| Mock.klines_of := Mock.klines_of Mock.scan_world;
     Mock.tickers := [ inr {| price := "2000.00" |} ];
     Mock.info := Mock.info Mock.market_world;
     Mock.usdt := inr {| free := "5.00000000" |};
     Mock.buy := inr (Mock.filled "2000.00" "0.02");
     Mock.sell := inl Mock.binance_error |}.

Definition poor_example : outcome (option trade) * Mock.world * list event :=
  Bot.iteration 5 None poor_world.

(** The market of [Mock.market_world] with an exchange that rejects the
    buy. *)
Definition rejecting_world : Mock.world :=
  {| Mock.klines_of := Mock.klines_of Mock.scan_world;
     Mock.tickers := [ inr {| price := "2000.00" |} ];
     Mock.info := Mock.info Mock.market_world;
     Mock.usdt := inr {| free := "100.00000000" |};
     Mock.buy := inl Mock.binance_error;
     Mock.sell := inl Mock.binance_error |}.

Definition rejected_example
  : outcome (option trade) * Mock.world * list event :=
  Bot.iteration 5 None rejecting_world.

(** A scan in which BTCUSDT fails and ETHUSDT answers with one candle
    only. *)
Definition short_world : Mock.world :=
  {| Mock.klines_of := fun s =>
       if String.eqb s "BTCUSDT" then inl Mock.binance_error
       else if String.eqb s "ETHUSDT" then inr [ Mock.candle "2100" "2090" ]
            else inr Mock.flat;
     Mock.tickers := [];
     Mock.info := inl Mock.binance_error;
     Mock.usdt := inl Mock.binance_error;
     Mock.buy := inl Mock.binance_error;
     Mock.sell := inl Mock.binance_error |}.

Definition short_example
  : outcome (option string) * Mock.world * list event :=
  Bot.get_top_loss_crypto Bot.cryptos "1h" short_world.

(** An exchange whose entry for ETHUSDT has a LOT_SIZE filter and no
    PRICE_FILTER. *)
Definition unfiltered_world : Mock.world :=
  {| Mock.klines_of := Mock.klines_of Mock.scan_world;
     Mock.tickers := [ inr {| price := "2000.00" |} ];
     Mock.info :=
       inr {| symbols :=
                [ {| symbol := "ETHUSDT";
                     filters :=
                       [ Mock.lot_size "0.00010000" "0.00010000" ] |} ] |};
     Mock.usdt := inr {| free := "100.00000000" |};
     Mock.buy := inr (Mock.filled "2000.00" "0.02");
     Mock.sell := inl Mock.binance_error |}.

Definition unfiltered_example
  : outcome (option (order * float)) * Mock.world * list event :=
  Bot.invest_in_crypto (Some "ETHUSDT") 40%float unfiltered_world.

(** A purchase of 40 USDT of ETHUSDT on [Mock.market_world]. *)
Definition purchase_example
  : outcome (option (order * float)) * Mock.world * list event :=
  Bot.invest_in_crypto (Some "ETHUSDT") 40%float Mock.market_world.

(** A market on which the position of [Mock.market_world] is bought, held
    while the price is short of the target, and sold. *)
Definition round_trip_world : Mock.world :=
  {| Mock.klines_of := Mock.klines_of Mock.scan_world;
     Mock.tickers := [ inr {| price := "2000.00" |};
                       inr {| price := "2005.00" |};
                       inr {| price := "2010.50" |} ];
     Mock.info := Mock.info Mock.market_world;
     Mock.usdt := inr {| free := "100.00000000" |};
     Mock.buy := inr (Mock.filled "2000.00" "0.02");
     Mock.sell := inr (Mock.filled "2010.50" "0.02") |}.

Definition round_trip_example
  : outcome (option trade) * Mock.world * list event :=
  Bot.run_trading_bot 2 5 round_trip_world.

(** *** The position read off a trace

    What the loop holds, as its orders and their replies tell: a symbol and
    the quantity of the first fill of the buy. *)
Definition position : Type := (option string * float)%type.

(** The position of a value of [active_trade]. *)
Definition position_of (active_trade : option trade) : option position :=
  match active_trade with
  | Some (crypto, _, amount_bought) => Some (crypto, amount_bought)
  | None => None
  end.

(** A buy that was answered with an order whose first fill has a quantity
    opens a position; a sale that was answered with an order whose first
    fill has a price closes it; nothing else changes it. *)
Definition step (held : option position) (ev : event) : option position :=
  match ev with
  | Call (OrderMarketBuy crypto _) (inr (Order o)) =>
      match fills o with
      | f :: _ =>
          match PyFloat.py_float (qty f) with
          | inr amount_bought => Some (crypto, amount_bought)
          | inl _ => held
          end
      | [] => held
      end
  | Call (OrderMarketSell _ _) (inr (Order o)) =>
      match fills o with
      | f :: _ =>
          match PyFloat.py_float (fill_price f) with
          | inr _ => None
          | inl _ => held
          end
      | [] => held
      end
  | _ => held
  end.

Definition tracked (held : option position) (t : list event)
  : option position :=
  fold_left step t held.

(** A buy is in order when no position is held; a sale, when it sells the
    symbol held, in the quantity held rounded to six decimals. *)
Definition allowed (held : option position) (ev : event) : Prop :=
  match ev with
  | Call (OrderMarketBuy _ _) _ => held = None
  | Call (OrderMarketSell crypto q) _ =>
      exists amount_bought,
        held = Some (crypto, amount_bought) /\
        PyFloat.py_round amount_bought Bot.sell_precision = inr q
  | _ => True
  end.

Fixpoint orderly (held : option position) (t : list event) : Prop :=
  match t with
  | [] => True
  | ev :: rest => allowed held ev /\ orderly (step held ev) rest
  end.

Definition is_sleep (ev : event) : bool :=
  match ev with Sleep _ => true | _ => false end.

(** The trace of [round_trip_example] up to its sale, and the sale. *)
Definition round_trip_before : list event :=
  firstn 23 (snd round_trip_example).

Definition round_trip_sale : event :=
  Call (OrderMarketSell (Some "ETHUSDT") 0.02%float)
       (inr (Order (Mock.filled "2010.50" "0.02"))).

(** The first iteration of [round_trip_example]. *)
Definition bought_example : outcome (option trade) * Mock.world * list event :=
  Bot.iteration 5 None round_trip_world.

(** An event that is no order; one that is no order and no pause. *)
Definition no_order (ev : event) : Prop :=
  is_buy ev = false /\ is_sell ev = false.

Definition quiet (ev : event) : Prop :=
  is_buy ev = false /\ is_sell ev = false /\ is_sleep ev = false.

Definition round_trip_after : list event :=
  skipn 24 (snd round_trip_example).

(** The same market with a wait that is cut after one round. *)
Definition starved_example
  : outcome (option trade) * Mock.world * list event :=
  Bot.run_trading_bot 2 1 round_trip_world.

(** A scan in which BTCUSDT fails, ETHUSDT opens at an infinite price and
    BNBUSDT falls. *)
Definition nan_world : Mock.world :=
  {| Mock.klines_of := fun s =>
       if String.eqb s "BTCUSDT" then inl Mock.binance_error
       else if String.eqb s "ETHUSDT"
            then inr [ Mock.candle "inf" "1"; Mock.candle "1" "1" ]
            else if String.eqb s "BNBUSDT" then inr Mock.falling
                 else inr Mock.flat;
     Mock.tickers := [];
     Mock.info := inl Mock.binance_error;
     Mock.usdt := inl Mock.binance_error;
     Mock.buy := inl Mock.binance_error;
     Mock.sell := inl Mock.binance_error |}.

Definition nan_example
  : outcome (option string) * Mock.world * list event :=
  Bot.get_top_loss_crypto Bot.cryptos "1h" nan_world.

(** The symbols [cs], none of which delivered a change. *)
Definition failures (cs : list string) : list (string * option float) :=
  map (fun c => (c, None)) cs.

(** The entries of [nan_example] after ETHUSDT. *)
Definition nan_rest : list (string * option float) :=
  skipn 2 (changes (snd nan_example)).

(** What [nan_example] returns. *)
Definition nan_top : option string :=
  match fst (fst nan_example) with
  | Returned top => top
  | _ => None
  end.

(** The entry of ETHUSDT in [unfiltered_world], and the exchange information
    that holds it. *)
Definition unfiltered_entry : symbol_info :=
  {| symbol := "ETHUSDT";
     filters := [ Mock.lot_size "0.00010000" "0.00010000" ] |}.

Definition unfiltered_info : exchange_info :=
  {| symbols := [ unfiltered_entry ] |}.

End More.

(** ** The candles by their open time

    The source takes the two rows of a reply by their position.  Which of
    them is the most recent candle is told by the open time, the first field
    of a row, which the source never reads. *)
Module Candles.

Local Open Scope string_scope.

(** A natural number in decimal. *)
Fixpoint natural_from (acc : N) (s : string) : option N :=
  match s with
  | EmptyString => Some acc
  | String c rest =>
      if PyFloat.is_digit c
      then natural_from (10 * acc + Z.to_N (PyFloat.digit_val c)) rest
      else None
  end.

Definition natural (s : string) : option N :=
  match s with
  | EmptyString => None
  | _ => natural_from 0 s
  end.

(** The open time of a candle, in milliseconds. *)
Definition open_time (k : kline) : option N :=
  match k with
  | t :: _ => natural t
  | [] => None
  end.

(** The reply lists the older candle first. *)
Definition oldest_first (ohlcv : list kline) : bool :=
  match ohlcv with
  | [ a; b ] =>
      match open_time a, open_time b with
      | Some ta, Some tb => (ta <? tb)%N
      | _, _ => false
      end
  | _ => false
  end.

(** The two candles of a reply with the most recent one in front. *)
Definition newest_first (ohlcv : list kline) : list kline :=
  match ohlcv with
  | [ a; b ] => if oldest_first ohlcv then [ b; a ] else ohlcv
  | _ => ohlcv
  end.

(** Modelled on the specification's words: the percent change
    [(previous_close - current_open) / current_open * 100] with the open of
    the most recent candle and the close of the prior one. *)
Definition claimed_change (ohlcv : list kline) : exn + float :=
  Bot.price_change_percent (newest_first ohlcv).

(** A candle with its open time. *)
Definition candle_at (t open_ close_ : string) : kline :=
  [ t; open_; open_; close_; close_; "1" ].

(** Two hours of BTCUSDT and of ETHUSDT, the older candle first, as the
    klines endpoint of Binance lists them.  BTCUSDT fell from 100 to 90 and
    came back to 99; ETHUSDT fell from 100 to 95 and then opened and closed
    at 100. *)
Definition btc_hours : list kline :=
  [ candle_at "1700000000000" "100" "90";
    candle_at "1700003600000" "90" "99" ].

Definition eth_hours : list kline :=
  [ candle_at "1700000000000" "100" "95";
    candle_at "1700003600000" "100" "100" ].

Definition ascending_world : Mock.world :=
  {| Mock.klines_of := fun s =>
       if String.eqb s "BTCUSDT" then inr btc_hours
       else if String.eqb s "ETHUSDT" then inr eth_hours
            else inl Mock.binance_error;
     Mock.tickers := [];
     Mock.info := inl Mock.binance_error;
     Mock.usdt := inl Mock.binance_error;
     Mock.buy := inl Mock.binance_error;
     Mock.sell := inl Mock.binance_error |}.

Definition ascending_example
  : outcome (option string) * Mock.world * list event :=
  Bot.get_top_loss_crypto Bot.cryptos "1h" ascending_world.

(** The changes of a scan as the specification words them. *)
Definition claimed_changes (t : list event) : list (string * option float) :=
  flat_map (fun ev => match ev with
                      | Call (GetKlines s _ _) (inr (Klines ohlcv)) =>
                          match claimed_change ohlcv with
                          | inr change => [(s, Some change)]
                          | inl _ => [(s, None)]
                          end
                      | Call (GetKlines s _ _) _ => [(s, None)]
                      | _ => []
                      end) t.

End Candles.

(** ** The quantity of a buy as the specification words it *)
Module Lot.

Local Open Scope string_scope.

(** What follows the decimal point. *)
Fixpoint fraction (s : string) : string :=
  match s with
  | EmptyString => EmptyString
  | String c rest => if Ascii.eqb c "." then rest else fraction rest
  end.

(** The length of a string of digits without its trailing zeros. *)
Fixpoint significant (s : string) : nat :=
  match s with
  | EmptyString => O
  | String c rest =>
      match significant rest with
      | O => if Ascii.eqb c "0" then O else 1%nat
      | S n => S (S n)
      end
  end.

(** The precision implied by the decimal representation of a step size: the
    number of its decimals, [3] for ["0.00100000"] and [0] for
    ["1.00000000"]. *)
Definition decimals (s : string) : Z := Z.of_nat (significant (fraction s)).

(** Modelled on the specification's words:
    [max(minQty, floor(raw / stepSize) * stepSize)], the quotient and its
    floor computed as written, rounded to the precision implied by the
    decimal representation of [stepSize]. *)
Definition claimed_quantity (lot_size_filter : exchange_filter) (raw : float)
  : exn + float :=
  match PyFloat.py_float (minQty lot_size_filter) with
  | inl e => inl e
  | inr min_qty =>
  match PyFloat.py_float (stepSize lot_size_filter) with
  | inl e => inl e
  | inr step_size =>
  match PyFloat.py_truediv raw step_size with
  | inl e => inl e
  | inr quotient =>
      PyFloat.py_round
        (PyFloat.py_max min_qty (PyFloat.c_floor quotient * step_size)%float)
        (decimals (stepSize lot_size_filter))
  end end end.

(** The LOT_SIZE filter of ETHUSDT on [Mock.market_world]. *)
Definition eth_lot : exchange_filter :=
  Mock.lot_size "0.00010000" "0.00010000".

End Lot.

(** ** Exceptions that are not the exchange's *)
Module Outage.

Local Open Scope string_scope.

(** [requests.exceptions.ReadTimeout], which the client raises when the
    exchange does not answer in time. *)
Definition read_timeout : exn := OtherException "ReadTimeout".

(** No request is answered in time. *)
Definition silent_world : Mock.world :=
  {| Mock.klines_of := fun _ => inl read_timeout;
     Mock.tickers := [ inl read_timeout ];
     Mock.info := inl read_timeout;
     Mock.usdt := inr {| free := "100.00000000" |};
     Mock.buy := inl read_timeout;
     Mock.sell := inl read_timeout |}.

(** An iteration with a balance of 100 USDT and no candles in time. *)
Definition silent_example
  : outcome (option trade) * Mock.world * list event :=
  Bot.iteration 5 None silent_world.

(** A wait for the target whose first price request times out. *)
Definition silent_wait
  : outcome float * Mock.world * list event :=
  Bot.wait_for_pump 5 (Some "ETHUSDT") 2000%float 1.005%float silent_world.

(** A scan in which BTCUSDT is refused by the exchange, ETHUSDT times out
    and the other symbols have candles. *)
Definition late_world : Mock.world :=
  {| Mock.klines_of := fun s =>
       if String.eqb s "BTCUSDT" then inl Mock.binance_error
       else if String.eqb s "ETHUSDT" then inl read_timeout
            else inr Mock.falling;
     Mock.tickers := [];
     Mock.info := inl Mock.binance_error;
     Mock.usdt := inl Mock.binance_error;
     Mock.buy := inl Mock.binance_error;
     Mock.sell := inl Mock.binance_error |}.

Definition late_example
  : outcome (option string) * Mock.world * list event :=
  Bot.get_top_loss_crypto Bot.cryptos "1h" late_world.

End Outage.

(** ** The cycle of a held position *)
Module Cycle.

Local Open Scope string_scope.

(** The reply to an order as the trace records it. *)
Definition answer (reply : exn + order) : exn + response :=
  match reply with
  | inl e => inl e
  | inr o => inr (Order o)
  end.

(** A sale has gone through when the exchange answered with an order whose
    first fill has a price: [sell_crypto] then returns the order. *)
Definition went_through (reply : exn + order) : bool :=
  match reply with
  | inr o =>
      match fills o with
      | f :: _ =>
          match PyFloat.py_float (fill_price f) with
          | inr _ => true
          | inl _ => false
          end
      | [] => false
      end
  | inl _ => false
  end.

(** [active_trade] after a sale of [held]. *)
Definition after_sale (held : trade) (reply : exn + order) : option trade :=
  if went_through reply then None else Some held.

(** A position whose sale is rejected once and accepted at the second
    attempt. *)
Record retry_world : Type :=
  { attempts : nat; market : Mock.world }.

#[global] Instance retry_exchange : Exchange retry_world :=
  { get_klines := fun s i l w =>
      (fst (get_klines s i l (market w)), w);
    get_symbol_ticker := fun s w =>
      let '(r, m) := get_symbol_ticker s (market w) in
      (r, {| attempts := attempts w; market := m |});
    get_exchange_info := fun w => (fst (get_exchange_info (market w)), w);
    get_asset_balance := fun a w =>
      (fst (get_asset_balance a (market w)), w);
    order_market_buy := fun s q w =>
      (fst (order_market_buy s q (market w)), w);
    order_market_sell := fun s q w =>
      match attempts w with
      | O => (inl Mock.binance_error,
              {| attempts := 1; market := market w |})
      | S _ => (inr (Mock.filled "2011.00" "0.02"),
                {| attempts := S (attempts w); market := market w |})
      end }.

Definition retry_start : retry_world :=
  {| attempts := 0;
     market := Mock.hold_world (inl Mock.binance_error) |}.

(** Two iterations from the held position of [Mock.eth_trade]. *)
Definition retry_example
  : outcome (option trade) * retry_world * list event :=
  Bot.iterations 2 5 (Some Mock.eth_trade) retry_start.

(** The first wait of [retry_example], the world it leaves, and the world
    after the rejected sale. *)
Definition retry_wait : outcome float * retry_world * list event :=
  Bot.wait_for_pump 5 (Some "ETHUSDT") 2000%float Bot.default_target_gain
                    retry_start.

Definition retry_waited : retry_world := snd (fst retry_wait).

Definition retry_rejected : retry_world :=
  {| attempts := 1; market := market retry_waited |}.

(** The second wait, the world it leaves, and the world after the sale. *)
Definition retry_second_wait : outcome float * retry_world * list event :=
  Bot.wait_for_pump 5 (Some "ETHUSDT") 2000%float Bot.default_target_gain
                    retry_rejected.

Definition retry_rewaited : retry_world := snd (fst retry_second_wait).

Definition retry_sold : retry_world :=
  {| attempts := 2; market := market retry_rewaited |}.

End Cycle.

(** * Properties *)

(** ** The order of binary64 comparison *)
Module FloatOrder.

Ltac order_cases :=
  repeat match goal with
         | |- context [Z.compare ?a ?b] => destruct (Z.compare_spec a b)
         | H : context [Z.compare ?a ?b] |- _ => destruct (Z.compare_spec a b)
         | |- context [Pos.compare ?a ?b] => destruct (Pos.compare_spec a b)
         | H : context [Pos.compare ?a ?b] |- _ =>
             destruct (Pos.compare_spec a b)
         end;
  simpl in *; try congruence; try lia.

Ltac by_cases x := destruct x as [[|]|[|]| |[|] ? ?].

Lemma SFltb_irrefl (x : spec_float) : SFltb x x = false.
Proof.
  unfold SFltb, SFcompare; by_cases x; try reflexivity;
    rewrite ?Pos.compare_cont_spec; simpl; order_cases.
Qed.

Lemma SFltb_trans (x y z : spec_float) :
  SFltb x y = true -> SFltb y z = true -> SFltb x z = true.
Proof.
  unfold SFltb, SFcompare; by_cases x; by_cases y; try discriminate;
    by_cases z; try discriminate; try reflexivity;
    rewrite ?Pos.compare_cont_spec; simpl; intros; order_cases.
Qed.

(** Below [y] and not a nan: whatever is not below [y] is above [x]. *)
Lemma SFltb_below (x y z : spec_float) :
  SFltb x y = true -> SFltb z y = false -> z <> S754_nan ->
  SFltb x z = true.
Proof.
  unfold SFltb, SFcompare; by_cases x; by_cases y; try discriminate;
    by_cases z; try discriminate; try reflexivity; try congruence;
    rewrite ?Pos.compare_cont_spec; simpl; intros; order_cases.
Qed.

Lemma ltb_irrefl (x : float) : (x <? x)%float = false.
Proof. rewrite ltb_spec. apply SFltb_irrefl. Qed.

Lemma ltb_trans (x y z : float) :
  (x <? y)%float = true -> (y <? z)%float = true -> (x <? z)%float = true.
Proof. rewrite !ltb_spec. apply SFltb_trans. Qed.

Lemma not_nan (z : float) : is_nan z = false -> Prim2SF z <> S754_nan.
Proof.
  unfold is_nan. rewrite eqb_spec. intros H E. rewrite E in H. discriminate.
Qed.

Lemma ltb_below (x y z : float) :
  (x <? y)%float = true -> (z <? y)%float = false -> is_nan z = false ->
  (x <? z)%float = true.
Proof.
  rewrite !ltb_spec. intros H1 H2 H3.
  apply (SFltb_below _ _ _ H1 H2 (not_nan _ H3)).
Qed.

End FloatOrder.

(** ** Where no nan comes from *)
Module FloatNumbers.

Import PyFloat.

Local Open Scope Z_scope.

Lemma shr_1_nonneg (mrs : shr_record) :
  0 <= shr_m mrs -> 0 <= shr_m (shr_1 mrs).
Proof.
  destruct mrs as [m r s]. simpl.
  destruct m as [|[p|p|]|p]; simpl; lia.
Qed.

Lemma iter_shr_1_nonneg (p : positive) :
  forall mrs, 0 <= shr_m mrs -> 0 <= shr_m (iter_pos shr_1 p mrs).
Proof.
  induction p as [p IH|p IH|]; intros mrs H; simpl.
  - apply IH, IH, shr_1_nonneg, H.
  - apply IH, IH, H.
  - apply shr_1_nonneg, H.
Qed.

Lemma shr_fexp_nonneg (m e : Z) (l : location) :
  0 <= m -> 0 <= shr_m (fst (shr_fexp prec emax m e l)).
Proof.
  intros H. unfold shr_fexp, shr.
  assert (H0 : 0 <= shr_m (shr_record_of_loc m l))
    by (destruct l as [|[]]; exact H).
  destruct (fexp prec emax (Zdigits2 m + e) - e); simpl; try assumption.
  now apply iter_shr_1_nonneg.
Qed.

Lemma round_nearest_even_nonneg (m : Z) (l : location) :
  0 <= m -> 0 <= round_nearest_even m l.
Proof.
  intros H. destruct l as [|[]]; simpl; try lia.
  destruct (Z.even m); lia.
Qed.

(** Rounding a mantissa that is not negative never gives a nan. *)
Lemma binary_round_aux_number (s : bool) (m e : Z) (l : location) :
  0 <= m -> binary_round_aux prec emax s m e l <> S754_nan.
Proof.
  intros H. unfold binary_round_aux.
  pose proof (shr_fexp_nonneg m e l H) as H1.
  destruct (shr_fexp prec emax m e l) as [mrs' e']. simpl in H1.
  pose proof (shr_fexp_nonneg _ e' loc_Exact
                (round_nearest_even_nonneg _ (loc_of_shr_record mrs') H1))
    as H2.
  destruct (shr_fexp prec emax _ e' loc_Exact) as [mrs'' e'']. simpl in H2.
  destruct (shr_m mrs'') as [|p|p]; [discriminate| |lia].
  destruct (e'' <=? emax - prec); discriminate.
Qed.

Lemma binary_normalize_number (m e : Z) (sz : bool) :
  binary_normalize prec emax m e sz <> S754_nan.
Proof.
  unfold binary_normalize, binary_round.
  destruct m as [|p|p]; [discriminate| |].
  - destruct (shl_align p e _) as [mz ez]. now apply binary_round_aux_number.
  - destruct (shl_align p e _) as [mz ez]. now apply binary_round_aux_number.
Qed.

Lemma SFsub_number (x y : spec_float) :
  finite x -> finite y -> SFsub prec emax x y <> S754_nan.
Proof.
  destruct x as [sx|sx| |sx mx ex], y as [sy|sy| |sy my ey];
    simpl; try contradiction; intros _ _; try discriminate.
  - destruct sx, sy; discriminate.
  - apply binary_normalize_number.
Qed.

Lemma SFdiv_number (x : spec_float) (s : bool) (m : positive) (e : Z) :
  x <> S754_nan -> SFdiv prec emax x (S754_finite s m e) <> S754_nan.
Proof.
  destruct x as [sx|sx| |sx mx ex]; simpl; intros H; try discriminate.
  - congruence.
  - unfold SFdiv_core_binary.
    set (m' := match _ - _ - _ with Z0 => _ | Zpos _ => _ | Zneg _ => _ end).
    assert (Hm : 0 <= m').
    { subst m'. destruct (_ - _ - _); try lia. apply Z.shiftl_nonneg. lia. }
    pose proof (Z.div_pos m' (Zpos m) Hm eq_refl) as Hq.
    unfold Z.div in Hq.
    destruct (Z.div_eucl m' (Z.pos m)) as [q r].
    now apply binary_round_aux_number.
Qed.

Lemma SFmul_number (x : spec_float) (s : bool) (m : positive) (e : Z) :
  x <> S754_nan -> SFmul prec emax x (S754_finite s m e) <> S754_nan.
Proof.
  destruct x as [sx|sx| |sx mx ex]; simpl; intros H; try discriminate.
  - congruence.
  - apply binary_round_aux_number. lia.
Qed.

Lemma SFeqb_refl (x : spec_float) : x <> S754_nan -> SFeqb x x = true.
Proof.
  unfold SFeqb, SFcompare. destruct x as [[]|[]| |[] m e]; try reflexivity;
    try congruence; intros _; rewrite Z.compare_refl, Pos.compare_cont_refl;
    reflexivity.
Qed.

Lemma is_nan_false (x : float) : Prim2SF x <> S754_nan -> is_nan x = false.
Proof.
  intros H. unfold is_nan. rewrite eqb_spec, (SFeqb_refl _ H). reflexivity.
Qed.

Lemma is_finite_spec (x : float) : is_finite x = true -> finite (Prim2SF x).
Proof.
  unfold is_finite, is_nan, is_infinity.
  rewrite !eqb_spec, abs_spec.
  destruct (Prim2SF x) as [s|s| |s m e]; simpl; try trivial.
  - intros H. rewrite orb_true_r in H. discriminate.
  - discriminate.
Qed.

Lemma nonzero_spec (x : float) :
  is_finite x = true -> (x =? 0)%float = false ->
  exists s m e, Prim2SF x = S754_finite s m e.
Proof.
  intros Hf Hz. apply is_finite_spec in Hf. rewrite eqb_spec in Hz.
  destruct (Prim2SF x) as [s|s| |s m e]; try contradiction.
  - discriminate.
  - now exists s, m, e.
Qed.

(** The percent change of two finite prices, the first not zero, is a
    number. *)
Lemma percent_change_number (o c : float) :
  is_finite o = true -> is_finite c = true -> (o =? 0)%float = false ->
  is_nan ((c - o) / o * 100)%float = false.
Proof.
  intros Ho Hc Hz. apply is_nan_false.
  destruct (nonzero_spec o Ho Hz) as (s & m & e & Eo).
  rewrite mul_spec, div_spec, sub_spec.
  change (Prim2SF 100) with (S754_finite false 7036874417766400 (-46)).
  apply SFmul_number. rewrite Eo at 2. apply SFdiv_number.
  apply SFsub_number; now apply is_finite_spec.
Qed.

End FloatNumbers.

(** ** The float operations at some values

    Values of CPython's [float], [//] and [round] for comparison. *)
Module PyFloatExamples.

Import PyFloat.

Example float_of_step : py_float "0.00100000" = inr 0.001%float.
Proof. vm_compute. reflexivity. Qed.

Example float_of_spaced : py_float "  -1_0.5e-3 " = inr (-0.0105)%float.
Proof. vm_compute. reflexivity. Qed.

Example float_of_huge : py_float "1e400" = inr infinity.
Proof. vm_compute. reflexivity. Qed.

Example float_of_junk : py_float "1__0" = inl ValueError.
Proof. vm_compute. reflexivity. Qed.

Example find_in_step : str_find "0.00100000" "1" = 4%Z.
Proof. reflexivity. Qed.

Example find_in_one : str_find "1.00000000" "1" = 0%Z.
Proof. reflexivity. Qed.

Example find_nothing : str_find "0.5" "1" = (-1)%Z.
Proof. reflexivity. Qed.

Example floordiv_tenths : py_floordiv 1 0.1 = inr 9%float.
Proof. vm_compute. reflexivity. Qed.

Example floordiv_steps : py_floordiv 0.02 0.0001 = inr 199%float.
Proof. vm_compute. reflexivity. Qed.

Example floordiv_negative : py_floordiv (-7.5) 2 = inr (-4)%float.
Proof. vm_compute. reflexivity. Qed.

Example floordiv_by_zero : py_floordiv 1 0 = inl ZeroDivisionError.
Proof. vm_compute. reflexivity. Qed.

Example round_below_half : py_round 2.675 2 = inr 2.67%float.
Proof. vm_compute. reflexivity. Qed.

Example round_half_to_even : py_round 0.125 2 = inr 0.12%float.
Proof. vm_compute. reflexivity. Qed.

Example round_to_tens : py_round 25 (-1) = inr 20%float.
Proof. vm_compute. reflexivity. Qed.

Example round_too_large :
  py_round 1.7976931348623157e308 (-308) = inl OverflowError.
Proof. vm_compute. reflexivity. Qed.

End PyFloatExamples.

(** ** The exceptions of the pure steps *)
Module Raises.

Import PyFloat Bot.

Lemma py_float_raises (s : string) (e : exn) :
  py_float s = inl e -> e = ValueError.
Proof.
  unfold py_float.
  destruct (drop_underscores _ _) as [l|]; [|congruence].
  destruct (take_sign l) as [sg r].
  destruct (parse_unsigned sg r); congruence.
Qed.

Lemma getitem_raises {A} (l : list A) (i : nat) (e : exn) :
  getitem l i = inl e -> e = IndexError.
Proof. unfold getitem. destruct (nth_error l i); congruence. Qed.

Lemma py_truediv_raises (a b : float) (e : exn) :
  py_truediv a b = inl e -> e = ZeroDivisionError.
Proof. unfold py_truediv. destruct (b =? 0)%float; congruence. Qed.

(** The computation of the percent change never raises a
    [BinanceAPIException]: the handler of line 55 does not swallow its
    errors. *)
Lemma price_change_percent_raises (ohlcv : list kline) (e : exn) :
  price_change_percent ohlcv = inl e -> is_binance e = false.
Proof.
  unfold price_change_percent.
  repeat match goal with
         | |- context [match getitem ?l ?i with _ => _ end] =>
             let E := fresh "E" in
             destruct (getitem l i) eqn:E;
             [apply getitem_raises in E; subst; intros [= <-]; reflexivity|]
         | |- context [match py_float ?s with _ => _ end] =>
             let E := fresh "E" in
             destruct (py_float s) eqn:E;
             [apply py_float_raises in E; subst; intros [= <-]; reflexivity|]
         | |- context [match py_truediv ?a ?b with _ => _ end] =>
             let E := fresh "E" in
             destruct (py_truediv a b) eqn:E;
             [apply py_truediv_raises in E; subst; intros [= <-]; reflexivity|]
         end.
  discriminate.
Qed.

End Raises.

(** ** The scanner *)
Module Scanner.

Import PyFloat Bot Trace.

Lemma nth_error_snoc {A} (l : list A) (x y : A) (j : nat) :
  nth_error (l ++ [x]) j = Some y ->
  ((j < List.length l)%nat /\ nth_error l j = Some y) \/ (j = List.length l /\ y = x).
Proof.
  intros H. destruct (Nat.lt_ge_cases j (List.length l)) as [Hlt|Hge].
  - left. split; [assumption|]. now rewrite nth_error_app1 in H.
  - right. rewrite nth_error_app2 in H by assumption.
    destruct (j - List.length l)%nat as [|k] eqn:E; simpl in H.
    + split; [lia|congruence].
    + destruct k; discriminate.
Qed.

Lemma tracks_snoc (l : list (string * option float)) (b : best) (s : string)
    (o : option float) :
  (forall s' v', In (s', Some v') l -> is_nan v' = false) ->
  tracks l b ->
  tracks (l ++ [(s, o)])
         (match o with Some v => update b s v | None => b end).
Proof.
  intros Hnan Hb. destruct o as [v|].
  - unfold update, improves.
    destruct b as [[bv|] [bs|]]; simpl in *; try contradiction.
    + destruct Hb as (i & Hi & Hmin & Hfirst).
      assert (Hlen : (i < List.length l)%nat)
        by (apply nth_error_Some; congruence).
      destruct (v <? bv)%float eqn:Hlt; simpl.
      * exists (List.length l). split; [|split].
        -- rewrite nth_error_app2, Nat.sub_diag by lia. reflexivity.
        -- intros j s' v' Hj.
           destruct (nth_error_snoc _ _ _ _ Hj) as [[_ Hj']|[_ [= _ ->]]].
           ++ destruct (v' <? v)%float eqn:E; [|reflexivity].
              pose proof (Hmin _ _ _ Hj') as Hc.
              rewrite (FloatOrder.ltb_trans _ _ _ E Hlt) in Hc.
              discriminate Hc.
           ++ apply FloatOrder.ltb_irrefl.
        -- intros j s' v' Hjl Hj.
           rewrite nth_error_app1 in Hj by assumption.
           apply (FloatOrder.ltb_below _ _ _ Hlt (Hmin _ _ _ Hj)).
           apply (Hnan s'). eapply nth_error_In; eassumption.
      * exists i. split; [|split].
        -- rewrite nth_error_app1 by assumption. assumption.
        -- intros j s' v' Hj.
           destruct (nth_error_snoc _ _ _ _ Hj) as [[_ Hj']|[_ [= _ ->]]].
           ++ apply (Hmin _ _ _ Hj').
           ++ assumption.
        -- intros j s' v' Hji Hj.
           rewrite nth_error_app1 in Hj by lia.
           apply (Hfirst _ _ _ Hji Hj).
    + exists (List.length l). split; [|split].
      * rewrite nth_error_app2, Nat.sub_diag by lia. reflexivity.
      * intros j s' v' Hj.
        destruct (nth_error_snoc _ _ _ _ Hj) as [[_ Hj']|[_ [= _ ->]]].
        -- apply nth_error_In in Hj'. discriminate (Hb _ _ Hj').
        -- apply FloatOrder.ltb_irrefl.
      * intros j s' v' Hjl Hj.
        rewrite nth_error_app1 in Hj by assumption.
        apply nth_error_In in Hj. discriminate (Hb _ _ Hj).
  - destruct b as [[bv|] [bs|]]; simpl in *; try contradiction.
    + destruct Hb as (i & Hi & Hmin & Hfirst).
      assert (Hlen : (i < List.length l)%nat)
        by (apply nth_error_Some; congruence).
      exists i. split; [|split].
      * rewrite nth_error_app1 by assumption. assumption.
      * intros j s' v' Hj.
        destruct (nth_error_snoc _ _ _ _ Hj) as [[_ Hj']|[_ [=]]].
        apply (Hmin _ _ _ Hj').
      * intros j s' v' Hji Hj.
        rewrite nth_error_app1 in Hj by lia.
        apply (Hfirst _ _ _ Hji Hj).
    + intros s' o' Hin. apply in_app_or in Hin.
      destruct Hin as [Hin|[[= _ <-]|[]]]; [apply (Hb _ _ Hin)|reflexivity].
Qed.

Lemma changes_app (t1 t2 : list event) :
  changes (t1 ++ t2) = changes t1 ++ changes t2.
Proof. apply flat_map_app. Qed.

Lemma requests_app (t1 t2 : list event) :
  requests (t1 ++ t2) = requests t1 ++ requests t2.
Proof. apply flat_map_app. Qed.

Lemma in_requests (t : list event) (req : request) (reply : exn + response) :
  In (Call req reply) t -> In req (requests t).
Proof.
  intros H. apply in_flat_map. exists (Call req reply).
  split; [assumption|now left].
Qed.

(** What a computable percent change was computed from. *)
Lemma price_change_percent_inr (ohlcv : list kline) (change : float) :
  price_change_percent ohlcv = inr change ->
  exists row0 row1 o c current_open previous_close,
    nth_error ohlcv 0 = Some row0 /\ nth_error row0 1 = Some o /\
    py_float o = inr current_open /\
    nth_error ohlcv 1 = Some row1 /\ nth_error row1 4 = Some c /\
    py_float c = inr previous_close /\
    (current_open =? 0)%float = false /\
    change = percent_change current_open previous_close.
Proof.
  unfold price_change_percent, getitem, py_truediv, percent_change.
  destruct (nth_error ohlcv 0) as [row0|] eqn:E0; [|discriminate].
  destruct (nth_error row0 1) as [o|] eqn:E1; [|discriminate].
  destruct (py_float o) as [|current_open] eqn:E2; [discriminate|].
  destruct (nth_error ohlcv 1) as [row1|] eqn:E3; [|discriminate].
  destruct (nth_error row1 4) as [c|] eqn:E4; [|discriminate].
  destruct (py_float c) as [|previous_close] eqn:E5; [discriminate|].
  destruct (current_open =? 0)%float eqn:E; [discriminate|].
  intros [= <-]. exists row0, row1, o, c, current_open, previous_close.
  repeat split; assumption.
Qed.

(** The loop keeps the first minimum of the changes. *)
Lemma chosen_tracks (l : list (string * option float)) :
  (forall s v, In (s, Some v) l -> is_nan v = false) ->
  tracks l (chosen (None, None) l).
Proof.
  induction l as [|[s o] l IH] using rev_ind; intros Hnan.
  - intros s o [].
  - unfold chosen. rewrite fold_left_app. simpl.
    apply tracks_snoc.
    + intros s' v' Hin. apply (Hnan s'). apply in_or_app. now left.
    + apply IH. intros s' v' Hin. apply (Hnan s'). apply in_or_app. now left.
Qed.

Lemma reply_okb_ok (t : list event) :
  forallb reply_okb t = true -> Forall reply_ok t.
Proof.
  intros H. apply Forall_forall. intros ev Hin.
  pose proof (proj1 (forallb_forall _ _) H _ Hin) as Hev.
  destruct ev as [[c i l| | | | |] [e|[ohlcv| | | |]]| |];
    simpl in *; trivial; try discriminate.
  destruct (price_change_percent ohlcv) as [|change]; [discriminate|].
  now exists change.
Qed.

Lemma fetch_failedb_ok (t : list event) :
  forallb fetch_failedb t = true ->
  forall c i l reply, In (Call (GetKlines c i l) reply) t ->
                      exists msg, reply = inl (BinanceAPIException msg).
Proof.
  intros H c i l reply Hin.
  pose proof (proj1 (forallb_forall _ _) H _ Hin) as Hev. simpl in Hev.
  destruct reply as [[msg| | | | | |]|]; try discriminate. now exists msg.
Qed.

Lemma numberb_ok (l : list (string * option float)) :
  forallb numberb l = true ->
  forall s v, In (s, Some v) l -> is_nan v = false.
Proof.
  intros H s v Hin.
  pose proof (proj1 (forallb_forall _ _) H _ Hin) as Hv.
  unfold numberb in Hv. simpl in Hv. now destruct (is_nan v).
Qed.

(** Candles whose prices are finite give changes that are numbers. *)
Lemma finite_prices_numbers (t : list event) :
  (forall c i l ohlcv row0 row1 o cl current_open previous_close,
      In (Call (GetKlines c i l) (inr (Klines ohlcv))) t ->
      nth_error ohlcv 0 = Some row0 -> nth_error row0 1 = Some o ->
      py_float o = inr current_open ->
      nth_error ohlcv 1 = Some row1 -> nth_error row1 4 = Some cl ->
      py_float cl = inr previous_close ->
      is_finite current_open = true /\ is_finite previous_close = true) ->
  forall s v, In (s, Some v) (changes t) -> is_nan v = false.
Proof.
  intros Hfin s v Hin. apply in_flat_map in Hin.
  destruct Hin as (ev & Hev & Hin).
  destruct ev as [[c i l| | | | |] [e|[ohlcv| | | |]]| |];
    simpl in Hin; try contradiction;
    try (destruct Hin as [[=]|[]]; fail).
  destruct (price_change_percent ohlcv) as [e|change] eqn:Ec;
    destruct Hin as [[= _ <-]|[]].
  destruct (price_change_percent_inr _ _ Ec)
    as (row0 & row1 & o & cl & co & pc & H0 & H1 & H2 & H3 & H4 & H5 & Hz & ->).
  destruct (Hfin _ _ _ _ _ _ _ _ _ _ Hev H0 H1 H2 H3 H4 H5) as [Ho Hc].
  now apply FloatNumbers.percent_change_number.
Qed.

(** Once a symbol is chosen, one stays chosen; none is chosen as long as
    every entry failed. *)
Lemma chosen_none_from (l : list (string * option float)) :
  forall b : best,
    (fst b = None <-> snd b = None) ->
    (snd (chosen b l) = None <-> snd b = None /\ all_failed l).
Proof.
  induction l as [|[s o] l IH]; intros b Hb.
  - simpl. split; [intros H; split; [assumption|intros ? ? []]|tauto].
  - unfold chosen. simpl. fold (chosen (match o with
                                        | Some v => update b s v
                                        | None => b
                                        end) l).
    rewrite IH.
    + destruct o as [v|].
      * unfold update, improves. split.
        -- intros [H _]. exfalso. destruct b as [[bv|] bc]; simpl in *.
           ++ destruct (v <? bv)%float; simpl in H; [discriminate|].
              destruct Hb as [_ Hb]. discriminate (Hb H).
           ++ discriminate.
        -- intros [_ H]. discriminate (H s (Some v) (or_introl eq_refl)).
      * split; intros [H1 H2]; (split; [assumption|]).
        -- intros s' o' [[= _ <-]|Hin]; [reflexivity|apply (H2 _ _ Hin)].
        -- intros s' o' Hin. apply (H2 s'). now right.
    + destruct o as [v|]; [|assumption].
      unfold update. destruct (improves v (fst b)); [|assumption].
      simpl. split; discriminate.
Qed.

Lemma chosen_all_failed (l : list (string * option float)) (b : best) :
  all_failed l -> chosen b l = b.
Proof.
  induction l as [|[s o] l IH]; intros Hall; [reflexivity|].
  unfold chosen. simpl. rewrite (Hall s o (or_introl eq_refl)).
  apply IH. intros s' o' Hin. apply (Hall s'). now right.
Qed.

Lemma chosen_none (l : list (string * option float)) :
  snd (chosen (None, None) l) = None <-> all_failed l.
Proof. rewrite chosen_none_from; simpl; tauto. Qed.

Section WithClient.

Context {W : Type} {client : Exchange W}.

(** One round of the [for] loop, by the reply of the exchange. *)
Lemma scan_symbol_eq (tf : string) (b : best) (c : string) (w : W) :
  scan_symbol tf b c w =
  match get_klines c tf 2 w with
  | (inl e, w1) =>
      if is_binance e
      then (Returned b, w1,
            [Call (GetKlines c tf 2) (inl e); Log (LogKlinesError c e)])
      else (Raised e, w1, [Call (GetKlines c tf 2) (inl e)])
  | (inr ohlcv, w1) =>
      match price_change_percent ohlcv with
      | inr change =>
          (Returned (update b c change), w1,
           [Call (GetKlines c tf 2) (inr (Klines ohlcv))])
      | inl e => (Raised e, w1, [Call (GetKlines c tf 2) (inr (Klines ohlcv))])
      end
  end.
Proof.
  unfold scan_symbol, try_binance, bind, client_get_klines, client_call, lift.
  destruct (get_klines c tf 2 w) as [[e|ohlcv] w1]; simpl.
  - destruct (is_binance e); reflexivity.
  - destruct (price_change_percent ohlcv) as [e|change] eqn:E; simpl.
    + now rewrite (Raises.price_change_percent_raises _ _ E).
    + reflexivity.
Qed.

(** The whole loop, in a run whose replies are all digestible: it returns,
    it has asked for every symbol in turn, it has logged every failure, and
    its variables are those [chosen] along the watchlist. *)
Lemma scan_run (tf : string) (cs : list string) :
  forall (b : best) (w w' : W) (r : outcome best) (t : list event),
    scan tf b cs w = (r, w', t) ->
    Forall reply_ok t ->
    r = Returned (chosen b (changes t)) /\
    requests t = map (fun c => GetKlines c tf 2) cs /\
    map fst (changes t) = cs /\
    (forall req e, In (Call req (inl e)) t ->
                   exists c, req = GetKlines c tf 2 /\
                             In (Log (LogKlinesError c e)) t).
Proof.
  induction cs as [|c cs IH]; intros b w w' r t Hrun Hok.
  - injection Hrun as <- <- <-. repeat split. intros req e [].
  - simpl in Hrun. unfold bind in Hrun. rewrite scan_symbol_eq in Hrun.
    destruct (get_klines c tf 2 w) as [[e|ohlcv] w1].
    + destruct (is_binance e) eqn:Eb.
      * destruct (scan tf b cs w1) as [[r2 w2] t2] eqn:E2.
        injection Hrun as <- <- <-.
        inversion Hok as [|? ? _ Hok1]; subst.
        inversion Hok1 as [|? ? _ Hok2]; subst.
        destruct (IH _ _ _ _ _ E2 Hok2) as (-> & Hreq & Hsym & Hlog).
        split; [reflexivity|split; [|split]].
        -- simpl. now rewrite Hreq.
        -- simpl. now rewrite Hsym.
        -- intros req e' [[= <- <-]|[[=]|Hin]].
           ++ exists c. split; [reflexivity|]. right. now left.
           ++ destruct (Hlog _ _ Hin) as (c' & -> & Hin').
              exists c'. split; [reflexivity|]. right. now right.
      * injection Hrun as <- <- <-.
        inversion Hok as [|? ? H1 _]; subst. simpl in H1. congruence.
    + destruct (price_change_percent ohlcv) as [e|change] eqn:Ec.
      * injection Hrun as <- <- <-.
        inversion Hok as [|? ? H1 _]; subst. simpl in H1.
        destruct H1 as [x H1]. congruence.
      * destruct (scan tf (update b c change) cs w1) as [[r2 w2] t2] eqn:E2.
        injection Hrun as <- <- <-.
        inversion Hok as [|? ? _ Hok1]; subst.
        destruct (IH _ _ _ _ _ E2 Hok1) as (-> & Hreq & Hsym & Hlog).
        split; [|split; [|split]].
        -- simpl. rewrite Ec. reflexivity.
        -- simpl. now rewrite Hreq.
        -- simpl. rewrite Ec. simpl. now rewrite Hsym.
        -- intros req e' [[=]|Hin].
           destruct (Hlog _ _ Hin) as (c' & -> & Hin').
           exists c'. split; [reflexivity|]. now right.
Qed.

(** [get_top_loss_crypto] is the loop followed by one log record. *)
Lemma get_top_loss_crypto_eq (cs : list string) (tf : string) (w : W) :
  get_top_loss_crypto cs tf w =
  match scan tf (None, None) cs w with
  | (Returned (best_loss, best_crypto), w1, t1) =>
      (Returned best_crypto, w1,
       t1 ++ [Log (LogTopLoss tf best_crypto best_loss)])
  | (Raised e, w1, t1) => (Raised e, w1, t1)
  | (Running, w1, t1) => (Running, w1, t1)
  end.
Proof.
  unfold get_top_loss_crypto, bind.
  destruct (scan tf (None, None) cs w) as [[[[bl bc]|e|] w1] t1]; reflexivity.
Qed.

(** A scan whose fetches all failed: it returns [None], says so in its last
    log record, and has asked for every symbol and placed no order. *)
Lemma all_failed_none (cs : list string) (tf : string) (w w' : W)
    (r : outcome (option string)) (t : list event) :
  get_top_loss_crypto cs tf w = (r, w', t) ->
  (forall c i l reply, In (Call (GetKlines c i l) reply) t ->
                       exists msg, reply = inl (BinanceAPIException msg)) ->
  r = Returned None /\
  In (Log (LogTopLoss tf None None)) t /\
  requests t = map (fun c => GetKlines c tf 2) cs.
Proof.
  intros Hrun Hall. rewrite get_top_loss_crypto_eq in Hrun.
  destruct (scan tf (None, None) cs w) as [[r1 w1] t1] eqn:E.
  assert (Hsub : forall ev, In ev t1 -> In ev t).
  { intros ev Hin. destruct r1 as [[bl bc]| |]; injection Hrun as <- <- <-;
      try assumption. apply in_or_app. now left. }
  assert (Hok1 : Forall reply_ok t1).
  { apply Forall_forall. intros ev Hin.
    destruct ev as [[c i l| | | | |] reply| |]; simpl; trivial.
    destruct (Hall _ _ _ _ (Hsub _ Hin)) as [msg ->]. reflexivity. }
  destruct (scan_run _ _ _ _ _ _ _ E Hok1) as (-> & Hreq & _ & _).
  assert (Hch : chosen (None, None) (changes t1) = (None, None)).
  { apply chosen_all_failed. intros s o Hin. apply in_flat_map in Hin.
    destruct Hin as (ev & Hev & Hin).
    destruct ev as [[c i l| | | | |] reply| |]; try contradiction.
    destruct (Hall _ _ _ _ (Hsub _ Hev)) as [msg ->].
    simpl in Hin. destruct Hin as [[= _ <-]|[]]. reflexivity. }
  rewrite Hch in Hrun. injection Hrun as <- <- <-.
  split; [reflexivity|]. split.
  - apply in_or_app. right. now left.
  - rewrite requests_app. simpl. now rewrite app_nil_r.
Qed.

(** Whatever the replies, the scan sends nothing but candle requests. *)
Lemma scan_no_order (tf : string) (cs : list string) :
  forall (b : best) (w w' : W) (r : outcome best) (t : list event),
    scan tf b cs w = (r, w', t) ->
    forall ev, In ev t -> is_buy ev = false.
Proof.
  induction cs as [|c cs IH]; intros b w w' r t Hrun ev Hin.
  - injection Hrun as <- <- <-. destruct Hin.
  - simpl in Hrun. unfold bind in Hrun. rewrite scan_symbol_eq in Hrun.
    destruct (get_klines c tf 2 w) as [[e|ohlcv] w1].
    + destruct (is_binance e).
      * destruct (scan tf b cs w1) as [[r2 w2] t2] eqn:E2.
        injection Hrun as <- <- <-.
        destruct Hin as [<-|[<-|Hin]]; try reflexivity.
        apply (IH _ _ _ _ _ E2 _ Hin).
      * injection Hrun as <- <- <-. now destruct Hin as [<-|[]].
    + destruct (price_change_percent ohlcv) as [e|change].
      * injection Hrun as <- <- <-. now destruct Hin as [<-|[]].
      * destruct (scan tf (update b c change) cs w1) as [[r2 w2] t2] eqn:E2.
        injection Hrun as <- <- <-.
        destruct Hin as [<-|Hin]; try reflexivity.
        apply (IH _ _ _ _ _ E2 _ Hin).
Qed.

Lemma get_top_loss_crypto_no_order (cs : list string) (tf : string)
    (w w' : W) (r : outcome (option string)) (t : list event) :
  get_top_loss_crypto cs tf w = (r, w', t) ->
  forall ev, In ev t -> is_buy ev = false.
Proof.
  rewrite get_top_loss_crypto_eq.
  destruct (scan tf (None, None) cs w) as [[r1 w1] t1] eqn:E.
  pose proof (scan_no_order _ _ _ _ _ _ _ E) as H.
  destruct r1 as [[bl bc]|e|]; intros [= <- <- <-] ev Hin;
    try (now apply H).
  apply in_app_or in Hin. destruct Hin as [Hin|[<-|[]]];
    [now apply H|reflexivity].
Qed.

(** The scan places no order. *)
Lemma scan_no_buy (cs : list string) (tf : string) (t : list event) :
  requests t = map (fun c => GetKlines c tf 2) cs ->
  forall ev, In ev t -> is_buy ev = false.
Proof.
  intros Hreq ev Hin.
  destruct ev as [[c i l| | | |c q|] reply| |]; try reflexivity.
  apply in_requests in Hin. rewrite Hreq in Hin.
  apply in_map_iff in Hin. destruct Hin as (x & [=] & _).
Qed.

End WithClient.

End Scanner.

(** ** The scanner: selection and failures *)

Import PyFloat Bot Trace.

Section ScannerClaims.

Context {W : Type} {client : Exchange W}.

(** X13.  In a run of [get_top_loss_crypto] over any watchlist and timeframe
    the exchange is asked for two candles of every symbol, in the order of
    the watchlist; each pair that arrives is valued at
    [(close - open) / open * 100], where [open] is column 1 of the first row
    of the reply and [close] column 4 of its second row, whichever of the
    two rows is the more recent candle; and the symbol returned attains the
    minimum of these values and is the first of the watchlist to attain
    it.  The hypotheses say that the replies are candles or
    [BinanceAPIException]s and that no value is a nan, for which "minimum"
    has no meaning; finite prices give no nan
    ([Scanner.finite_prices_numbers]). *)
Theorem get_top_loss_crypto_first_minimum
    (cryptos : list string) (timeframe : string) (w w' : W)
    (r : outcome (option string)) (t : list event) :
  get_top_loss_crypto cryptos timeframe w = (r, w', t) ->
  Forall reply_ok t ->
  (forall s v, In (s, Some v) (changes t) -> is_nan v = false) ->
  requests t = map (fun c => GetKlines c timeframe 2) cryptos /\
  map fst (changes t) = cryptos /\
  (forall c i l ohlcv,
      In (Call (GetKlines c i l) (inr (Klines ohlcv))) t ->
      exists row0 row1 o cl current_open previous_close,
        nth_error ohlcv 0 = Some row0 /\ nth_error row0 1 = Some o /\
        py_float o = inr current_open /\
        nth_error ohlcv 1 = Some row1 /\ nth_error row1 4 = Some cl /\
        py_float cl = inr previous_close /\
        In (c, Some (percent_change current_open previous_close))
           (changes t)) /\
  exists best_crypto,
    r = Returned best_crypto /\
    match best_crypto with
    | Some s => first_minimum (changes t) s
    | None => all_failed (changes t)
    end.
Proof.
  intros Hrun Hok Hnan. rewrite Scanner.get_top_loss_crypto_eq in Hrun.
  destruct (scan timeframe (None, None) cryptos w) as [[r1 w1] t1] eqn:E.
  assert (Hch : forall x, changes (t1 ++ [Log x]) = changes t1)
    by (intros x; rewrite Scanner.changes_app; apply app_nil_r).
  assert (Hrq : forall x, requests (t1 ++ [Log x]) = requests t1)
    by (intros x; rewrite Scanner.requests_app; apply app_nil_r).
  assert (Hsub : forall ev, In ev t1 -> In ev t).
  { intros ev Hin. destruct r1 as [[bl bc]| |]; injection Hrun as <- <- <-;
      try assumption. apply in_or_app. now left. }
  assert (Hok1 : Forall reply_ok t1).
  { apply Forall_forall. intros ev Hin.
    apply (proj1 (Forall_forall _ _) Hok _ (Hsub _ Hin)). }
  destruct (Scanner.scan_run _ _ _ _ _ _ _ E Hok1) as (-> & Hreq & Hsym & _).
  destruct (chosen (None, None) (changes t1)) as [bl bc] eqn:Ech.
  injection Hrun as <- <- <-. rewrite Hch, Hrq.
  split; [assumption|]. split; [assumption|]. split.
  - intros c i l ohlcv Hin.
    apply in_app_or in Hin. destruct Hin as [Hin|[[=]|[]]].
    pose proof (proj1 (Forall_forall _ _) Hok1 _ Hin) as [change Hc].
    destruct (Scanner.price_change_percent_inr _ _ Hc)
      as (row0 & row1 & o & cl & co & pc & H0 & H1 & H2 & H3 & H4 & H5 & _ & ->).
    exists row0, row1, o, cl, co, pc. repeat (split; [assumption|]).
    apply in_flat_map. exists (Call (GetKlines c i l) (inr (Klines ohlcv))).
    split; [assumption|]. simpl. rewrite Hc. now left.
  - exists bc. split; [reflexivity|].
    assert (Htr : tracks (changes t1) (bl, bc)).
    { rewrite <- Ech. apply Scanner.chosen_tracks.
      intros s v Hin. apply (Hnan s). now rewrite Hch. }
    destruct bl as [v|], bc as [s|]; simpl in Htr; try contradiction.
    + destruct Htr as (i & Hi). exists i, v. exact Hi.
    + exact Htr.
Qed.

(** C8.  In a scan whose candle requests are answered with candles that
    give a change or fail with a [BinanceAPIException], and however these
    failures fall on the watchlist, the scan goes on: it returns, having
    asked for every symbol of the watchlist in turn and logged an error for
    each that failed; and it returns [None] exactly when every fetch
    failed.  A failure that is no [BinanceAPIException] is not skipped
    ([get_top_loss_crypto_aborts_on_timeout]). *)
Theorem get_top_loss_crypto_skips_failures
    (cryptos : list string) (timeframe : string) (w w' : W)
    (r : outcome (option string)) (t : list event) :
  get_top_loss_crypto cryptos timeframe w = (r, w', t) ->
  Forall reply_ok t ->
  requests t = map (fun c => GetKlines c timeframe 2) cryptos /\
  (forall req e, In (Call req (inl e)) t ->
                 exists c msg, req = GetKlines c timeframe 2 /\
                               e = BinanceAPIException msg /\
                               In (Log (LogKlinesError c e)) t) /\
  exists best_crypto,
    r = Returned best_crypto /\
    (best_crypto = None <->
     forall c i l reply, In (Call (GetKlines c i l) reply) t ->
                         exists msg, reply = inl (BinanceAPIException msg)).
Proof.
  intros Hrun Hok. rewrite Scanner.get_top_loss_crypto_eq in Hrun.
  destruct (scan timeframe (None, None) cryptos w) as [[r1 w1] t1] eqn:E.
  assert (Hch : forall x, changes (t1 ++ [Log x]) = changes t1)
    by (intros x; rewrite Scanner.changes_app; apply app_nil_r).
  assert (Hrq : forall x, requests (t1 ++ [Log x]) = requests t1)
    by (intros x; rewrite Scanner.requests_app; apply app_nil_r).
  assert (Hsub : forall ev, In ev t1 -> In ev t).
  { intros ev Hin. destruct r1 as [[bl bc]| |]; injection Hrun as <- <- <-;
      try assumption. apply in_or_app. now left. }
  assert (Hok1 : Forall reply_ok t1).
  { apply Forall_forall. intros ev Hin.
    apply (proj1 (Forall_forall _ _) Hok _ (Hsub _ Hin)). }
  destruct (Scanner.scan_run _ _ _ _ _ _ _ E Hok1) as (-> & Hreq & Hsym & Hlog).
  pose proof (Scanner.chosen_none (changes t1)) as Hnone.
  destruct (chosen (None, None) (changes t1)) as [bl bc] eqn:Ech.
  injection Hrun as <- <- <-. rewrite Hrq.
  split; [assumption|]. split.
  - intros req e Hin. apply in_app_or in Hin. destruct Hin as [Hin|[[=]|[]]].
    destruct (Hlog _ _ Hin) as (c & -> & Hl).
    pose proof (proj1 (Forall_forall _ _) Hok1 _ Hin) as Hb. simpl in Hb.
    destruct e as [msg| | | | | |]; try discriminate Hb.
    exists c, msg. repeat split. apply in_or_app. now left.
  - exists bc. split; [reflexivity|]. simpl in Hnone. rewrite Hnone.
    split.
    + intros Hall c i l reply Hin.
      apply in_app_or in Hin. destruct Hin as [Hin|[[=]|[]]].
      pose proof (proj1 (Forall_forall _ _) Hok1 _ Hin) as Hb.
      destruct reply as [e|[ohlcv| | | |]].
      * simpl in Hb. destruct e as [msg| | | | | |]; try discriminate Hb.
        now exists msg.
      * simpl in Hb. destruct Hb as [change Hc]. exfalso.
        assert (Hin' : In (c, Some change) (changes t1)).
        { apply in_flat_map.
          exists (Call (GetKlines c i l) (inr (Klines ohlcv))).
          split; [assumption|]. simpl. rewrite Hc. now left. }
        discriminate (Hall _ _ Hin').
      * contradiction.
      * contradiction.
      * contradiction.
      * contradiction.
    + intros Hall s o Hin. apply in_flat_map in Hin.
      destruct Hin as (ev & Hev & Hin).
      destruct ev as [[c i l| | | | |] reply| |]; try contradiction.
      destruct (Hall _ _ _ _ (in_or_app _ _ _ (or_introl Hev))) as [msg ->].
      simpl in Hin. destruct Hin as [[= _ <-]|[]]. reflexivity.
Qed.

End ScannerClaims.

(** The scripted scan: its replies are digestible and its values numbers. *)
Lemma scan_example_eq :
  get_top_loss_crypto cryptos "1h" Mock.scan_world =
  (fst (fst Mock.scan_example), snd (fst Mock.scan_example),
   snd Mock.scan_example).
Proof. unfold Mock.scan_example. now destruct (get_top_loss_crypto _ _ _) as [[? ?] ?]. Defined.

Lemma scan_example_ok : Forall reply_ok (snd Mock.scan_example).
Proof. apply Scanner.reply_okb_ok. vm_compute. reflexivity. Defined.

Lemma scan_example_numbers :
  forall s v, In (s, Some v) (changes (snd Mock.scan_example)) ->
              is_nan v = false.
Proof. apply Scanner.numberb_ok. vm_compute. reflexivity. Defined.

(** X13 at the scripted scan: ETHUSDT and BNBUSDT tie, ETHUSDT comes
    first. *)
Lemma get_top_loss_crypto_first_minimum_witness :
  fst (fst Mock.scan_example) = Returned (Some "ETHUSDT"%string) /\
  exists best_crypto,
    fst (fst Mock.scan_example) = Returned best_crypto /\
    match best_crypto with
    | Some s => first_minimum (changes (snd Mock.scan_example)) s
    | None => all_failed (changes (snd Mock.scan_example))
    end.
Proof.
  split; [vm_compute; reflexivity|].
  exact (proj2 (proj2 (proj2
    (get_top_loss_crypto_first_minimum cryptos "1h" Mock.scan_world _ _ _
       scan_example_eq scan_example_ok scan_example_numbers)))).
Defined.

(** C8 at the scripted scan: BTCUSDT fails and is logged, the other ten
    symbols are still asked for, and a symbol is returned. *)
Lemma get_top_loss_crypto_skips_failures_witness :
  requests (snd Mock.scan_example) =
    map (fun c => GetKlines c "1h" 2) cryptos /\
  In (Log (LogKlinesError "BTCUSDT" Mock.binance_error))
     (snd Mock.scan_example) /\
  exists best_crypto,
    fst (fst Mock.scan_example) = Returned best_crypto /\
    (best_crypto = None <->
     forall c i l reply,
       In (Call (GetKlines c i l) reply) (snd Mock.scan_example) ->
       exists msg, reply = inl (BinanceAPIException msg)).
Proof.
  pose proof (get_top_loss_crypto_skips_failures cryptos "1h" Mock.scan_world
                _ _ _ scan_example_eq scan_example_ok) as (H1 & _ & H3).
  split; [exact H1|]. split; [|exact H3].
  vm_compute. right. left. reflexivity.
Defined.

(** ** The pieces of the trading loop, by the replies of the exchange *)
Module Steps.

Lemma py_round_raises (x : float) (n : Z) (e : exn) :
  py_round x n = inl e -> e = OverflowError.
Proof.
  unfold py_round. destruct (Prim2SF x); try discriminate.
  destruct (323 <? n)%Z; [discriminate|].
  destruct (n <? -308)%Z; [discriminate|].
  destruct (is_infinity _); congruence.
Qed.

(** No entry of the exchange information is the entry of [None]. *)
Lemma next_such_None (l : list symbol_info) :
  next_such (fun item => symbol_eqb (symbol item) None) l = inl StopIteration.
Proof.
  unfold next_such.
  replace (find _ l) with (@None symbol_info); [reflexivity|].
  induction l as [|x l IH]; simpl; [reflexivity|assumption].
Qed.

Section WithClient.

Context {W : Type} {client : Exchange W}.

(** [sell_crypto], by the reply to the order. *)
Lemma sell_crypto_eq (c : option string) (amount : float) (w : W) :
  sell_crypto c amount w =
  match py_round amount sell_precision with
  | inl e => (Raised e, w, [])
  | inr q =>
      match order_market_sell c q w with
      | (inl e, w1) =>
          if is_binance e
          then (Returned None, w1,
                [Call (OrderMarketSell c q) (inl e); Log (LogSellError c e)])
          else (Raised e, w1, [Call (OrderMarketSell c q) (inl e)])
      | (inr o, w1) =>
          match fills o with
          | [] => (Raised IndexError, w1,
                   [Call (OrderMarketSell c q) (inr (Order o))])
          | f :: _ =>
              match py_float (fill_price f) with
              | inl _ => (Raised ValueError, w1,
                          [Call (OrderMarketSell c q) (inr (Order o))])
              | inr sell_price =>
                  (Returned (Some o), w1,
                   [Call (OrderMarketSell c q) (inr (Order o));
                    Log (LogSold q c sell_price)])
              end
          end
      end
  end.
Proof.
  unfold sell_crypto, try_binance, bind, client_order_market_sell,
    client_call, lift, getitem.
  destruct (py_round amount sell_precision) as [e|q] eqn:Er; simpl.
  - now rewrite (py_round_raises _ _ _ Er).
  - destruct (order_market_sell c q w) as [[e|o] w1]; simpl.
    + destruct (is_binance e); reflexivity.
    + destruct (fills o) as [|f rest]; simpl; [reflexivity|].
      destruct (py_float (fill_price f)) as [e|p] eqn:Ep; simpl.
      * now rewrite (Raises.py_float_raises _ _ Ep).
      * reflexivity.
Qed.

(** One round of [wait_for_pump], by the reply to the price request. *)
Lemma poll_eq (c : option string) (buy_price target_gain : float) (w : W) :
  poll c buy_price target_gain w =
  match get_symbol_ticker c w with
  | (inl e, w1) =>
      if is_binance e
      then (Returned None, w1,
            [Call (GetSymbolTicker c) (inl e); Log (LogPriceError c e);
             Sleep 1])
      else (Raised e, w1, [Call (GetSymbolTicker c) (inl e)])
  | (inr tk, w1) =>
      match py_float (price tk) with
      | inl _ => (Raised ValueError, w1,
                  [Call (GetSymbolTicker c) (inr (Ticker tk))])
      | inr current_price =>
          if (buy_price * target_gain <=? current_price)%float
          then (Returned (Some current_price), w1,
                [Call (GetSymbolTicker c) (inr (Ticker tk))])
          else (Returned None, w1,
                [Call (GetSymbolTicker c) (inr (Ticker tk)); Sleep 1])
      end
  end.
Proof.
  unfold poll, try_binance, bind, client_get_symbol_ticker, client_call, lift.
  destruct (get_symbol_ticker c w) as [[e|tk] w1]; simpl.
  - destruct (is_binance e); reflexivity.
  - destruct (py_float (price tk)) as [e|p] eqn:Ep; simpl.
    + now rewrite (Raises.py_float_raises _ _ Ep).
    + destruct (buy_price * target_gain <=? p)%float; reflexivity.
Qed.

Lemma poll_not_running (c : option string) (buy_price target_gain : float)
    (w w' : W) (t : list event) :
  poll c buy_price target_gain w <> (Running, w', t).
Proof.
  rewrite poll_eq.
  destruct (get_symbol_ticker c w) as [[e|tk] w1].
  - destruct (is_binance e); discriminate.
  - destruct (py_float (price tk)) as [e|p]; [discriminate|].
    destruct (buy_price * target_gain <=? p)%float; discriminate.
Qed.

(** [wait_for_pump] unfolded by one round. *)
Lemma wait_for_pump_S (fuel : nat) (c : option string)
    (buy_price target_gain : float) (w : W) :
  wait_for_pump (S fuel) c buy_price target_gain w =
  match poll c buy_price target_gain w with
  | (Returned (Some p), w1, t1) => (Returned p, w1, t1 ++ [])
  | (Returned None, w1, t1) =>
      let '(r, w2, t2) := wait_for_pump fuel c buy_price target_gain w1 in
      (r, w2, t1 ++ t2)
  | (Raised e, w1, t1) => (Raised e, w1, t1)
  | (Running, w1, t1) => (Running, w1, t1)
  end.
Proof.
  simpl. unfold bind.
  destruct (poll c buy_price target_gain w) as [[[[p|]|e|] w1] t1];
    reflexivity.
Qed.

(** The whole wait, whatever the exchange replies. *)
Lemma wait_for_pump_run (c : option string) (buy_price target_gain : float) :
  forall (fuel : nat) (w w' : W) (r : outcome float) (t : list event),
    wait_for_pump fuel c buy_price target_gain w = (r, w', t) ->
    match r with
    | Returned p =>
        (buy_price * target_gain <=? p)%float = true /\
        exists n t0 tk,
          (n < fuel)%nat /\ polled c buy_price target_gain n t0 /\
          t = t0 ++ [Call (GetSymbolTicker c) (inr (Ticker tk))] /\
          py_float (price tk) = inr p
    | Raised e =>
        is_binance e = false /\
        exists n t0 reply,
          (n < fuel)%nat /\ polled c buy_price target_gain n t0 /\
          t = t0 ++ [Call (GetSymbolTicker c) reply]
    | Running => polled c buy_price target_gain fuel t
    end.
Proof.
  induction fuel as [|fuel IH]; intros w w' r t Hrun.
  - injection Hrun as <- <- <-. constructor.
  - rewrite wait_for_pump_S, poll_eq in Hrun.
    destruct (get_symbol_ticker c w) as [[e|tk] w1].
    + destruct (is_binance e) eqn:Eb.
      * destruct (wait_for_pump fuel c buy_price target_gain w1)
          as [[r2 w2] t2] eqn:E2.
        injection Hrun as <- <- <-. specialize (IH _ _ _ _ E2).
        destruct r2 as [p|e2|].
        -- destruct IH as (Hp & n & t0 & tk & Hn & Hpol & -> & Hf).
           split; [assumption|].
           exists (S n), (Call (GetSymbolTicker c) (inl e)
                            :: Log (LogPriceError c e) :: Sleep 1 :: t0), tk.
           repeat split; try assumption; [lia|now constructor].
        -- destruct IH as (He & n & t0 & reply & Hn & Hpol & ->).
           split; [assumption|].
           exists (S n), (Call (GetSymbolTicker c) (inl e)
                            :: Log (LogPriceError c e) :: Sleep 1 :: t0), reply.
           repeat split; [lia|now constructor].
        -- now constructor.
      * injection Hrun as <- <- <-. split; [assumption|].
        exists 0%nat, [], (inl e). repeat split; [lia|constructor].
    + destruct (py_float (price tk)) as [e|p] eqn:Ep.
      * injection Hrun as <- <- <-. split; [reflexivity|].
        exists 0%nat, [], (inr (Ticker tk)). repeat split; [lia|constructor].
      * destruct (buy_price * target_gain <=? p)%float eqn:Et.
        -- injection Hrun as <- <- <-. split; [assumption|].
           exists 0%nat, [], tk. repeat split; [lia|constructor|assumption].
        -- destruct (wait_for_pump fuel c buy_price target_gain w1)
             as [[r2 w2] t2] eqn:E2.
           injection Hrun as <- <- <-. specialize (IH _ _ _ _ E2).
           destruct r2 as [p2|e2|].
           ++ destruct IH as (Hp & n & t0 & tk2 & Hn & Hpol & -> & Hf).
              split; [assumption|].
              exists (S n), (Call (GetSymbolTicker c) (inr (Ticker tk))
                               :: Sleep 1 :: t0), tk2.
              repeat split; try assumption; [lia|].
              now apply polled_short with (current_price := p).
           ++ destruct IH as (He & n & t0 & reply & Hn & Hpol & ->).
              split; [assumption|].
              exists (S n), (Call (GetSymbolTicker c) (inr (Ticker tk))
                               :: Sleep 1 :: t0), reply.
              repeat split; [lia|].
              now apply polled_short with (current_price := p).
           ++ now apply polled_short with (current_price := p).
Qed.

(** Fuel that did not suffice is not lost: the wait goes on from the world
    it reached. *)
Lemma wait_for_pump_more (c : option string) (buy_price target_gain : float)
    (m : nat) :
  forall (fuel : nat) (w w' : W) (t : list event),
    wait_for_pump fuel c buy_price target_gain w = (Running, w', t) ->
    wait_for_pump (fuel + m) c buy_price target_gain w =
    let '(r2, w2, t2) := wait_for_pump m c buy_price target_gain w' in
    (r2, w2, t ++ t2).
Proof.
  induction fuel as [|fuel IH]; intros w w' t Hrun.
  - injection Hrun as <- <-. simpl.
    now destruct (wait_for_pump m c buy_price target_gain w) as [[? ?] ?].
  - change (S fuel + m)%nat with (S (fuel + m)).
    rewrite wait_for_pump_S in Hrun |- *.
    destruct (poll c buy_price target_gain w) as [[[[p|]|e|] w1] t1] eqn:Ep;
      try discriminate; [|destruct (poll_not_running _ _ _ _ _ _ Ep)].
    destruct (wait_for_pump fuel c buy_price target_gain w1)
      as [[r2 w2] t2] eqn:E2.
    injection Hrun as -> <- <-. rewrite (IH _ _ _ E2).
    destruct (wait_for_pump m c buy_price target_gain w2) as [[r3 w3] t3].
    now rewrite app_assoc.
Qed.

(** A result does not depend on the fuel that was left. *)
Lemma wait_for_pump_enough (c : option string) (buy_price target_gain : float)
    (m : nat) :
  forall (fuel : nat) (w w' : W) (p : float) (t : list event),
    wait_for_pump fuel c buy_price target_gain w = (Returned p, w', t) ->
    wait_for_pump (fuel + m) c buy_price target_gain w = (Returned p, w', t).
Proof.
  induction fuel as [|fuel IH]; intros w w' p t Hrun; [discriminate|].
  change (S fuel + m)%nat with (S (fuel + m)).
  rewrite wait_for_pump_S in Hrun |- *.
  destruct (poll c buy_price target_gain w) as [[[[q|]|e|] w1] t1];
    try discriminate; [assumption|].
  destruct (wait_for_pump fuel c buy_price target_gain w1)
    as [[r2 w2] t2] eqn:E2.
  injection Hrun as -> <- <-. now rewrite (IH _ _ _ _ E2).
Qed.

End WithClient.

End Steps.

(** ** Holding a position *)
Module Holding.

Section WithClient.

Context {W : Type} {client : Exchange W}.

(** An iteration that starts with an active trade, by the outcomes of the
    wait and of the sale. *)
Lemma iteration_holding_eq (fuel : nat) (c : option string)
    (buy_price amount_bought : float) (w : W) :
  iteration fuel (Some (c, buy_price, amount_bought)) w =
  match wait_for_pump fuel c buy_price default_target_gain w with
  | (Running, w1, t1) => (Running, w1, t1)
  | (Raised e, w1, t1) =>
      (Returned (Some (c, buy_price, amount_bought)), w1,
       t1 ++ [Log (LogUnexpected e); Sleep 1; Sleep 1])
  | (Returned _, w1, t1) =>
      match sell_crypto c amount_bought w1 with
      | (Returned (Some _), w2, t2) =>
          (Returned None, w2,
           t1 ++ t2 ++ [Log (LogTradeCompleted c); Sleep 1; Sleep 1])
      | (Returned None, w2, t2) =>
          (Returned (Some (c, buy_price, amount_bought)), w2,
           t1 ++ t2 ++ [Log (LogSellFailed c); Sleep 1; Sleep 1])
      | (Raised e, w2, t2) =>
          (Returned (Some (c, buy_price, amount_bought)), w2,
           t1 ++ t2 ++ [Log (LogUnexpected e); Sleep 1; Sleep 1])
      | (Running, w2, t2) => (Running, w2, t1 ++ t2)
      end
  end.
Proof.
  unfold iteration, holding, try_exception, bind.
  destruct (wait_for_pump fuel c buy_price default_target_gain w)
    as [[[p|e|] w1] t1]; simpl; rewrite <- ?app_assoc; try reflexivity.
  destruct (sell_crypto c amount_bought w1) as [[[[o|]|e|] w2] t2]; simpl;
    rewrite <- ?app_assoc; reflexivity.
Qed.

(** The wait places no order. *)
Lemma polled_no_sell (c : option string) (buy_price target_gain : float)
    (n : nat) (t : list event) :
  polled c buy_price target_gain n t ->
  forall ev, In ev t -> is_sell ev = false.
Proof.
  induction 1 as [|n e t He Hp IH|n tk p t Hf Hlt Hp IH]; intros ev Hin.
  - destruct Hin.
  - destruct Hin as [<-|[<-|[<-|Hin]]]; try reflexivity. now apply IH.
  - destruct Hin as [<-|[<-|Hin]]; try reflexivity. now apply IH.
Qed.

Lemma wait_for_pump_no_sell (fuel : nat) (c : option string)
    (buy_price target_gain : float) (w w' : W) (r : outcome float)
    (t : list event) :
  wait_for_pump fuel c buy_price target_gain w = (r, w', t) ->
  forall ev, In ev t -> is_sell ev = false.
Proof.
  intros Hrun ev Hin. apply Steps.wait_for_pump_run in Hrun.
  destruct r as [p|e|].
  - destruct Hrun as (_ & n & t0 & tk & _ & Hp & -> & _).
    apply in_app_or in Hin. destruct Hin as [Hin|[<-|[]]]; [|reflexivity].
    now apply (polled_no_sell _ _ _ _ _ Hp).
  - destruct Hrun as (_ & n & t0 & reply & _ & Hp & ->).
    apply in_app_or in Hin. destruct Hin as [Hin|[<-|[]]]; [|reflexivity].
    now apply (polled_no_sell _ _ _ _ _ Hp).
  - now apply (polled_no_sell _ _ _ _ _ Hrun).
Qed.

(** The one order of [sell_crypto], when it places one. *)
Lemma sell_crypto_order (c : option string) (amount : float) (w w' : W)
    (r : outcome (option order)) (t : list event) :
  sell_crypto c amount w = (r, w', t) ->
  forall ev, In ev t -> is_sell ev = true ->
    exists q reply,
      ev = Call (OrderMarketSell c q) reply /\
      py_round amount sell_precision = inr q /\
      match reply with
      | inl e =>
          if is_binance e
          then r = Returned None /\ In (Log (LogSellError c e)) t
          else r = Raised e
      | inr (Order o) =>
          match fills o with
          | [] => r = Raised IndexError
          | f :: _ =>
              match py_float (fill_price f) with
              | inl _ => r = Raised ValueError
              | inr _ => r = Returned (Some o)
              end
          end
      | inr _ => False
      end.
Proof.
  rewrite Steps.sell_crypto_eq.
  destruct (py_round amount sell_precision) as [e|q].
  { intros [= <- <- <-] ev []. }
  destruct (order_market_sell c q w) as [[e|o] w1].
  - destruct (is_binance e) eqn:Eb; intros [= <- <- <-] ev Hin Hs.
    + destruct Hin as [<-|[<-|[]]]; [|discriminate].
      exists q, (inl e). rewrite Eb. repeat split. right. now left.
    + destruct Hin as [<-|[]]. exists q, (inl e). rewrite Eb. now repeat split.
  - destruct (fills o) as [|f rest] eqn:Ef.
    + intros [= <- <- <-] ev [<-|[]] _.
      exists q, (inr (Order o)). rewrite Ef. now repeat split.
    + destruct (py_float (fill_price f)) as [e|p] eqn:Ep;
        intros [= <- <- <-] ev Hin Hs.
      * destruct Hin as [<-|[]].
        exists q, (inr (Order o)). rewrite Ef, Ep. now repeat split.
      * destruct Hin as [<-|[<-|[]]]; [|discriminate].
        exists q, (inr (Order o)). rewrite Ef, Ep. now repeat split.
Qed.

(** The sale of an iteration and what it does to [active_trade]. *)
Lemma iteration_sale (fuel : nat) (c : option string)
    (buy_price amount_bought : float) (w w' : W)
    (r : outcome (option trade)) (t : list event) :
  iteration fuel (Some (c, buy_price, amount_bought)) w = (r, w', t) ->
  forall ev, In ev t -> is_sell ev = true ->
    exists q reply,
      ev = Call (OrderMarketSell c q) reply /\
      py_round amount_bought sell_precision = inr q /\
      match reply with
      | inl e =>
          r = Returned (Some (c, buy_price, amount_bought)) /\
          (is_binance e = true -> In (Log (LogSellFailed c)) t)
      | inr (Order o) =>
          match fills o with
          | [] => r = Returned (Some (c, buy_price, amount_bought))
          | f :: _ =>
              match py_float (fill_price f) with
              | inl _ => r = Returned (Some (c, buy_price, amount_bought))
              | inr _ =>
                  r = Returned None /\ In (Log (LogTradeCompleted c)) t
              end
          end
      | inr _ => False
      end.
Proof.
  rewrite iteration_holding_eq.
  destruct (wait_for_pump fuel c buy_price default_target_gain w)
    as [[r1 w1] t1] eqn:E1.
  pose proof (wait_for_pump_no_sell _ _ _ _ _ _ _ _ E1) as Hwait.
  assert (Hnot : forall ev, In ev t1 -> is_sell ev = true -> False).
  { intros ev Hin Hs. rewrite (Hwait _ Hin) in Hs. discriminate. }
  destruct r1 as [p|e|].
  2:{ intros [= <- <- <-] ev Hin Hs. apply in_app_or in Hin.
      destruct Hin as [Hin|[<-|[<-|[<-|[]]]]]; try discriminate.
      destruct (Hnot _ Hin Hs). }
  2:{ intros [= <- <- <-] ev Hin Hs. destruct (Hnot _ Hin Hs). }
  destruct (sell_crypto c amount_bought w1) as [[r2 w2] t2] eqn:E2.
  pose proof (sell_crypto_order _ _ _ _ _ _ E2) as Hsell.
  assert (Hev : forall tail ev,
             (forall x, In x tail -> is_sell x = false) ->
             In ev (t1 ++ t2 ++ tail) -> is_sell ev = true -> In ev t2).
  { intros tail ev Htail Hin Hs. apply in_app_or in Hin.
    destruct Hin as [Hin|Hin]; [destruct (Hnot _ Hin Hs)|].
    apply in_app_or in Hin. destruct Hin as [Hin|Hin]; [assumption|].
    rewrite (Htail _ Hin) in Hs. discriminate. }
  assert (Htail : forall x y ev,
             In ev [Log x; Sleep y; Sleep y] -> is_sell ev = false).
  { intros x y ev [<-|[<-|[<-|[]]]]; reflexivity. }
  assert (Hend : forall (x : log_record) tail, In (Log x) (t1 ++ t2 ++ Log x :: tail)).
  { intros x tail. apply in_or_app. right. apply in_or_app. right. now left. }
  destruct r2 as [[o|]|e|]; intros [= <- <- <-] ev Hin Hs.
  - apply (Hev _ _ (Htail _ _)) in Hin; [|assumption].
    destruct (Hsell _ Hin Hs) as (q & reply & -> & Hq & Hr).
    exists q, reply. repeat split; [assumption|].
    destruct reply as [e|[| | | |o']]; try contradiction.
    + destruct (is_binance e); [destruct Hr as [[=] _]|discriminate].
    + destruct (fills o') as [|f rest]; [discriminate|].
      destruct (py_float (fill_price f)); [discriminate|].
      split; [reflexivity|apply Hend].
  - apply (Hev _ _ (Htail _ _)) in Hin; [|assumption].
    destruct (Hsell _ Hin Hs) as (q & reply & -> & Hq & Hr).
    exists q, reply. repeat split; [assumption|].
    destruct reply as [e|[| | | |o']]; try contradiction.
    + split; [reflexivity|intros _; apply Hend].
    + destruct (fills o') as [|f rest]; [discriminate|].
      destruct (py_float (fill_price f)); discriminate.
  - apply (Hev _ _ (Htail _ _)) in Hin; [|assumption].
    destruct (Hsell _ Hin Hs) as (q & reply & -> & Hq & Hr).
    exists q, reply. repeat split; [assumption|].
    destruct reply as [e'|[| | | |o']]; try contradiction.
    + split; [reflexivity|]. intros Hb. rewrite Hb in Hr.
      destruct Hr as [[=] _].
    + destruct (fills o') as [|f rest]; [reflexivity|].
      destruct (py_float (fill_price f)); [reflexivity|discriminate].
  - exfalso. clear - E2. rewrite Steps.sell_crypto_eq in E2.
    destruct (py_round amount_bought sell_precision); [discriminate|].
    destruct (order_market_sell c f w1) as [[e|o] w3].
    + destruct (is_binance e); discriminate.
    + destruct (fills o) as [|x rest]; [discriminate|].
      destruct (py_float (fill_price x)); discriminate.
Qed.

(** How an iteration that starts with an active trade can end: still
    waiting, or with the trade kept, or with the trade cleared after a sale
    that went through.  No exception leaves it. *)
Lemma iteration_outcome (fuel : nat) (c : option string)
    (buy_price amount_bought : float) (w w' : W)
    (r : outcome (option trade)) (t : list event) :
  iteration fuel (Some (c, buy_price, amount_bought)) w = (r, w', t) ->
  match r with
  | Running => polled c buy_price default_target_gain fuel t
  | Raised _ => False
  | Returned next =>
      next = Some (c, buy_price, amount_bought) \/
      (next = None /\
       exists q o f rest p,
         In (Call (OrderMarketSell c q) (inr (Order o))) t /\
         fills o = f :: rest /\ py_float (fill_price f) = inr p)
  end.
Proof.
  rewrite iteration_holding_eq.
  destruct (wait_for_pump fuel c buy_price default_target_gain w)
    as [[r1 w1] t1] eqn:E1.
  destruct r1 as [p|e|].
  2:{ intros [= <- <- <-]. now left. }
  2:{ intros [= <- <- <-]. apply (Steps.wait_for_pump_run _ _ _ _ _ _ _ _ E1). }
  rewrite Steps.sell_crypto_eq.
  destruct (py_round amount_bought sell_precision) as [e|q].
  { intros [= <- <- <-]. now left. }
  destruct (order_market_sell c q w1) as [[e|o] w2].
  - destruct (is_binance e); intros [= <- <- <-]; now left.
  - destruct (fills o) as [|f rest] eqn:Ef.
    + intros [= <- <- <-]. now left.
    + destruct (py_float (fill_price f)) as [e|sp] eqn:Ep;
        intros [= <- <- <-]; [now left|].
      right. split; [reflexivity|]. exists q, o, f, rest, sp.
      repeat split; try assumption.
      apply in_or_app. right. now left.
Qed.

(** The cycle of one iteration: after the wait has returned, the sale, and
    what the reply makes of [active_trade]. *)
Lemma iteration_cycle (fuel : nat) (c : option string)
    (buy_price amount_bought : float) (w w1 w2 : W) (p q : float)
    (t1 : list event) (reply : exn + order) :
  wait_for_pump fuel c buy_price default_target_gain w = (Returned p, w1, t1) ->
  py_round amount_bought sell_precision = inr q ->
  order_market_sell c q w1 = (reply, w2) ->
  exists tail,
    iteration fuel (Some (c, buy_price, amount_bought)) w =
    (Returned (Cycle.after_sale (c, buy_price, amount_bought) reply), w2,
     t1 ++ Call (OrderMarketSell c q) (Cycle.answer reply) :: tail) /\
    (forall ev, In ev (t1 ++ tail) -> is_sell ev = false /\ is_buy ev = false) /\
    (if Cycle.went_through reply
     then In (Log (LogTradeCompleted c)) tail
     else forall e, reply = inl e -> is_binance e = true ->
                    In (Log (LogSellFailed c)) tail).
Proof.
  intros Hwait Hq Hsell.
  assert (Ht1 : forall ev, In ev t1 -> is_sell ev = false /\ is_buy ev = false).
  { intros ev Hin. split; [apply (wait_for_pump_no_sell _ _ _ _ _ _ _ _ Hwait _ Hin)|].
    apply Steps.wait_for_pump_run in Hwait.
    destruct Hwait as (_ & n & t0 & tk & _ & Hp & -> & _).
    apply in_app_or in Hin. destruct Hin as [Hin|[<-|[]]]; [|reflexivity].
    clear - Hp Hin. induction Hp as [|n e t He Hp IH|n tk' p' t Hf Hlt Hp IH].
    - destruct Hin.
    - destruct Hin as [<-|[<-|[<-|Hin]]]; try reflexivity. now apply IH.
    - destruct Hin as [<-|[<-|Hin]]; try reflexivity. now apply IH. }
  assert (Hall : forall tail,
             (forall ev, In ev tail -> is_sell ev = false /\ is_buy ev = false) ->
             forall ev, In ev (t1 ++ tail) ->
                        is_sell ev = false /\ is_buy ev = false).
  { intros tail Htail ev Hin. apply in_app_or in Hin.
    destruct Hin as [Hin|Hin]; [now apply Ht1|now apply Htail]. }
  rewrite iteration_holding_eq, Hwait, Steps.sell_crypto_eq, Hq, Hsell.
  unfold Cycle.after_sale, Cycle.went_through, Cycle.answer.
  destruct reply as [e|o].
  - destruct (is_binance e) eqn:Eb.
    + exists [Log (LogSellError c e); Log (LogSellFailed c); Sleep 1; Sleep 1].
      split; [reflexivity|]. split.
      * apply Hall. intros ev [<-|[<-|[<-|[<-|[]]]]]; now split.
      * intros e' [= <-] _. right. now left.
    + exists [Log (LogUnexpected e); Sleep 1; Sleep 1].
      split; [reflexivity|]. split.
      * apply Hall. intros ev [<-|[<-|[<-|[]]]]; now split.
      * intros e' [= <-] Hb. rewrite Hb in Eb. discriminate.
  - destruct (fills o) as [|f rest].
    + exists [Log (LogUnexpected IndexError); Sleep 1; Sleep 1].
      split; [reflexivity|]. split.
      * apply Hall. intros ev [<-|[<-|[<-|[]]]]; now split.
      * intros e' [=].
    + destruct (py_float (fill_price f)) as [e|sp].
      * exists [Log (LogUnexpected ValueError); Sleep 1; Sleep 1].
        split; [reflexivity|]. split.
        -- apply Hall. intros ev [<-|[<-|[<-|[]]]]; now split.
        -- intros e' [=].
      * exists [Log (LogSold q c sp); Log (LogTradeCompleted c);
                Sleep 1; Sleep 1].
        split; [reflexivity|]. split.
        -- apply Hall. intros ev [<-|[<-|[<-|[<-|[]]]]]; now split.
        -- right. now left.
Qed.

End WithClient.

End Holding.

(** ** The trading loop while a position is held *)

Section HoldingClaims.

Context {W : Type} {client : Exchange W}.

(** C5.  [wait_for_pump] returns a price only when it is at least
    [buy_price * target_gain], and it is then the price of the last reply;
    up to there every round was a price request that failed with a
    [BinanceAPIException], logged and followed by [time.sleep(1)], or a
    price short of the target followed by the same [time.sleep(1)].  A
    [BinanceAPIException] never ends the wait; any other exception does, and
    is the last event of the wait
    ([wait_for_pump_aborts_on_timeout]).  There is
    no limit to the rounds: when [fuel] rounds have gone by without the
    target, the wait is still going and goes on from there, and it returns
    in the next round if the next price reaches the target; and a price
    that was returned is returned whatever fuel was left.  The default
    [target_gain] is 1.005. *)
Theorem wait_for_pump_returns_only_at_target
    (fuel : nat) (crypto : option string) (buy_price target_gain : float)
    (w w' : W) (r : outcome float) (t : list event) :
  wait_for_pump fuel crypto buy_price target_gain w = (r, w', t) ->
  match r with
  | Returned p =>
      (buy_price * target_gain <=? p)%float = true /\
      (exists n t0 tk,
          (n < fuel)%nat /\ polled crypto buy_price target_gain n t0 /\
          t = t0 ++ [Call (GetSymbolTicker crypto) (inr (Ticker tk))] /\
          py_float (price tk) = inr p) /\
      forall m,
        wait_for_pump (fuel + m) crypto buy_price target_gain w =
        (Returned p, w', t)
  | Raised e =>
      is_binance e = false /\
      exists n t0 reply,
        (n < fuel)%nat /\ polled crypto buy_price target_gain n t0 /\
        t = t0 ++ [Call (GetSymbolTicker crypto) reply]
  | Running =>
      polled crypto buy_price target_gain fuel t /\
      (forall m,
          wait_for_pump (fuel + m) crypto buy_price target_gain w =
          let '(r2, w2, t2) :=
            wait_for_pump m crypto buy_price target_gain w' in
          (r2, w2, t ++ t2)) /\
      forall tk w2 p,
        get_symbol_ticker crypto w' = (inr tk, w2) ->
        py_float (price tk) = inr p ->
        (buy_price * target_gain <=? p)%float = true ->
        wait_for_pump (fuel + 1) crypto buy_price target_gain w =
        (Returned p, w2,
         t ++ [Call (GetSymbolTicker crypto) (inr (Ticker tk))])
  end /\
  default_target_gain = 1.005%float.
Proof.
  intros Hrun. split; [|reflexivity].
  pose proof (Steps.wait_for_pump_run _ _ _ _ _ _ _ _ Hrun) as H.
  destruct r as [p|e|].
  - destruct H as [Hp Ht]. repeat split; try assumption.
    intros m. now apply Steps.wait_for_pump_enough.
  - assumption.
  - split; [assumption|]. split.
    + intros m. now apply Steps.wait_for_pump_more.
    + intros tk w2 p Hreply Hprice Htarget.
      rewrite (Steps.wait_for_pump_more _ _ _ 1 _ _ _ _ Hrun).
      rewrite Steps.wait_for_pump_S, Steps.poll_eq, Hreply, Hprice, Htarget.
      reflexivity.
Qed.

End HoldingClaims.

Lemma wait_example_eq :
  wait_for_pump 5 (Some "ETHUSDT"%string) 2000%float 1.005%float
                (Mock.hold_world (inl Mock.binance_error)) =
  (fst (fst Mock.wait_example), snd (fst Mock.wait_example),
   snd Mock.wait_example).
Proof.
  unfold Mock.wait_example. now destruct (wait_for_pump _ _ _ _ _) as [[? ?] ?].
Defined.

(** C5 at the scripted wait: a failure, a price short of the target, then
    2010.5, which is returned. *)
Lemma wait_for_pump_returns_only_at_target_witness :
  fst (fst Mock.wait_example) = Returned 2010.5%float /\
  match fst (fst Mock.wait_example) with
  | Returned p => (2000 * 1.005 <=? p)%float = true
  | _ => True
  end.
Proof.
  split; [vm_compute; reflexivity|].
  pose proof (wait_for_pump_returns_only_at_target 5 (Some "ETHUSDT"%string)
                2000%float 1.005%float _ _ _ _ wait_example_eq) as [H _].
  destruct (fst (fst Mock.wait_example)) as [p|e|];
    [exact (proj1 H)|exact I|exact I].
Defined.

(** ** Buying *)
Module Buying.

Lemma kelly_default :
  kelly_criterion default_win_prob default_win_loss_ratio =
  inr default_fraction.
Proof. vm_compute. reflexivity. Qed.

Section WithClient.

Context {W : Type} {client : Exchange W}.

(** [invest_in_crypto], by the replies of the exchange. *)
Lemma invest_in_crypto_eq (c : option string) (amount_to_invest : float)
    (w : W) :
  invest_in_crypto c amount_to_invest w =
  match get_symbol_ticker c w with
  | (inl e, w1) => (Raised e, w1, [Call (GetSymbolTicker c) (inl e)])
  | (inr tk, w1) =>
      let asked := Call (GetSymbolTicker c) (inr (Ticker tk)) in
      match py_float (price tk) with
      | inl e => (Raised e, w1, [asked])
      | inr current_price =>
      match py_truediv amount_to_invest current_price with
      | inl e => (Raised e, w1, [asked])
      | inr raw =>
      match get_exchange_info w1 with
      | (inl e, w2) => (Raised e, w2, [asked; Call GetExchangeInfo (inl e)])
      | (inr info, w2) =>
          let told := Call GetExchangeInfo (inr (ExchangeInfo info)) in
          match next_such (fun item => symbol_eqb (symbol item) c)
                          (symbols info) with
          | inl e => (Raised e, w2, [asked; told])
          | inr symbol_info =>
          match next_such (has_type "LOT_SIZE") (filters symbol_info) with
          | inl e => (Raised e, w2, [asked; told])
          | inr lot_size_filter =>
          match next_such (has_type "PRICE_FILTER") (filters symbol_info) with
          | inl e => (Raised e, w2, [asked; told])
          | inr _ =>
          match adjust_quantity lot_size_filter raw with
          | inl e => (Raised e, w2, [asked; told])
          | inr q =>
              match order_market_buy c q w2 with
              | (inl e, w3) =>
                  if is_binance e
                  then (Returned None, w3,
                        [asked; told; Call (OrderMarketBuy c q) (inl e);
                         Log (LogBuyError c e)])
                  else (Raised e, w3,
                        [asked; told; Call (OrderMarketBuy c q) (inl e)])
              | (inr o, w3) =>
                  (Returned (Some (o, current_price)), w3,
                   [asked; told; Call (OrderMarketBuy c q) (inr (Order o));
                    Log (LogBought q c amount_to_invest current_price)])
              end
          end end end end
      end end end
  end.
Proof.
  unfold invest_in_crypto, try_binance, bind, client_get_symbol_ticker,
    client_get_exchange_info, client_order_market_buy, client_call, lift.
  destruct (get_symbol_ticker c w) as [[e|tk] w1]; simpl; [reflexivity|].
  destruct (py_float (price tk)) as [e|current_price]; simpl; [reflexivity|].
  destruct (py_truediv amount_to_invest current_price) as [e|raw]; simpl;
    [reflexivity|].
  destruct (get_exchange_info w1) as [[e|info] w2]; simpl; [reflexivity|].
  destruct (next_such _ (symbols info)) as [e|si]; simpl; [reflexivity|].
  destruct (next_such (has_type "LOT_SIZE") (filters si)) as [e|lot]; simpl;
    [reflexivity|].
  destruct (next_such (has_type "PRICE_FILTER") (filters si)) as [e|pf]; simpl;
    [reflexivity|].
  destruct (adjust_quantity lot raw) as [e|q]; simpl; [reflexivity|].
  destruct (order_market_buy c q w2) as [[e|o] w3]; simpl; [|reflexivity].
  destruct (is_binance e); reflexivity.
Qed.

(** With no symbol there is no order: the lookup of line 89 raises
    [StopIteration], unless an earlier step has raised already. *)
Lemma invest_in_crypto_None (amount_to_invest : float) (w : W) :
  exists e w' t,
    invest_in_crypto None amount_to_invest w = (Raised e, w', t) /\
    forall ev, In ev t -> is_buy ev = false.
Proof.
  rewrite invest_in_crypto_eq.
  destruct (get_symbol_ticker None w) as [[e|tk] w1].
  { eexists _, _, _. split; [reflexivity|]. now intros ev [<-|[]]. }
  cbv zeta.
  destruct (py_float (price tk)) as [e|current_price].
  { eexists _, _, _. split; [reflexivity|]. now intros ev [<-|[]]. }
  destruct (py_truediv amount_to_invest current_price) as [e|raw].
  { eexists _, _, _. split; [reflexivity|]. now intros ev [<-|[]]. }
  destruct (get_exchange_info w1) as [[e|info] w2].
  { eexists _, _, _. split; [reflexivity|]. now intros ev [<-|[<-|[]]]. }
  rewrite Steps.next_such_None.
  eexists _, _, _. split; [reflexivity|]. now intros ev [<-|[<-|[]]].
Qed.

(** An iteration that starts with no active trade, by the outcomes of its
    steps. *)
Lemma iteration_idle_eq (fuel : nat) (w : W) :
  iteration fuel None w =
  match get_asset_balance "USDT" w with
  | (inl e, w1) =>
      (Returned None, w1,
       [Call (GetAssetBalance "USDT") (inl e); Log (LogUnexpected e);
        Sleep 1; Sleep 1])
  | (inr b, w1) =>
      let asked := Call (GetAssetBalance "USDT") (inr (Balance b)) in
      match py_float (free b) with
      | inl e =>
          (Returned None, w1, [asked; Log (LogUnexpected e); Sleep 1; Sleep 1])
      | inr usdt_balance =>
          if (usdt_balance <? 10)%float
          then (Returned None, w1,
                [asked; Log LogInsufficientBalance; Sleep 1])
          else
            match get_top_loss_crypto cryptos default_timeframe w1 with
            | (Running, w2, t2) => (Running, w2, asked :: t2)
            | (Raised e, w2, t2) =>
                (Returned None, w2,
                 asked :: t2 ++ [Log (LogUnexpected e); Sleep 1; Sleep 1])
            | (Returned top_loss_crypto, w2, t2) =>
                match invest_in_crypto
                        top_loss_crypto
                        (usdt_balance * default_fraction)%float w2 with
                | (Running, w3, t3) => (Running, w3, asked :: t2 ++ t3)
                | (Raised e, w3, t3) =>
                    (Returned None, w3,
                     asked :: t2 ++ t3
                       ++ [Log (LogUnexpected e); Sleep 1; Sleep 1])
                | (Returned None, w3, t3) =>
                    (Returned None, w3, asked :: t2 ++ t3)
                | (Returned (Some (o, buy_price)), w3, t3) =>
                    match fills o with
                    | [] =>
                        (Returned None, w3,
                         asked :: t2 ++ t3
                           ++ [Log (LogUnexpected IndexError);
                               Sleep 1; Sleep 1])
                    | f :: _ =>
                        match py_float (qty f) with
                        | inl _ =>
                            (Returned None, w3,
                             asked :: t2 ++ t3
                               ++ [Log (LogUnexpected ValueError);
                                   Sleep 1; Sleep 1])
                        | inr amount_bought =>
                            let active_trade :=
                              (top_loss_crypto, buy_price, amount_bought) in
                            (Returned (Some active_trade), w3,
                             asked :: t2 ++ t3
                               ++ [Log (LogActiveTrade active_trade);
                                   Sleep 1])
                        end
                    end
                end
            end
      end
  end.
Proof.
  unfold iteration, idle, try_exception, invest_using_kelly.
  rewrite kelly_default.
  unfold bind, client_get_asset_balance, client_call, lift, getitem.
  destruct (get_asset_balance "USDT" w) as [[e|b] w1]; simpl; [reflexivity|].
  destruct (py_float (free b)) as [e|usdt_balance]; simpl; [reflexivity|].
  destruct (usdt_balance <? 10)%float; simpl; [reflexivity|].
  destruct (get_top_loss_crypto cryptos default_timeframe w1)
    as [[[top|e|] w2] t2]; simpl; rewrite <- ?app_assoc; try reflexivity.
  destruct (invest_in_crypto top (usdt_balance * default_fraction)%float w2)
    as [[[[[o bp]|]|e|] w3] t3]; simpl; rewrite <- ?app_assoc, ?app_nil_r;
    try reflexivity.
  destruct (fills o) as [|f rest]; simpl; rewrite <- ?app_assoc;
    [reflexivity|].
  destruct (py_float (qty f)) as [e|a] eqn:Ea; simpl; rewrite <- ?app_assoc.
  - now rewrite (Raises.py_float_raises _ _ Ea).
  - reflexivity.
Qed.

(** The one order of [invest_in_crypto], when it places one: what it was
    computed from and what the function returns after it. *)
Lemma invest_in_crypto_order (c : option string) (amount_to_invest : float)
    (w w' : W) (r : outcome (option (order * float))) (t : list event) :
  invest_in_crypto c amount_to_invest w = (r, w', t) ->
  forall ev, In ev t -> is_buy ev = true ->
    exists q reply tk current_price raw info symbol_info lot_size_filter,
      ev = Call (OrderMarketBuy c q) reply /\
      In (Call (GetSymbolTicker c) (inr (Ticker tk))) t /\
      py_float (price tk) = inr current_price /\
      py_truediv amount_to_invest current_price = inr raw /\
      In (Call GetExchangeInfo (inr (ExchangeInfo info))) t /\
      next_such (fun item => symbol_eqb (symbol item) c) (symbols info)
      = inr symbol_info /\
      next_such (has_type "LOT_SIZE") (filters symbol_info)
      = inr lot_size_filter /\
      adjust_quantity lot_size_filter raw = inr q /\
      match reply with
      | inl e => if is_binance e then r = Returned None else r = Raised e
      | inr (Order o) => r = Returned (Some (o, current_price))
      | inr _ => False
      end.
Proof.
  rewrite invest_in_crypto_eq.
  destruct (get_symbol_ticker c w) as [[e|tk] w1].
  { intros [= <- <- <-] ev [<-|[]]; discriminate. }
  cbv zeta.
  destruct (py_float (price tk)) as [e|current_price] eqn:E1.
  { intros [= <- <- <-] ev [<-|[]]; discriminate. }
  destruct (py_truediv amount_to_invest current_price) as [e|raw] eqn:E2.
  { intros [= <- <- <-] ev [<-|[]]; discriminate. }
  destruct (get_exchange_info w1) as [[e|info] w2].
  { intros [= <- <- <-] ev [<-|[<-|[]]]; discriminate. }
  destruct (next_such _ (symbols info)) as [e|si] eqn:E3.
  { intros [= <- <- <-] ev [<-|[<-|[]]]; discriminate. }
  destruct (next_such (has_type "LOT_SIZE") (filters si)) as [e|lot] eqn:E4.
  { intros [= <- <- <-] ev [<-|[<-|[]]]; discriminate. }
  destruct (next_such (has_type "PRICE_FILTER") (filters si)) as [e|pf].
  { intros [= <- <- <-] ev [<-|[<-|[]]]; discriminate. }
  destruct (adjust_quantity lot raw) as [e|q] eqn:E5.
  { intros [= <- <- <-] ev [<-|[<-|[]]]; discriminate. }
  destruct (order_market_buy c q w2) as [[e|o] w3].
  - destruct (is_binance e) eqn:Eb; intros [= <- <- <-] ev Hin Hbuy.
    + destruct Hin as [<-|[<-|[<-|[<-|[]]]]]; try discriminate.
      exists q, (inl e), tk, current_price, raw, info, si, lot.
      rewrite Eb. repeat split; try assumption; try reflexivity.
      * now left.
      * right. now left.
    + destruct Hin as [<-|[<-|[<-|[]]]]; try discriminate.
      exists q, (inl e), tk, current_price, raw, info, si, lot.
      rewrite Eb. repeat split; try assumption; try reflexivity.
      * now left.
      * right. now left.
  - intros [= <- <- <-] ev Hin Hbuy.
    destruct Hin as [<-|[<-|[<-|[<-|[]]]]]; try discriminate.
    exists q, (inr (Order o)), tk, current_price, raw, info, si, lot.
    repeat split; try assumption; try reflexivity.
    + now left.
    + right. now left.
Qed.

(** [invest_in_crypto] does not go on for ever. *)
Lemma invest_in_crypto_not_running (c : option string)
    (amount_to_invest : float) (w w' : W) (t : list event) :
  invest_in_crypto c amount_to_invest w <> (Running, w', t).
Proof.
  rewrite invest_in_crypto_eq.
  destruct (get_symbol_ticker c w) as [[e|tk] w1]; [discriminate|].
  cbv zeta.
  destruct (py_float (price tk)) as [e|current_price]; [discriminate|].
  destruct (py_truediv amount_to_invest current_price) as [e|raw];
    [discriminate|].
  destruct (get_exchange_info w1) as [[e|info] w2]; [discriminate|].
  destruct (next_such _ (symbols info)) as [e|si]; [discriminate|].
  destruct (next_such (has_type "LOT_SIZE") (filters si)) as [e|lot];
    [discriminate|].
  destruct (next_such (has_type "PRICE_FILTER") (filters si)) as [e|pf];
    [discriminate|].
  destruct (adjust_quantity lot raw) as [e|q]; [discriminate|].
  destruct (order_market_buy c q w2) as [[e|o] w3]; [|discriminate].
  destruct (is_binance e); discriminate.
Qed.

(** The buy order of an iteration that starts with no active trade, and
    what the iteration makes of its reply. *)
Lemma iteration_order (fuel : nat) (w w' : W)
    (r : outcome (option trade)) (t : list event) :
  iteration fuel None w = (r, w', t) ->
  forall c q o, In (Call (OrderMarketBuy c q) (inr (Order o))) t ->
    match fills o with
    | [] => r = Returned None /\ In (Log (LogUnexpected IndexError)) t
    | f :: _ =>
        match py_float (qty f) with
        | inl _ => r = Returned None /\ In (Log (LogUnexpected ValueError)) t
        | inr amount_bought =>
            exists buy_price, r = Returned (Some (c, buy_price, amount_bought))
        end
    end.
Proof.
  rewrite iteration_idle_eq.
  destruct (get_asset_balance "USDT" w) as [[e|b] w1].
  { intros [= <- <- <-] c q o [[=]|[[=]|[[=]|[[=]|[]]]]]. }
  cbv zeta. destruct (py_float (free b)) as [e|usdt_balance].
  { intros [= <- <- <-] c q o [[=]|[[=]|[[=]|[[=]|[]]]]]. }
  destruct (usdt_balance <? 10)%float.
  { intros [= <- <- <-] c q o [[=]|[[=]|[[=]|[]]]]. }
  destruct (get_top_loss_crypto cryptos default_timeframe w1)
    as [[r2 w2] t2] eqn:E2.
  pose proof (Scanner.get_top_loss_crypto_no_order _ _ _ _ _ _ E2) as Hscan.
  assert (Hnot : forall c q o,
             In (Call (OrderMarketBuy c q) (inr (Order o))) t2 -> False).
  { intros c q o Hin. discriminate (Hscan _ Hin). }
  destruct r2 as [top|e|].
  2:{ intros [= <- <- <-] c q o [[=]|Hin]. apply in_app_or in Hin.
      destruct Hin as [Hin|[[=]|[[=]|[[=]|[]]]]]. destruct (Hnot _ _ _ Hin). }
  2:{ intros [= <- <- <-] c q o [[=]|Hin]. destruct (Hnot _ _ _ Hin). }
  destruct (invest_in_crypto top (usdt_balance * default_fraction)%float w2)
    as [[r3 w3] t3] eqn:E3.
  pose proof (invest_in_crypto_order _ _ _ _ _ _ E3) as Hbuy.
  assert (Hin3 : forall tail c q o,
             (forall ev, In ev tail -> is_buy ev = false) ->
             In (Call (OrderMarketBuy c q) (inr (Order o)))
                (Call (GetAssetBalance "USDT") (inr (Balance b))
                   :: t2 ++ t3 ++ tail) ->
             c = top /\ exists cp, r3 = Returned (Some (o, cp))).
  { intros tail c q o Htail [[=]|Hin]. apply in_app_or in Hin.
    destruct Hin as [Hin|Hin]; [destruct (Hnot _ _ _ Hin)|].
    apply in_app_or in Hin. destruct Hin as [Hin|Hin];
      [|discriminate (Htail _ Hin)].
    destruct (Hbuy _ Hin eq_refl)
      as (q' & reply & tk & cp & raw & info & si & lot & [= -> <- <-] & H).
    split; [reflexivity|]. exists cp. apply H. }
  assert (Htail : forall x y ev,
             In ev [Log x; Sleep y; Sleep y] -> is_buy ev = false).
  { intros x y ev [<-|[<-|[<-|[]]]]; reflexivity. }
  assert (Hend : forall (x : log_record) (b0 : event) tail,
             In (Log x) (b0 :: t2 ++ t3 ++ Log x :: tail)).
  { intros x b0 tail. right. apply in_or_app. right.
    apply in_or_app. right. now left. }
  destruct r3 as [[[o3 bp]|]|e|].
  - destruct (fills o3) as [|f rest] eqn:Ef.
    + intros [= <- <- <-] c q o Hin.
      destruct (Hin3 _ _ _ _ (Htail _ _) Hin) as (-> & cp & [= <- <-]).
      rewrite Ef. split; [reflexivity|apply Hend].
    + destruct (py_float (qty f)) as [e|a] eqn:Ea;
        intros [= <- <- <-] c q o Hin.
      * destruct (Hin3 _ _ _ _ (Htail _ _) Hin) as (-> & cp & [= <- <-]).
        rewrite Ef, Ea. split; [reflexivity|apply Hend].
      * assert (Htl : forall ev,
                   In ev [Log (LogActiveTrade (top, bp, a)); Sleep 1] ->
                   is_buy ev = false)
          by (intros ev [<-|[<-|[]]]; reflexivity).
        destruct (Hin3 _ _ _ _ Htl Hin) as (-> & cp & [= <- <-]).
        rewrite Ef, Ea. now exists bp.
  - intros [= <- <- <-] c q o Hin.
    assert (Hnil : forall ev, In ev (@nil event) -> is_buy ev = false)
      by (intros ev []).
    rewrite <- (app_nil_r t3) in Hin.
    destruct (Hin3 _ _ _ _ Hnil Hin) as (_ & cp & [=]).
  - intros [= <- <- <-] c q o Hin.
    destruct (Hin3 _ _ _ _ (Htail _ _) Hin) as (_ & cp & [=]).
  - destruct (invest_in_crypto_not_running _ _ _ _ _ E3).
Qed.

End WithClient.

End Buying.

(** ** The trading loop with no position *)

Section IdleClaims.

Context {W : Type} {client : Exchange W}.

(** C3.  An iteration of the loop that starts in IDLE with a balance of at
    least 10 scans the watchlist.  When every candle fetch of that scan
    fails with a [BinanceAPIException], the scanner returns [None] (its log
    record says so), the buy path is entered with [None] and raises before
    any order is placed, the error is logged by the handler of line 185, and
    after the two [time.sleep(1)] the loop is in IDLE again.  With fetches
    that fail otherwise the scanner does not return
    ([idle_timeout_scanner_raises]). *)
Theorem idle_all_fetches_fail_no_buy
    (fuel : nat) (w w' : W) (r : outcome (option trade)) (t : list event)
    (b : balance) (usdt_balance : float) :
  iteration fuel None w = (r, w', t) ->
  fst (get_asset_balance "USDT" w) = inr b ->
  py_float (free b) = inr usdt_balance ->
  (usdt_balance <? 10)%float = false ->
  (forall c i l reply, In (Call (GetKlines c i l) reply) t ->
                       exists msg, reply = inl (BinanceAPIException msg)) ->
  r = Returned None /\
  (forall c, In c cryptos ->
             In (GetKlines c default_timeframe 2) (requests t)) /\
  In (Log (LogTopLoss default_timeframe None None)) t /\
  (forall ev, In ev t -> is_buy ev = false) /\
  exists e t0, t = t0 ++ [Log (LogUnexpected e); Sleep 1; Sleep 1].
Proof.
  intros Hrun Hb Hf Hlt Hall. rewrite Buying.iteration_idle_eq in Hrun.
  destruct (get_asset_balance "USDT" w) as [[e|b'] w1]; simpl in Hb;
    [discriminate|]. injection Hb as ->.
  cbv zeta in Hrun. rewrite Hf, Hlt in Hrun.
  destruct (get_top_loss_crypto cryptos default_timeframe w1)
    as [[r2 w2] t2] eqn:E2.
  assert (Hall2 : forall c i l reply,
             In (Call (GetKlines c i l) reply) t2 ->
             exists msg, reply = inl (BinanceAPIException msg)).
  { intros c i l reply Hin. apply (Hall c i l).
    destruct r2 as [top|e|].
    - destruct (invest_in_crypto top _ w2) as [[[[[o bp]|]|e|] w3] t3];
        [destruct (fills o) as [|f rest];
         [|destruct (py_float (qty f))]| | |];
        injection Hrun as <- <- <-; right; apply in_or_app; now left.
    - injection Hrun as <- <- <-. right. apply in_or_app. now left.
    - injection Hrun as <- <- <-. now right. }
  destruct (Scanner.all_failed_none _ _ _ _ _ _ E2 Hall2) as (-> & Hlog & Hreq).
  pose proof (Scanner.scan_no_buy _ _ _ Hreq) as Hnobuy.
  destruct (Buying.invest_in_crypto_None
              (usdt_balance * default_fraction)%float w2)
    as (e & w3 & t3 & E3 & Hnobuy3).
  rewrite E3 in Hrun. injection Hrun as <- <- <-.
  split; [reflexivity|]. split; [|split; [|split]].
  - intros c Hc. simpl. right. rewrite Scanner.requests_app, Hreq.
    apply in_or_app. left. apply in_map_iff. now exists c.
  - right. apply in_or_app. now left.
  - intros ev [<-|Hin]; [reflexivity|].
    apply in_app_or in Hin. destruct Hin as [Hin|Hin]; [now apply Hnobuy|].
    apply in_app_or in Hin. destruct Hin as [Hin|Hin]; [now apply Hnobuy3|].
    now destruct Hin as [<-|[<-|[<-|[]]]].
  - exists e, (Call (GetAssetBalance "USDT") (inr (Balance b)) :: t2 ++ t3).
    simpl. now rewrite <- app_assoc.
Qed.

End IdleClaims.

Lemma blackout_example_eq :
  iteration 5 None Mock.blackout_world =
  (fst (fst Mock.blackout_example), snd (fst Mock.blackout_example),
   snd Mock.blackout_example).
Proof.
  unfold Mock.blackout_example. now destruct (iteration _ _ _) as [[? ?] ?].
Defined.

(** C3 at the scripted exchange without candles: a balance of 100, eleven
    failed fetches, no order, IDLE again. *)
Lemma idle_all_fetches_fail_no_buy_witness :
  fst (fst Mock.blackout_example) = Returned None /\
  In (Log (LogUnexpected StopIteration)) (snd Mock.blackout_example) /\
  forall ev, In ev (snd Mock.blackout_example) -> is_buy ev = false.
Proof.
  pose proof (idle_all_fetches_fail_no_buy 5 Mock.blackout_world _ _ _
                {| free := "100.00000000" |} 100%float
                blackout_example_eq eq_refl) as H.
  assert (Hf : py_float (free {| free := "100.00000000" |}) = inr 100%float)
    by (vm_compute; reflexivity).
  assert (Hall : forallb fetch_failedb (snd Mock.blackout_example) = true)
    by (vm_compute; reflexivity).
  destruct (H Hf eq_refl (Scanner.fetch_failedb_ok _ Hall))
    as (Hr & _ & _ & Hbuy & _).
  split; [exact Hr|]. split; [|exact Hbuy].
  vm_compute.
  repeat match goal with |- _ \/ _ => (left; reflexivity) || right end.
Defined.

(** ** Quantities *)
Module Quantity.

Lemma index_zeros (k : nat) (rest : string) :
  String.index 0 "1" (zeros k (String "1" rest)) = Some k.
Proof.
  induction k as [|k IH]; simpl.
  - now destruct rest.
  - now rewrite IH.
Qed.

(** For a step size [10^-(k+1)] the precision is [k + 1], the number of
    its decimals. *)
Lemma decimal_step_precision (k z : nat) (lot : exchange_filter) :
  stepSize lot = decimal_step k z ->
  quantity_precision lot = Z.of_nat (S k).
Proof.
  intros H. unfold quantity_precision, str_find, decimal_step in *.
  rewrite H. simpl String.index. rewrite index_zeros. lia.
Qed.

Lemma significant_zeros (z : nat) : Lot.significant (zeros z "") = O.
Proof. induction z as [|z IH]; simpl; [reflexivity|now rewrite IH]. Qed.

Lemma significant_leading (k : nat) (rest : string) (n : nat) :
  Lot.significant rest = S n ->
  Lot.significant (zeros k rest) = S (k + n).
Proof.
  intros H. induction k as [|k IH]; simpl; [assumption|]. now rewrite IH.
Qed.

(** A step size [10^-(k+1)] has [k + 1] decimals. *)
Lemma decimals_decimal_step (k z : nat) :
  Lot.decimals (decimal_step k z) = Z.of_nat (S k).
Proof.
  unfold Lot.decimals, decimal_step. simpl Lot.fraction.
  rewrite (significant_leading k _ 0).
  - now rewrite Nat.add_0_r.
  - simpl. now rewrite significant_zeros.
Qed.

End Quantity.

(** ** Orders and their quantities *)

Section OrderClaims.

Context {W : Type} {client : Exchange W}.

(** C6.  Whenever [invest_in_crypto] submits a market buy, it is for the
    symbol it was called with, and its quantity comes from
    [raw = amount_to_invest / current_price], for the price just fetched,
    and from the [minQty] and [stepSize] of the first LOT_SIZE filter of the
    first entry of the exchange information for the symbol: with [steps] the
    floor division [raw // stepSize] of Python, it is
    [round(max(minQty, steps * stepSize), d)], where, for a step
    [10^-(k+1)] written [0.0...010...0], [d] is the number of decimals of
    [stepSize].  This is the quantity as the specification words it
    whenever the floor of the quotient [raw / stepSize] is [steps]; it is so
    with [minQty = 0.001], [stepSize = 0.001] and a raw quantity of 0.00456,
    where the quantity is 0.004.  A raw quantity of 0.0004 is raised to the
    [minQty] of 0.001; and at a step of 0.1 a raw quantity of 0.35 is
    floored to [3 * 0.1], the double 0.30000000000000004, which the
    rounding brings to 0.3. *)
Theorem invest_in_crypto_normalizes_quantity
    (crypto : option string) (amount_to_invest : float) (w w' : W)
    (r : outcome (option (order * float))) (t : list event) :
  invest_in_crypto crypto amount_to_invest w = (r, w', t) ->
  (forall c q reply,
      In (Call (OrderMarketBuy c q) reply) t ->
      c = crypto /\
      exists tk current_price raw info symbol_info lot_size_filter
             min_qty step_size steps,
        In (Call (GetSymbolTicker crypto) (inr (Ticker tk))) t /\
        py_float (price tk) = inr current_price /\
        py_truediv amount_to_invest current_price = inr raw /\
        In (Call GetExchangeInfo (inr (ExchangeInfo info))) t /\
        next_such (fun item => symbol_eqb (symbol item) crypto) (symbols info)
        = inr symbol_info /\
        next_such (has_type "LOT_SIZE") (filters symbol_info)
        = inr lot_size_filter /\
        py_float (minQty lot_size_filter) = inr min_qty /\
        py_float (stepSize lot_size_filter) = inr step_size /\
        py_floordiv raw step_size = inr steps /\
        forall k z,
          stepSize lot_size_filter = decimal_step k z ->
          py_round (py_max min_qty (steps * step_size)%float)
                   (Lot.decimals (stepSize lot_size_filter)) = inr q) /\
  (forall lot raw k z step_size quotient,
      stepSize lot = decimal_step k z ->
      py_float (stepSize lot) = inr step_size ->
      py_truediv raw step_size = inr quotient ->
      py_floordiv raw step_size = inr (c_floor quotient) ->
      adjust_quantity lot raw = Lot.claimed_quantity lot raw) /\
  adjust_quantity (Mock.lot_size "0.001" "0.001") 0.00456 = inr 0.004%float /\
  Lot.claimed_quantity (Mock.lot_size "0.001" "0.001") 0.00456
  = inr 0.004%float /\
  adjust_quantity (Mock.lot_size "0.001" "0.001") 0.0004 = inr 0.001%float /\
  (3 * 0.1)%float = 0.30000000000000004%float /\
  adjust_quantity (Mock.lot_size "0.1" "0.1") 0.35 = inr 0.3%float.
Proof.
  intros Hrun. split; [|split; [|repeat split; vm_compute; reflexivity]].
  - intros c q reply Hin.
    destruct (Buying.invest_in_crypto_order _ _ _ _ _ _ Hrun _ Hin eq_refl)
      as (q' & reply' & tk & cp & raw & info & si & lot & [= -> <- <-]
          & H1 & H2 & H3 & H4 & H5 & H6 & H7 & _).
    split; [reflexivity|]. unfold adjust_quantity in H7.
    destruct (py_float (minQty lot)) as [|min_qty] eqn:E1; [discriminate|].
    destruct (py_float (stepSize lot)) as [|step_size] eqn:E2;
      [discriminate|].
    destruct (py_floordiv raw step_size) as [|steps] eqn:E3; [discriminate|].
    exists tk, cp, raw, info, si, lot, min_qty, step_size, steps.
    repeat (split; [assumption || reflexivity|]).
    intros k z Hstep.
    rewrite (Quantity.decimal_step_precision k z lot Hstep) in H7.
    now rewrite Hstep, Quantity.decimals_decimal_step.
  - intros lot raw k z step_size quotient Hstep Hs Hquot Hfloor.
    unfold adjust_quantity, Lot.claimed_quantity.
    destruct (py_float (minQty lot)) as [|min_qty]; [reflexivity|].
    rewrite Hs, Hquot, Hfloor.
    rewrite (Quantity.decimal_step_precision k z lot Hstep).
    now rewrite Hstep, Quantity.decimals_decimal_step.
Qed.

(** C10.  [sell_crypto] reads [order['fills'][0]['price']] and the loop
    reads [order['fills'][0]['qty']].  When the answer to a market sell has
    a first fill, [sell_crypto] returns the order (given that its price is a
    number); when its list of fills is empty, [sell_crypto] raises
    [IndexError], which its [except BinanceAPIException] does not catch.
    When the answer to the market buy of an IDLE iteration has a first fill,
    the iteration ends with the active trade whose quantity is that fill's
    [qty]; when its list of fills is empty the [IndexError] is caught by the
    handler of the loop only, and no trade is recorded. *)
Theorem order_fills_first_entry
    (crypto : option string) (amount q : float) (w w1 : W) (o : order)
    (fuel : nat) (w0 w0' : W) (r : outcome (option trade)) (t : list event)
    (c : option string) (bought : float) (o0 : order) :
  py_round amount sell_precision = inr q ->
  order_market_sell crypto q w = (inr o, w1) ->
  iteration fuel None w0 = (r, w0', t) ->
  In (Call (OrderMarketBuy c bought) (inr (Order o0))) t ->
  match fills o with
  | [] =>
      sell_crypto crypto amount w =
      (Raised IndexError, w1,
       [Call (OrderMarketSell crypto q) (inr (Order o))])
  | f :: _ =>
      forall sell_price,
        py_float (fill_price f) = inr sell_price ->
        sell_crypto crypto amount w =
        (Returned (Some o), w1,
         [Call (OrderMarketSell crypto q) (inr (Order o));
          Log (LogSold q crypto sell_price)])
  end /\
  match fills o0 with
  | [] => r = Returned None /\ In (Log (LogUnexpected IndexError)) t
  | f :: _ =>
      forall amount_bought,
        py_float (qty f) = inr amount_bought ->
        exists buy_price, r = Returned (Some (c, buy_price, amount_bought))
  end.
Proof.
  intros Hq Ho Hrun Hin. split.
  - rewrite Steps.sell_crypto_eq, Hq, Ho.
    destruct (fills o) as [|f rest]; [reflexivity|].
    intros sell_price ->. reflexivity.
  - pose proof (Buying.iteration_order _ _ _ _ _ Hrun _ _ _ Hin) as H.
    destruct (fills o0) as [|f rest]; [assumption|].
    intros amount_bought Ha. now rewrite Ha in H.
Qed.

End OrderClaims.

Lemma btc_example_eq :
  invest_in_crypto (Some "BTCUSDT"%string) 0.00456%float Mock.blackout_world =
  (fst (fst Mock.btc_example), snd (fst Mock.btc_example),
   snd Mock.btc_example).
Proof.
  unfold Mock.btc_example.
  now destruct (invest_in_crypto _ _ _) as [[? ?] ?].
Defined.

Lemma btc_example_order :
  In (Call (OrderMarketBuy (Some "BTCUSDT"%string) 0.004)
           (inr (Order (Mock.filled "1.00000000" "0.00000000"))))
     (snd Mock.btc_example).
Proof.
  vm_compute.
  repeat match goal with |- _ \/ _ => (left; reflexivity) || right end.
Defined.

(** C6 at the scripted purchase of BTCUSDT with step 0.00100000: a raw
    quantity of 0.00456 is submitted as 0.004. *)
Lemma invest_in_crypto_normalizes_quantity_witness :
  submitted (snd Mock.btc_example) = [0.004%float] /\
  exists tk current_price raw info symbol_info lot_size_filter
         min_qty step_size steps,
    In (Call (GetSymbolTicker (Some "BTCUSDT"%string)) (inr (Ticker tk)))
       (snd Mock.btc_example) /\
    py_float (price tk) = inr current_price /\
    py_truediv 0.00456 current_price = inr raw /\
    In (Call GetExchangeInfo (inr (ExchangeInfo info)))
       (snd Mock.btc_example) /\
    next_such (fun item => symbol_eqb (symbol item) (Some "BTCUSDT"%string))
              (symbols info) = inr symbol_info /\
    next_such (has_type "LOT_SIZE") (filters symbol_info)
    = inr lot_size_filter /\
    py_float (minQty lot_size_filter) = inr min_qty /\
    py_float (stepSize lot_size_filter) = inr step_size /\
    py_floordiv raw step_size = inr steps /\
    forall k z,
      stepSize lot_size_filter = decimal_step k z ->
      py_round (py_max min_qty (steps * step_size)%float)
               (Lot.decimals (stepSize lot_size_filter)) = inr 0.004%float.
Proof.
  split; [vm_compute; reflexivity|].
  exact (proj2 (proj1 (invest_in_crypto_normalizes_quantity
                         (Some "BTCUSDT"%string) 0.00456%float
                         Mock.blackout_world _ _ _ btc_example_eq)
                      _ _ _ btc_example_order)).
Defined.

(** C2 at a step size of 1.  DOGEUSDT has [minQty = stepSize = 1.00000000];
    with 4.7 USDT at a price of 1 the raw quantity 4.7 is floored to 4, and
    [round(4.0, -1)] submits 0.0, which is below [minQty]: the position of
    the ["1"] in ["1.00000000"] gives a precision of -1 where 0 was
    meant.  The same order leaves an iteration of the loop that starts with
    a balance of 11.75 USDT. *)
Theorem invest_in_crypto_step_one_submits_zero :
  quantity_precision (Mock.lot_size "1.00000000" "1.00000000") = (-1)%Z /\
  adjust_quantity (Mock.lot_size "1.00000000" "1.00000000") 4.7 = inr 0%float /\
  submitted (snd Mock.doge_example) = [0%float] /\
  submitted (snd Mock.doge_loop_example) = [0%float] /\
  py_float (minQty (Mock.lot_size "1.00000000" "1.00000000")) = inr 1%float /\
  (0 <? 1)%float = true.
Proof. repeat split; vm_compute; reflexivity. Qed.

(** ** The precision of a sale and the Kelly fraction *)

Section SizingClaims.

Context {W : Type} {client : Exchange W}.

(** C7, amended.  [sell_crypto] asks the exchange for nothing but the sale:
    the rules of the symbol are not fetched.  The quantity of the sale is
    [round(amount, 6)], and when that rounding succeeds the order is placed;
    1.23456789 is submitted as 1.234568.  The rule differs from that of the
    buy path, whose precision follows from the step size: for a step
    [10^-(k+1)] the six decimals of the sale are coarser than the buy
    path's [k + 1] exactly when [k + 1] exceeds 6, and finer when it is
    less, as for the step 0.001. *)
Theorem sell_crypto_rounds_to_six_decimals
    (crypto : option string) (amount : float) (w w' : W)
    (r : outcome (option order)) (t : list event) :
  sell_crypto crypto amount w = (r, w', t) ->
  (forall ev, In ev t -> is_exchange_info ev = false) /\
  (forall c q reply,
      In (Call (OrderMarketSell c q) reply) t ->
      c = crypto /\ py_round amount 6 = inr q) /\
  (forall q, py_round amount 6 = inr q ->
             exists reply, In (Call (OrderMarketSell crypto q) reply) t) /\
  py_round 1.23456789 6 = inr 1.234568%float /\
  (forall k z lot,
      stepSize lot = decimal_step k z ->
      ((sell_precision < quantity_precision lot)%Z <-> (6 < S k)%nat) /\
      ((quantity_precision lot < sell_precision)%Z <-> (S k < 6)%nat)).
Proof.
  intros Hrun. split; [|split; [|split; [|split]]].
  - intros ev Hin. rewrite Steps.sell_crypto_eq in Hrun.
    destruct (py_round amount sell_precision) as [e|q].
    { injection Hrun as <- <- <-. destruct Hin. }
    destruct (order_market_sell crypto q w) as [[e|o] w1].
    + destruct (is_binance e); injection Hrun as <- <- <-.
      * now destruct Hin as [<-|[<-|[]]].
      * now destruct Hin as [<-|[]].
    + destruct (fills o) as [|f rest].
      * injection Hrun as <- <- <-. now destruct Hin as [<-|[]].
      * destruct (py_float (fill_price f)); injection Hrun as <- <- <-.
        -- now destruct Hin as [<-|[]].
        -- now destruct Hin as [<-|[<-|[]]].
  - intros c q reply Hin.
    destruct (Holding.sell_crypto_order _ _ _ _ _ _ Hrun _ Hin eq_refl)
      as (q' & reply' & [= -> -> ->] & Hq & _).
    now split.
  - intros q Hq. rewrite Steps.sell_crypto_eq in Hrun.
    change 6%Z with sell_precision in Hq. rewrite Hq in Hrun.
    destruct (order_market_sell crypto q w) as [[e|o] w1].
    + exists (inl e). destruct (is_binance e); injection Hrun as <- <- <-;
        now left.
    + exists (inr (Order o)). destruct (fills o) as [|f rest].
      * injection Hrun as <- <- <-. now left.
      * destruct (py_float (fill_price f)); injection Hrun as <- <- <-;
          now left.
  - vm_compute. reflexivity.
  - intros k z lot Hstep.
    rewrite (Quantity.decimal_step_precision _ _ _ Hstep).
    unfold sell_precision. lia.
Qed.

(** C9, amended.  For a win/loss ratio other than zero [kelly_criterion]
    is [win_prob - (1 - win_prob) / win_loss_ratio] in binary64 arithmetic
    (a ratio of zero raises [ZeroDivisionError]).  With the constants 0.6
    and 2 of the loop it is 0.39999999999999997, the double just below 0.4,
    and the amount handed to the buy path is the balance times that
    value. *)
Theorem kelly_criterion_formula (win_prob win_loss_ratio : float) :
  (win_loss_ratio =? 0)%float = false ->
  kelly_criterion win_prob win_loss_ratio =
  inr (win_prob - (1 - win_prob) / win_loss_ratio)%float /\
  kelly_criterion 0.6 2 = inr 0.39999999999999997%float /\
  next_up 0.39999999999999997 = 0.4%float /\
  forall (crypto : option string) (usdt_balance : float) (w : W),
    invest_using_kelly crypto usdt_balance default_win_prob
                       default_win_loss_ratio w =
    invest_in_crypto crypto (usdt_balance * 0.39999999999999997)%float w.
Proof.
  intros Hr. split; [|split; [|split]].
  - unfold kelly_criterion, py_truediv. now rewrite Hr.
  - vm_compute. reflexivity.
  - vm_compute. reflexivity.
  - intros crypto usdt_balance w. unfold invest_using_kelly.
    rewrite Buying.kelly_default. unfold bind, lift, ret. simpl.
    now destruct (invest_in_crypto _ _ w) as [[? ?] ?].
Qed.

End SizingClaims.

Lemma sell_example_eq :
  sell_crypto (Some "ETHUSDT"%string) 1.23456789%float
              (Mock.hold_world (inr (Mock.filled "2011.00" "1.23456789"))) =
  (fst (fst Mock.sell_example), snd (fst Mock.sell_example),
   snd Mock.sell_example).
Proof.
  unfold Mock.sell_example. now destruct (sell_crypto _ _ _) as [[? ?] ?].
Defined.

(** C7 at the scripted sale: 1.23456789 leaves as 1.234568. *)
Lemma sell_crypto_rounds_to_six_decimals_witness :
  submitted (snd Mock.sell_example) = [1.234568%float] /\
  forall ev, In ev (snd Mock.sell_example) -> is_exchange_info ev = false.
Proof.
  split; [vm_compute; reflexivity|].
  exact (proj1 (sell_crypto_rounds_to_six_decimals
                  (Some "ETHUSDT"%string) 1.23456789%float
                  _ _ _ _ sell_example_eq)).
Defined.

(** The claim C7 calls the six decimals of a sale coarser than the precision
    of the buy path.  For the step 0.00100000 the buy path rounds to 3
    decimals: the sale keeps 1.234568 where the buy path would keep 1.235. *)
Lemma sell_precision_finer_at_step_0_001 :
  quantity_precision (Mock.lot_size "0.00100000" "0.00100000") = 3%Z /\
  sell_precision = 6%Z /\
  (sell_precision <?
   quantity_precision (Mock.lot_size "0.00100000" "0.00100000"))%Z = false /\
  py_round 1.23456789 sell_precision = inr 1.234568%float /\
  py_round 1.23456789
           (quantity_precision (Mock.lot_size "0.00100000" "0.00100000"))
  = inr 1.235%float.
Proof. repeat split; vm_compute; reflexivity. Qed.

(** C9 at the constants of the loop. *)
Lemma kelly_criterion_formula_witness :
  kelly_criterion 0.6 2 = inr (0.6 - (1 - 0.6) / 2)%float /\
  kelly_criterion 0.6 2 = inr 0.39999999999999997%float.
Proof.
  split.
  - exact (proj1 (kelly_criterion_formula (W := Mock.world) 0.6 2 eq_refl)).
  - vm_compute. reflexivity.
Defined.

(** The claim C9 has the fraction equal 0.4 exactly and the amount equal
    the balance times 0.4.  In binary64 the fraction is the double below
    0.4, and with a balance of 10 the amount is 3.9999999999999996 and
    not 4. *)
Lemma kelly_criterion_default_below_0_4 :
  kelly_criterion 0.6 2 = inr 0.39999999999999997%float /\
  (0.39999999999999997 =? 0.4)%float = false /\
  (0.39999999999999997 <? 0.4)%float = true /\
  (10 * 0.39999999999999997)%float = 3.9999999999999996%float /\
  (10 * 0.4)%float = 4%float.
Proof. repeat split; vm_compute; reflexivity. Qed.

Lemma buy_example_eq :
  iteration 5 None Mock.market_world =
  (fst (fst Mock.buy_example), snd (fst Mock.buy_example),
   snd Mock.buy_example).
Proof.
  unfold Mock.buy_example. now destruct (iteration _ _ _) as [[? ?] ?].
Defined.

(** C10 at a scripted sale that is answered without fills, and at a scripted
    purchase that is filled with 0.02. *)
Lemma order_fills_first_entry_witness :
  sell_crypto (Some "ETHUSDT"%string) 0.02 Mock.market_world =
  (Raised IndexError, Mock.market_world,
   [Call (OrderMarketSell (Some "ETHUSDT"%string) 0.02)
         (inr (Order {| fills := [] |}))]) /\
  exists buy_price,
    fst (fst Mock.buy_example) =
    Returned (Some (Some "ETHUSDT"%string, buy_price, 0.02%float)).
Proof.
  assert (Hq : py_round 0.02 sell_precision = inr 0.02%float)
    by (vm_compute; reflexivity).
  assert (Hin : In (Call (OrderMarketBuy (Some "ETHUSDT"%string)
                                         0.019900000000000001)
                         (inr (Order (Mock.filled "2000.00" "0.02"))))
                   (snd Mock.buy_example)).
  { vm_compute.
    repeat match goal with |- _ \/ _ => (left; reflexivity) || right end. }
  assert (Ha : py_float (qty {| fill_price := "2000.00"; qty := "0.02" |})
               = inr 0.02%float) by (vm_compute; reflexivity).
  assert (Ho : order_market_sell (Some "ETHUSDT"%string) 0.02
                                 Mock.market_world
               = (inr {| fills := [] |}, Mock.market_world))
    by reflexivity.
  destruct (order_fills_first_entry
              (Some "ETHUSDT"%string) 0.02 0.02 Mock.market_world
              Mock.market_world {| fills := [] |} 5 Mock.market_world _ _ _
              (Some "ETHUSDT"%string) 0.019900000000000001
              (Mock.filled "2000.00" "0.02")
              Hq Ho buy_example_eq Hin) as [Hsell Hbuy].
  split; [exact Hsell|exact (Hbuy _ Ha)].
Defined.

(** * Further properties *)

(** ** The scanner, whatever the replies *)
Module ScannerMore.

Import More.

Section WithClient.

Context {W : Type} {client : Exchange W}.

(** How the loop of the scanner ends, with no assumption on the replies. *)
Lemma scan_outcome (tf : string) (cs : list string) :
  forall (b : best) (w w' : W) (r : outcome best) (t : list event),
    scan tf b cs w = (r, w', t) ->
    match r with
    | Returned _ => requests t = klines_requests tf cs
    | Raised e =>
        is_binance e = false /\
        exists pre c post reply t0,
          cs = pre ++ c :: post /\
          t = t0 ++ [Call (GetKlines c tf 2) reply] /\
          requests t = klines_requests tf (pre ++ [c]) /\
          (reply = inl e \/
           exists ohlcv,
             reply = inr (Klines ohlcv) /\
             price_change_percent ohlcv = inl e)
    | Running => False
    end.
Proof.
  induction cs as [|c cs IH]; intros b w w' r t Hrun.
  - injection Hrun as <- <- <-. reflexivity.
  - simpl in Hrun. unfold bind in Hrun.
    rewrite Scanner.scan_symbol_eq in Hrun.
    destruct (get_klines c tf 2 w) as [[e|ohlcv] w1].
    + destruct (is_binance e) eqn:Eb.
      * destruct (scan tf b cs w1) as [[r2 w2] t2] eqn:E2.
        injection Hrun as <- <- <-. specialize (IH _ _ _ _ _ E2).
        destruct r2 as [b2|e2|]; [| |assumption].
        -- unfold klines_requests in *. simpl. now rewrite IH.
        -- destruct IH as (He & pre & c' & post & reply & t0 & -> & -> & Hr & Hc).
           split; [assumption|].
           exists (c :: pre), c', post, reply,
             (Call (GetKlines c tf 2) (inl e) :: Log (LogKlinesError c e) :: t0).
           repeat split; try assumption.
           unfold klines_requests in *. simpl. now rewrite Hr.
      * injection Hrun as <- <- <-. split; [assumption|].
        exists [], c, cs, (inl e), []. repeat split. now left.
    + destruct (price_change_percent ohlcv) as [e|change] eqn:Ec.
      * injection Hrun as <- <- <-.
        split; [now apply (Raises.price_change_percent_raises ohlcv)|].
        exists [], c, cs, (inr (Klines ohlcv)), []. repeat split.
        right. now exists ohlcv.
      * destruct (scan tf (update b c change) cs w1) as [[r2 w2] t2] eqn:E2.
        injection Hrun as <- <- <-. specialize (IH _ _ _ _ _ E2).
        destruct r2 as [b2|e2|]; [| |assumption].
        -- unfold klines_requests in *. simpl. now rewrite IH.
        -- destruct IH as (He & pre & c' & post & reply & t0 & -> & -> & Hr & Hc).
           split; [assumption|].
           exists (c :: pre), c', post, reply,
             (Call (GetKlines c tf 2) (inr (Klines ohlcv)) :: t0).
           repeat split; try assumption.
           unfold klines_requests in *. simpl. now rewrite Hr.
Qed.

(** The loop variables come from the start or from candles that arrived. *)
Lemma scan_pick (tf : string) (cs : list string) :
  forall (b b' : best) (w w' : W) (t : list event),
    scan tf b cs w = (Returned b', w', t) ->
    b' = b \/
    exists s v ohlcv,
      b' = (Some v, Some s) /\ In s cs /\
      In (Call (GetKlines s tf 2) (inr (Klines ohlcv))) t /\
      price_change_percent ohlcv = inr v.
Proof.
  induction cs as [|c cs IH]; intros b b' w w' t Hrun.
  - injection Hrun as <- <- <-. now left.
  - simpl in Hrun. unfold bind in Hrun.
    rewrite Scanner.scan_symbol_eq in Hrun.
    destruct (get_klines c tf 2 w) as [[e|ohlcv] w1].
    + destruct (is_binance e); [|discriminate].
      destruct (scan tf b cs w1) as [[r2 w2] t2] eqn:E2.
      destruct r2 as [b2|e2|]; try discriminate.
      injection Hrun as <- <- <-.
      destruct (IH _ _ _ _ _ E2) as [->|(s & v & o & -> & Hs & Hin & Hv)];
        [now left|right].
      exists s, v, o. repeat split; try assumption; [now right|].
      right. now right.
    + destruct (price_change_percent ohlcv) as [e|change] eqn:Ec;
        [discriminate|].
      destruct (scan tf (update b c change) cs w1) as [[r2 w2] t2] eqn:E2.
      destruct r2 as [b2|e2|]; try discriminate.
      injection Hrun as <- <- <-.
      destruct (IH _ _ _ _ _ E2) as [->|(s & v & o & -> & Hs & Hin & Hv)].
      * unfold update. destruct (improves change (fst b)); [right|now left].
        exists c, change, ohlcv. repeat split; try assumption; now left.
      * right. exists s, v, o. repeat split; try assumption; now right.
Qed.

End WithClient.

End ScannerMore.

Import More.

Section ScannerExtras.

Context {W : Type} {client : Exchange W}.

(** X1.  [get_top_loss_crypto] ends in one of two ways.  It returns, and has
    then asked for the candles of every symbol of the watchlist, in order,
    and for nothing else.  Or it raises: never a [BinanceAPIException], but
    the error of a candle request that the exchange answered with another
    exception, or with candles from which no change can be computed (a
    missing row or column, a price that is not a number, an opening price of
    zero); the symbols after that one are never asked for. *)
Theorem get_top_loss_crypto_ends
    (cryptos : list string) (timeframe : string) (w w' : W)
    (r : outcome (option string)) (t : list event) :
  get_top_loss_crypto cryptos timeframe w = (r, w', t) ->
  match r with
  | Returned _ => requests t = klines_requests timeframe cryptos
  | Raised e =>
      is_binance e = false /\
      exists pre c post reply t0,
        cryptos = pre ++ c :: post /\
        t = t0 ++ [Call (GetKlines c timeframe 2) reply] /\
        requests t = klines_requests timeframe (pre ++ [c]) /\
        (reply = inl e \/
         exists ohlcv,
           reply = inr (Klines ohlcv) /\
           price_change_percent ohlcv = inl e /\
           (e = IndexError \/ e = ValueError \/ e = ZeroDivisionError))
  | Running => False
  end.
Proof.
  intros Hrun. rewrite Scanner.get_top_loss_crypto_eq in Hrun.
  destruct (scan timeframe (None, None) cryptos w) as [[r1 w1] t1] eqn:E.
  pose proof (ScannerMore.scan_outcome _ _ _ _ _ _ _ E) as H.
  destruct r1 as [[bl bc]|e|]; injection Hrun as <- <- <-.
  - rewrite Scanner.requests_app, H. apply app_nil_r.
  - destruct H as (He & pre & c & post & reply & t0 & Hcs & Ht & Hr & Hc).
    split; [assumption|]. exists pre, c, post, reply, t0.
    repeat split; try assumption.
    destruct Hc as [Hc|(ohlcv & Ho & Hc)]; [now left|right].
    exists ohlcv. repeat split; try assumption.
    clear - Hc. unfold price_change_percent in Hc.
    repeat match type of Hc with
           | context [match getitem ?l ?i with _ => _ end] =>
               let E := fresh "E" in
               destruct (getitem l i) eqn:E;
               [apply Raises.getitem_raises in E; injection Hc as <-;
                now left|]
           | context [match py_float ?s with _ => _ end] =>
               let E := fresh "E" in
               destruct (py_float s) eqn:E;
               [apply Raises.py_float_raises in E; injection Hc as <-;
                right; now left|]
           | context [match py_truediv ?a ?b with _ => _ end] =>
               let E := fresh "E" in
               destruct (py_truediv a b) eqn:E;
               [apply Raises.py_truediv_raises in E; injection Hc as <-;
                right; now right|]
           end.
    discriminate.
  - assumption.
Qed.

(** X2.  A symbol returned by [get_top_loss_crypto] is a symbol of the
    watchlist whose candles arrived in this scan, and the loss logged with
    it is the percent change of those candles, whatever its sign. *)
Theorem get_top_loss_crypto_returns_scanned
    (cryptos : list string) (timeframe : string) (w w' : W) (s : string)
    (t : list event) :
  get_top_loss_crypto cryptos timeframe w = (Returned (Some s), w', t) ->
  In s cryptos /\
  exists change ohlcv,
    In (Call (GetKlines s timeframe 2) (inr (Klines ohlcv))) t /\
    price_change_percent ohlcv = inr change /\
    In (Log (LogTopLoss timeframe (Some s) (Some change))) t.
Proof.
  intros Hrun. rewrite Scanner.get_top_loss_crypto_eq in Hrun.
  destruct (scan timeframe (None, None) cryptos w) as [[r1 w1] t1] eqn:E.
  destruct r1 as [[bl bc]|e|]; try discriminate.
  injection Hrun as -> <- <-.
  destruct (ScannerMore.scan_pick _ _ _ _ _ _ _ E)
    as [[=]|(s' & v & o & [= -> <-] & Hs & Hin & Hv)].
  split; [assumption|]. exists v, o. repeat split; try assumption.
  - apply in_or_app. now left.
  - apply in_or_app. right. now left.
Qed.

End ScannerExtras.

Lemma short_example_eq :
  get_top_loss_crypto cryptos "1h" short_world =
  (fst (fst short_example), snd (fst short_example), snd short_example).
Proof.
  unfold short_example. now destruct (get_top_loss_crypto _ _ _) as [[? ?] ?].
Defined.

(** X1 at a scripted scan in which ETHUSDT answers with one candle: the scan
    stops there with [IndexError], after two requests. *)
Lemma get_top_loss_crypto_ends_witness :
  fst (fst short_example) = Raised IndexError /\
  requests (snd short_example) =
    klines_requests "1h" [ "BTCUSDT"; "ETHUSDT" ]%string /\
  match fst (fst short_example) with
  | Raised e => is_binance e = false
  | _ => True
  end.
Proof.
  split; [vm_compute; reflexivity|]. split; [vm_compute; reflexivity|].
  pose proof (get_top_loss_crypto_ends cryptos "1h" short_world _ _ _
                short_example_eq) as H.
  destruct (fst (fst short_example)) as [x|e|]; [exact I|exact (proj1 H)|exact I].
Defined.

Lemma scan_returned_example_eq :
  get_top_loss_crypto cryptos "1h" Mock.scan_world =
  (Returned (Some "ETHUSDT"%string), snd (fst Mock.scan_example),
   snd Mock.scan_example).
Proof. vm_compute. reflexivity. Defined.

(** X2 at the scripted scan of [Mock.scan_world]. *)
Lemma get_top_loss_crypto_returns_scanned_witness :
  In "ETHUSDT"%string cryptos /\
  exists change ohlcv,
    In (Call (GetKlines "ETHUSDT" "1h" 2) (inr (Klines ohlcv)))
       (snd Mock.scan_example) /\
    price_change_percent ohlcv = inr change /\
    In (Log (LogTopLoss "1h" (Some "ETHUSDT"%string) (Some change)))
       (snd Mock.scan_example).
Proof.
  exact (get_top_loss_crypto_returns_scanned cryptos "1h" Mock.scan_world _
           "ETHUSDT" _ scan_returned_example_eq).
Defined.

(** ** An iteration with no active trade, step by step *)
Module Idle.

Lemma find_none_all {A : Type} (p : A -> bool) (l : list A) :
  (forall x, In x l -> p x = false) -> find p l = None.
Proof.
  induction l as [|x l IH]; intros H; [reflexivity|]. simpl.
  rewrite (H x (or_introl eq_refl)). apply IH. intros y Hy. apply H. now right.
Qed.

Section WithClient.

Context {W : Type} {client : Exchange W}.

Lemma scan_quiet (tf : string) (cs : list string) :
  forall (b : best) (w w' : W) (r : outcome best) (t : list event),
    scan tf b cs w = (r, w', t) -> forall ev, In ev t -> quiet ev.
Proof.
  induction cs as [|c cs IH]; intros b w w' r t Hrun ev Hin.
  - injection Hrun as <- <- <-. destruct Hin.
  - simpl in Hrun. unfold bind in Hrun.
    rewrite Scanner.scan_symbol_eq in Hrun.
    destruct (get_klines c tf 2 w) as [[e|ohlcv] w1].
    + destruct (is_binance e).
      * destruct (scan tf b cs w1) as [[r2 w2] t2] eqn:E2.
        injection Hrun as <- <- <-.
        destruct Hin as [<-|[<-|Hin]]; try (now repeat split).
        destruct r2; apply (IH _ _ _ _ _ E2 _ Hin).
      * injection Hrun as <- <- <-. destruct Hin as [<-|[]]. now repeat split.
    + destruct (price_change_percent ohlcv) as [e|change].
      * injection Hrun as <- <- <-. destruct Hin as [<-|[]]. now repeat split.
      * destruct (scan tf (update b c change) cs w1) as [[r2 w2] t2] eqn:E2.
        injection Hrun as <- <- <-.
        destruct Hin as [<-|Hin]; try (now repeat split).
        destruct r2; apply (IH _ _ _ _ _ E2 _ Hin).
Qed.

Lemma get_top_loss_crypto_quiet (cs : list string) (tf : string)
    (w w' : W) (r : outcome (option string)) (t : list event) :
  get_top_loss_crypto cs tf w = (r, w', t) -> forall ev, In ev t -> quiet ev.
Proof.
  rewrite Scanner.get_top_loss_crypto_eq.
  destruct (scan tf (None, None) cs w) as [[r1 w1] t1] eqn:E.
  pose proof (scan_quiet _ _ _ _ _ _ _ E) as H.
  destruct r1 as [[bl bc]|e|]; intros [= <- <- <-] ev Hin;
    try (now apply H).
  apply in_app_or in Hin. destruct Hin as [Hin|[<-|[]]];
    [now apply H|now repeat split].
Qed.

(** The scan never stops half-way without an exception. *)
Lemma get_top_loss_crypto_not_running (cs : list string) (tf : string)
    (w w' : W) (t : list event) :
  get_top_loss_crypto cs tf w <> (Running, w', t).
Proof.
  rewrite Scanner.get_top_loss_crypto_eq.
  destruct (scan tf (None, None) cs w) as [[r1 w1] t1] eqn:E.
  pose proof (ScannerMore.scan_outcome _ _ _ _ _ _ _ E) as H.
  destruct r1 as [[bl bc]|e|]; [discriminate|discriminate|destruct H].
Qed.

(** The scan of a watchlist begins with the candles of its first symbol. *)
Lemma get_top_loss_crypto_first (c : string) (cs : list string) (tf : string)
    (w w' : W) (r : outcome (option string)) (t : list event) :
  get_top_loss_crypto (c :: cs) tf w = (r, w', t) ->
  exists reply t', t = Call (GetKlines c tf 2) reply :: t'.
Proof.
  rewrite Scanner.get_top_loss_crypto_eq. simpl. unfold bind.
  rewrite Scanner.scan_symbol_eq.
  destruct (get_klines c tf 2 w) as [[e|ohlcv] w1].
  - destruct (is_binance e).
    + destruct (scan tf (None, None) cs w1) as [[[[bl bc]|e2|] w2] t2];
        intros [= <- <- <-]; eexists _, _; reflexivity.
    + intros [= <- <- <-]; eexists _, _; reflexivity.
  - destruct (price_change_percent ohlcv) as [e|change].
    + intros [= <- <- <-]; eexists _, _; reflexivity.
    + destruct (scan tf _ cs w1) as [[[[bl bc]|e2|] w2] t2];
        intros [= <- <- <-]; eexists _, _; reflexivity.
Qed.

(** A symbol that the scan returns is a symbol of the watchlist. *)
Lemma get_top_loss_crypto_member (cs : list string) (tf : string)
    (w w' : W) (s : string) (t : list event) :
  get_top_loss_crypto cs tf w = (Returned (Some s), w', t) -> In s cs.
Proof.
  rewrite Scanner.get_top_loss_crypto_eq.
  destruct (scan tf (None, None) cs w) as [[r1 w1] t1] eqn:E.
  destruct r1 as [[bl bc]|e|]; try discriminate.
  intros [= -> <- <-].
  destruct (ScannerMore.scan_pick _ _ _ _ _ _ _ E)
    as [[=]|(s' & v & o & [= -> <-] & Hs & _)].
  assumption.
Qed.

(** The four ways in which [invest_in_crypto] ends: before the order, with
    an exception; with the order rejected by a [BinanceAPIException]; with
    another exception from the order; with the order placed. *)
Lemma invest_in_crypto_shape (c : option string) (amount_to_invest : float)
    (w w' : W) (r : outcome (option (order * float))) (t : list event) :
  invest_in_crypto c amount_to_invest w = (r, w', t) ->
  (exists e, r = Raised e /\ forall ev, In ev t -> quiet ev) \/
  exists tk current_price info q,
    py_float (price tk) = inr current_price /\
    let pre := [Call (GetSymbolTicker c) (inr (Ticker tk));
                Call GetExchangeInfo (inr (ExchangeInfo info))] in
    (exists e, is_binance e = true /\ r = Returned None /\
               t = pre ++ [Call (OrderMarketBuy c q) (inl e);
                           Log (LogBuyError c e)]) \/
    (exists e, is_binance e = false /\ r = Raised e /\
               t = pre ++ [Call (OrderMarketBuy c q) (inl e)]) \/
    (exists o, r = Returned (Some (o, current_price)) /\
               t = pre ++ [Call (OrderMarketBuy c q) (inr (Order o));
                           Log (LogBought q c amount_to_invest
                                          current_price)]).
Proof.
  rewrite Buying.invest_in_crypto_eq.
  assert (Hq : forall l : list event,
             Forall (fun ev => quiet ev) l -> forall ev, In ev l -> quiet ev)
    by (intros l Hl ev; now apply Forall_forall).
  destruct (get_symbol_ticker c w) as [[e|tk] w1].
  { intros [= <- <- <-]. left. exists e. split; [reflexivity|].
    apply Hq. repeat constructor. }
  cbv zeta.
  destruct (py_float (price tk)) as [e|current_price] eqn:E1.
  { intros [= <- <- <-]. left. exists e. split; [reflexivity|].
    apply Hq. repeat constructor. }
  destruct (py_truediv amount_to_invest current_price) as [e|raw].
  { intros [= <- <- <-]. left. exists e. split; [reflexivity|].
    apply Hq. repeat constructor. }
  destruct (get_exchange_info w1) as [[e|info] w2].
  { intros [= <- <- <-]. left. exists e. split; [reflexivity|].
    apply Hq. repeat constructor. }
  destruct (next_such _ (symbols info)) as [e|si].
  { intros [= <- <- <-]. left. exists e. split; [reflexivity|].
    apply Hq. repeat constructor. }
  destruct (next_such (has_type "LOT_SIZE") (filters si)) as [e|lot].
  { intros [= <- <- <-]. left. exists e. split; [reflexivity|].
    apply Hq. repeat constructor. }
  destruct (next_such (has_type "PRICE_FILTER") (filters si)) as [e|pf].
  { intros [= <- <- <-]. left. exists e. split; [reflexivity|].
    apply Hq. repeat constructor. }
  destruct (adjust_quantity lot raw) as [e|q].
  { intros [= <- <- <-]. left. exists e. split; [reflexivity|].
    apply Hq. repeat constructor. }
  destruct (order_market_buy c q w2) as [[e|o] w3].
  - destruct (is_binance e) eqn:Eb; intros [= <- <- <-]; right;
      exists tk, current_price, info, q; (split; [exact E1|]).
    + left. now exists e.
    + right. left. now exists e.
  - intros [= <- <- <-]. right. exists tk, current_price, info, q.
    split; [exact E1|]. right. right. now exists o.
Qed.

End WithClient.

End Idle.

Section IdleExtras.

Context {W : Type} {client : Exchange W}.

(** X3.  An iteration with no active trade whose balance request is answered
    with a free amount below 10 does nothing but log "Insufficient USDT
    balance" and sleep one second: no candle is asked for, no order placed.
    With any other amount, a "nan" included, it goes on to scan the
    watchlist, from BTCUSDT and on the timeframe "1h". *)
Theorem idle_balance_below_ten_waits
    (fuel : nat) (w w1 w' : W) (b : balance) (usdt_balance : float)
    (r : outcome (option trade)) (t : list event) :
  get_asset_balance "USDT" w = (inr b, w1) ->
  py_float (free b) = inr usdt_balance ->
  iteration fuel None w = (r, w', t) ->
  if (usdt_balance <? 10)%float
  then r = Returned None /\ w' = w1 /\
       t = [Call (GetAssetBalance "USDT") (inr (Balance b));
            Log LogInsufficientBalance; Sleep 1]
  else exists reply t',
       t = Call (GetAssetBalance "USDT") (inr (Balance b))
             :: Call (GetKlines "BTCUSDT" "1h" 2) reply :: t'.
Proof.
  intros Hb Hx. rewrite Buying.iteration_idle_eq, Hb. cbv zeta. rewrite Hx.
  destruct (usdt_balance <? 10)%float.
  { intros [= <- <- <-]. now repeat split. }
  destruct (get_top_loss_crypto cryptos default_timeframe w1)
    as [[r2 w2] t2] eqn:E2.
  destruct (Idle.get_top_loss_crypto_first _ _ _ _ _ _ _ E2)
    as (reply & t' & ->).
  destruct r2 as [top|e|].
  2,3: intros [= <- <- <-]; eexists _, _; reflexivity.
  destruct (invest_in_crypto top (usdt_balance * default_fraction)%float w2)
    as [[[[[o bp]|]|e|] w3] t3].
  2-4: intros [= <- <- <-]; eexists _, _; reflexivity.
  destruct (fills o) as [|f rest];
    [intros [= <- <- <-]; eexists _, _; reflexivity|].
  destruct (py_float (qty f));
    intros [= <- <- <-]; eexists _, _; reflexivity.
Qed.

(** X4.  When the exchange rejects the buy order of an iteration with a
    [BinanceAPIException], the iteration ends there, by the [continue] of
    line 179: the rejection is logged, no trade becomes active, and the
    iteration has not slept at all, so that the next balance request
    follows at once.  Any other exception from the order goes to the handler
    of the loop, which logs it and sleeps twice. *)
Theorem idle_rejected_buy_no_pause
    (fuel : nat) (w w' : W) (r : outcome (option trade)) (t : list event)
    (c : option string) (q : float) (e : exn) :
  iteration fuel None w = (r, w', t) ->
  In (Call (OrderMarketBuy c q) (inl e)) t ->
  r = Returned None /\
  if is_binance e
  then (exists t0,
           t = t0 ++ [Call (OrderMarketBuy c q) (inl e);
                      Log (LogBuyError c e)]) /\
       forall ev, In ev t -> is_sleep ev = false
  else exists t0,
       t = t0 ++ [Call (OrderMarketBuy c q) (inl e);
                  Log (LogUnexpected e); Sleep 1; Sleep 1].
Proof.
  rewrite Buying.iteration_idle_eq.
  destruct (get_asset_balance "USDT" w) as [[e0|b] w1].
  { intros [= <- <- <-] [[=]|[[=]|[[=]|[[=]|[]]]]]. }
  cbv zeta. destruct (py_float (free b)) as [e0|usdt_balance].
  { intros [= <- <- <-] [[=]|[[=]|[[=]|[[=]|[]]]]]. }
  destruct (usdt_balance <? 10)%float.
  { intros [= <- <- <-] [[=]|[[=]|[[=]|[]]]]. }
  destruct (get_top_loss_crypto cryptos default_timeframe w1)
    as [[r2 w2] t2] eqn:E2.
  pose proof (Idle.get_top_loss_crypto_quiet _ _ _ _ _ _ E2) as Hscan.
  assert (Hnot : In (Call (OrderMarketBuy c q) (inl e)) t2 -> False).
  { intros Hin. destruct (Hscan _ Hin) as [[=] _]. }
  destruct r2 as [top|e2|].
  2:{ intros [= <- <- <-] [[=]|Hin]. apply in_app_or in Hin.
      destruct Hin as [Hin|[[=]|[[=]|[[=]|[]]]]]. destruct (Hnot Hin). }
  2:{ intros [= <- <- <-] [[=]|Hin]. destruct (Hnot Hin). }
  destruct (invest_in_crypto top (usdt_balance * default_fraction)%float w2)
    as [[r3 w3] t3] eqn:E3.
  set (asked := Call (GetAssetBalance "USDT") (inr (Balance b))).
  assert (Hin3 : forall tail,
             (forall ev, In ev tail -> is_buy ev = false) ->
             In (Call (OrderMarketBuy c q) (inl e)) (asked :: t2 ++ t3 ++ tail) ->
             In (Call (OrderMarketBuy c q) (inl e)) t3).
  { intros tail Htail [[=]|Hin]. apply in_app_or in Hin.
    destruct Hin as [Hin|Hin]; [destruct (Hnot Hin)|].
    apply in_app_or in Hin. destruct Hin as [Hin|Hin]; [assumption|].
    discriminate (Htail _ Hin). }
  assert (Htail : forall x y ev,
             In ev [Log x; Sleep y; Sleep y] -> is_buy ev = false).
  { intros x y ev [<-|[<-|[<-|[]]]]; reflexivity. }
  destruct (Idle.invest_in_crypto_shape _ _ _ _ _ _ E3)
    as [(e3 & -> & Hq)|(tk & cp & info & q3 & Hcp & Hcases)].
  { intros [= <- <- <-] Hin. apply (Hin3 _ (Htail _ _)) in Hin.
    destruct (Hq _ Hin) as [[=] _]. }
  cbv zeta in Hcases.
  destruct Hcases as [(e3 & Hb & -> & ->)|[(e3 & Hb & -> & ->)|(o & -> & ->)]].
  - intros [= <- <- <-] Hin.
    assert (Hin' : In (Call (OrderMarketBuy c q) (inl e))
                      (asked :: t2 ++
                         ([Call (GetSymbolTicker top) (inr (Ticker tk));
                           Call GetExchangeInfo (inr (ExchangeInfo info))] ++
                          [Call (OrderMarketBuy top q3) (inl e3);
                           Log (LogBuyError top e3)]) ++ []))
      by now rewrite app_nil_r.
    apply Hin3 in Hin'; [|intros ev []].
    destruct Hin' as [[=]|[[=]|[[= -> -> ->]|[[=]|[]]]]].
    split; [reflexivity|]. rewrite Hb. split.
    + exists (asked :: t2 ++
                [Call (GetSymbolTicker c) (inr (Ticker tk));
                 Call GetExchangeInfo (inr (ExchangeInfo info))]).
      simpl. now rewrite <- app_assoc.
    + intros ev [<-|Hev]; [reflexivity|]. apply in_app_or in Hev.
      destruct Hev as [Hev|[<-|[<-|[<-|[<-|[]]]]]]; try reflexivity.
      apply (Hscan _ Hev).
  - intros [= <- <- <-] Hin. apply (Hin3 _ (Htail _ _)) in Hin.
    destruct Hin as [[=]|[[=]|[[= -> -> ->]|[]]]].
    split; [reflexivity|]. rewrite Hb.
    exists (asked :: t2 ++
              [Call (GetSymbolTicker c) (inr (Ticker tk));
               Call GetExchangeInfo (inr (ExchangeInfo info))]).
    simpl. rewrite <- app_assoc. reflexivity.
  - destruct (fills o) as [|f rest].
    + intros [= <- <- <-] Hin. apply (Hin3 _ (Htail _ _)) in Hin.
      destruct Hin as [[=]|[[=]|[[=]|[[=]|[]]]]].
    + destruct (py_float (qty f)) as [e4|a]; intros [= <- <- <-] Hin.
      * apply (Hin3 _ (Htail _ _)) in Hin.
        destruct Hin as [[=]|[[=]|[[=]|[[=]|[]]]]].
      * apply Hin3 in Hin;
          [|intros ev [<-|[<-|[]]]; reflexivity].
        destruct Hin as [[=]|[[=]|[[=]|[[=]|[]]]]].
Qed.

(** X5.  The trade that an iteration makes active: its symbol is a symbol of
    the watchlist; its buy price is the ticker price that was fetched before
    the order, not a price of the fills; its amount is the quantity of the
    first fill of the order, whatever other fills there are; the amount
    invested was the free balance times the Kelly fraction of the defaults.
    The iteration ends with the "Active trade started" record and one sleep
    of a second. *)
Theorem idle_trade_from_ticker_and_first_fill
    (fuel : nat) (w w' : W) (t : list event)
    (c : option string) (buy_price amount_bought : float) :
  iteration fuel None w = (Returned (Some (c, buy_price, amount_bought)), w', t) ->
  exists s t0 b usdt_balance tk info q o f rest,
    c = Some s /\ In s cryptos /\
    In (Call (GetAssetBalance "USDT") (inr (Balance b))) t0 /\
    py_float (free b) = inr usdt_balance /\
    t = t0 ++ [Call (GetSymbolTicker c) (inr (Ticker tk));
               Call GetExchangeInfo (inr (ExchangeInfo info));
               Call (OrderMarketBuy c q) (inr (Order o));
               Log (LogBought q c (usdt_balance * default_fraction)%float
                              buy_price);
               Log (LogActiveTrade (c, buy_price, amount_bought));
               Sleep 1] /\
    py_float (price tk) = inr buy_price /\
    fills o = f :: rest /\
    py_float (qty f) = inr amount_bought.
Proof.
  rewrite Buying.iteration_idle_eq.
  destruct (get_asset_balance "USDT" w) as [[e0|b] w1]; [discriminate|].
  cbv zeta. destruct (py_float (free b)) as [e0|usdt_balance] eqn:Ex;
    [discriminate|].
  destruct (usdt_balance <? 10)%float; [discriminate|].
  destruct (get_top_loss_crypto cryptos default_timeframe w1)
    as [[r2 w2] t2] eqn:E2.
  destruct r2 as [top|e2|]; try discriminate.
  destruct (invest_in_crypto top (usdt_balance * default_fraction)%float w2)
    as [[r3 w3] t3] eqn:E3.
  destruct top as [s|].
  2:{ destruct (Buying.invest_in_crypto_None
                  (usdt_balance * default_fraction)%float w2)
        as (e & w4 & t4 & H4 & _).
      rewrite H4 in E3. injection E3 as <- <- <-. discriminate. }
  destruct (Idle.invest_in_crypto_shape _ _ _ _ _ _ E3)
    as [(e3 & -> & Hq)|(tk & cp & info & q3 & Hcp & Hcases)];
    [discriminate|].
  cbv zeta in Hcases.
  destruct Hcases as [(e3 & Hb & -> & ->)|[(e3 & Hb & -> & ->)|(o & -> & ->)]];
    try discriminate.
  destruct (fills o) as [|f rest] eqn:Ef; [discriminate|].
  destruct (py_float (qty f)) as [e4|a] eqn:Ea; [discriminate|].
  intros [= <- <- <- <- <-].
  exists s, (Call (GetAssetBalance "USDT") (inr (Balance b)) :: t2),
    b, usdt_balance, tk, info, q3, o, f, rest.
  repeat split; try assumption; try reflexivity.
  - apply (Idle.get_top_loss_crypto_member _ _ _ _ _ _ E2).
  - now left.
Qed.

End IdleExtras.

Lemma poor_example_eq :
  iteration 5 None poor_world =
  (fst (fst poor_example), snd (fst poor_example), snd poor_example).
Proof.
  unfold poor_example. now destruct (iteration _ _ _) as [[? ?] ?].
Defined.

(** X3 at a scripted balance of 5 USDT. *)
Lemma idle_balance_below_ten_waits_witness :
  fst (fst poor_example) = Returned None /\
  snd poor_example =
    [Call (GetAssetBalance "USDT") (inr (Balance {| free := "5.00000000" |}));
     Log LogInsufficientBalance; Sleep 1].
Proof.
  assert (Hb : get_asset_balance "USDT" poor_world =
               (inr {| free := "5.00000000" |}, poor_world)) by reflexivity.
  assert (Hx : py_float (free {| free := "5.00000000" |}) = inr 5%float)
    by (vm_compute; reflexivity).
  assert (H : fst (fst poor_example) = Returned None /\
              snd (fst poor_example) = poor_world /\
              snd poor_example =
                [Call (GetAssetBalance "USDT")
                      (inr (Balance {| free := "5.00000000" |}));
                 Log LogInsufficientBalance; Sleep 1])
    by exact (idle_balance_below_ten_waits 5 poor_world poor_world _ _ _ _ _
                Hb Hx poor_example_eq).
  exact (conj (proj1 H) (proj2 (proj2 H))).
Defined.

Lemma rejected_example_eq :
  iteration 5 None rejecting_world =
  (fst (fst rejected_example), snd (fst rejected_example),
   snd rejected_example).
Proof.
  unfold rejected_example. now destruct (iteration _ _ _) as [[? ?] ?].
Defined.

Lemma rejected_example_order :
  In (Call (OrderMarketBuy (Some "ETHUSDT"%string) 0.019900000000000001)
           (inl Mock.binance_error))
     (snd rejected_example).
Proof.
  vm_compute.
  repeat match goal with |- _ \/ _ => (left; reflexivity) || right end.
Defined.

(** X4 at a scripted purchase that the exchange rejects. *)
Lemma idle_rejected_buy_no_pause_witness :
  fst (fst rejected_example) = Returned None /\
  exists t0,
    snd rejected_example =
    t0 ++ [Call (OrderMarketBuy (Some "ETHUSDT"%string) 0.019900000000000001)
                (inl Mock.binance_error);
           Log (LogBuyError (Some "ETHUSDT"%string) Mock.binance_error)].
Proof.
  assert (H := idle_rejected_buy_no_pause 5 rejecting_world _ _ _ _ _ _
                 rejected_example_eq rejected_example_order).
  exact (conj (proj1 H) (proj1 (proj2 H))).
Defined.

Lemma bought_example_eq :
  iteration 5 None round_trip_world =
  (Returned (Some (Some "ETHUSDT"%string, 2000%float, 0.02%float)),
   snd (fst bought_example), snd bought_example).
Proof. vm_compute. reflexivity. Defined.

(** X5 at a scripted purchase of ETHUSDT at a ticker price of 2000, filled
    with 0.02. *)
Lemma idle_trade_from_ticker_and_first_fill_witness :
  exists s t0 b usdt_balance tk info q o f rest,
    Some "ETHUSDT"%string = Some s /\ In s cryptos /\
    In (Call (GetAssetBalance "USDT") (inr (Balance b))) t0 /\
    py_float (free b) = inr usdt_balance /\
    snd bought_example =
      t0 ++ [Call (GetSymbolTicker (Some "ETHUSDT"%string)) (inr (Ticker tk));
             Call GetExchangeInfo (inr (ExchangeInfo info));
             Call (OrderMarketBuy (Some "ETHUSDT"%string) q) (inr (Order o));
             Log (LogBought q (Some "ETHUSDT"%string)
                            (usdt_balance * default_fraction)%float
                            2000%float);
             Log (LogActiveTrade (Some "ETHUSDT"%string, 2000%float,
                                  0.02%float));
             Sleep 1] /\
    py_float (price tk) = inr 2000%float /\
    fills o = f :: rest /\
    py_float (qty f) = inr 0.02%float.
Proof.
  exact (idle_trade_from_ticker_and_first_fill 5 round_trip_world _ _ _ _ _
           bought_example_eq).
Defined.

(** ** The loop as a whole *)
Module Loop.

Lemma step_no_order (held : option position) (ev : event) :
  no_order ev -> step held ev = held /\ allowed held ev.
Proof.
  intros [Hb Hs]. destruct ev as [[] reply| |]; try discriminate; now split.
Qed.

Lemma no_orders (held : option position) (t : list event) :
  Forall no_order t -> tracked held t = held /\ orderly held t.
Proof.
  unfold tracked. induction 1 as [|ev t Hev Ht IH]; simpl; [now split|].
  destruct (step_no_order held ev Hev) as [-> Ha].
  destruct IH as [IH1 IH2]. now repeat split.
Qed.

Lemma tracked_app (held : option position) (t1 t2 : list event) :
  tracked held (t1 ++ t2) = tracked (tracked held t1) t2.
Proof. apply fold_left_app. Qed.

Lemma orderly_app (t1 t2 : list event) :
  forall held,
    orderly held t1 -> orderly (tracked held t1) t2 ->
    orderly held (t1 ++ t2).
Proof.
  induction t1 as [|ev t1 IH]; simpl; intros held H1 H2; [assumption|].
  destruct H1 as [Ha H1]. split; [assumption|]. now apply IH.
Qed.

Lemma orderly_split (t1 t2 : list event) :
  forall held,
    orderly held (t1 ++ t2) ->
    orderly held t1 /\ orderly (tracked held t1) t2.
Proof.
  induction t1 as [|ev t1 IH]; simpl; intros held H; [now split|].
  destruct H as [Ha H]. destruct (IH _ H) as [H1 H2]. now repeat split.
Qed.

Lemma tracked_quiet_app (held : option position) (t1 t2 : list event) :
  Forall no_order t1 -> tracked held (t1 ++ t2) = tracked held t2.
Proof.
  intros H. rewrite tracked_app. now destruct (no_orders held t1 H) as [-> _].
Qed.

Lemma orderly_quiet_app (held : option position) (t1 t2 : list event) :
  Forall no_order t1 -> orderly held t2 -> orderly held (t1 ++ t2).
Proof.
  intros H H2. destruct (no_orders held t1 H) as [Ht Ho].
  apply orderly_app; [assumption|]. now rewrite Ht.
Qed.

Lemma quiet_no_order (t : list event) :
  (forall ev, In ev t -> quiet ev) -> Forall no_order t.
Proof.
  intros H. apply Forall_forall. intros ev Hin.
  destruct (H ev Hin) as (Hb & Hs & _). now split.
Qed.

Lemma polled_no_order (c : option string) (buy_price target_gain : float)
    (n : nat) (t : list event) :
  polled c buy_price target_gain n t -> Forall no_order t.
Proof.
  induction 1 as [|n e t He Hp IH|n tk p t Hf Hlt Hp IH];
    repeat (constructor; [now split|]); assumption || constructor.
Qed.

Ltac no_order_list :=
  repeat first [ assumption
               | apply Forall_nil
               | apply Forall_cons; [now split|]
               | apply Forall_app; split ].

Section WithClient.

Context {W : Type} {client : Exchange W}.

Lemma wait_for_pump_no_order (fuel : nat) (c : option string)
    (buy_price target_gain : float) (w w' : W) (r : outcome float)
    (t : list event) :
  wait_for_pump fuel c buy_price target_gain w = (r, w', t) ->
  Forall no_order t.
Proof.
  intros Hrun. apply Steps.wait_for_pump_run in Hrun.
  destruct r as [p|e|].
  - destruct Hrun as (_ & n & t0 & tk & _ & Hp & -> & _).
    apply polled_no_order in Hp. no_order_list.
  - destruct Hrun as (_ & n & t0 & reply & _ & Hp & ->).
    apply polled_no_order in Hp. no_order_list.
  - now apply polled_no_order in Hrun.
Qed.

(** One iteration: its orders are in order with the position it starts
    from, and the value of [active_trade] it ends with is the position that
    its orders leave.  It raises nothing, and it is cut short only in the
    wait for the target. *)
Lemma iteration_ledger (fuel : nat) (active_trade : option trade)
    (w w' : W) (r : outcome (option trade)) (t : list event) :
  iteration fuel active_trade w = (r, w', t) ->
  orderly (position_of active_trade) t /\
  match r with
  | Returned next =>
      tracked (position_of active_trade) t = position_of next
  | Raised _ => False
  | Running =>
      exists c buy_price amount_bought,
        active_trade = Some (c, buy_price, amount_bought) /\
        polled c buy_price default_target_gain fuel t
  end.
Proof.
  destruct active_trade as [[[c bp] a]|]; simpl.
  - rewrite Holding.iteration_holding_eq.
    destruct (wait_for_pump fuel c bp default_target_gain w)
      as [[r1 w1] t1] eqn:E1.
    pose proof (wait_for_pump_no_order _ _ _ _ _ _ _ _ E1) as Hw.
    assert (Hkept : forall tail,
               Forall no_order tail ->
               orderly (Some (c, a)) (t1 ++ tail) /\
               tracked (Some (c, a)) (t1 ++ tail) = Some (c, a)).
    { intros tail Htail.
      assert (Hall : Forall no_order (t1 ++ tail)) by no_order_list.
      destruct (no_orders (Some (c, a)) _ Hall) as [Ht Ho]. now split. }
    destruct r1 as [p|e|].
    2:{ intros [= <- <- <-]. apply Hkept. no_order_list. }
    2:{ intros [= <- <- <-]. split.
        - now destruct (no_orders (Some (c, a)) _ Hw).
        - exists c, bp, a. split; [reflexivity|].
          apply (Steps.wait_for_pump_run _ _ _ _ _ _ _ _ E1). }
    rewrite Steps.sell_crypto_eq.
    destruct (py_round a sell_precision) as [e|q] eqn:Eq.
    { intros [= <- <- <-]. apply Hkept. no_order_list. }
    assert (Hsale : forall reply tail,
               Forall no_order tail ->
               orderly (Some (c, a))
                       (t1 ++ [Call (OrderMarketSell c q) reply] ++ tail) /\
               tracked (Some (c, a))
                       (t1 ++ [Call (OrderMarketSell c q) reply] ++ tail) =
               step (Some (c, a)) (Call (OrderMarketSell c q) reply)).
    { intros reply tail Htail. split.
      - apply orderly_quiet_app; [assumption|]. simpl. split.
        + now exists a.
        + now destruct (no_orders
                          (step (Some (c, a))
                                (Call (OrderMarketSell c q) reply)) _ Htail).
      - rewrite tracked_quiet_app by assumption.
        rewrite tracked_app.
        now destruct (no_orders
                        (tracked (Some (c, a))
                                 [Call (OrderMarketSell c q) reply]) _ Htail)
          as [-> _]. }
    destruct (order_market_sell c q w1) as [[e|o] w2].
    + destruct (is_binance e); intros [= <- <- <-].
      * apply (Hsale (inl e) (Log (LogSellError c e)
                               :: [Log (LogSellFailed c); Sleep 1; Sleep 1])).
        no_order_list.
      * apply (Hsale (inl e) [Log (LogUnexpected e); Sleep 1; Sleep 1]).
        no_order_list.
    + destruct (fills o) as [|f rest] eqn:Ef.
      * intros [= <- <- <-].
        destruct (Hsale (inr (Order o))
                        [Log (LogUnexpected IndexError); Sleep 1; Sleep 1])
          as [Ho Ht]; [no_order_list|].
        split; [exact Ho|]. refine (eq_trans Ht _). simpl. now rewrite Ef.
      * destruct (py_float (fill_price f)) as [e|sp] eqn:Ep;
          intros [= <- <- <-].
        -- destruct (Hsale (inr (Order o))
                           [Log (LogUnexpected ValueError); Sleep 1; Sleep 1])
             as [Ho Ht]; [no_order_list|].
           split; [exact Ho|]. refine (eq_trans Ht _). simpl. now rewrite Ef, Ep.
        -- destruct (Hsale (inr (Order o))
                           (Log (LogSold q c sp)
                              :: [Log (LogTradeCompleted c); Sleep 1; Sleep 1]))
             as [Ho Ht]; [no_order_list|].
           split; [exact Ho|]. refine (eq_trans Ht _). simpl. now rewrite Ef, Ep.
  - rewrite Buying.iteration_idle_eq.
    assert (Hnone : forall l,
               Forall no_order l ->
               orderly None l /\ tracked None l = position_of None).
    { intros l Hl. now destruct (no_orders None l Hl). }
    destruct (get_asset_balance "USDT" w) as [[e0|b] w1].
    { intros [= <- <- <-]. apply Hnone. no_order_list. }
    cbv zeta. destruct (py_float (free b)) as [e0|usdt_balance].
    { intros [= <- <- <-]. apply Hnone. no_order_list. }
    destruct (usdt_balance <? 10)%float.
    { intros [= <- <- <-]. apply Hnone. no_order_list. }
    destruct (get_top_loss_crypto cryptos default_timeframe w1)
      as [[r2 w2] t2] eqn:E2.
    pose proof (quiet_no_order _
                  (Idle.get_top_loss_crypto_quiet _ _ _ _ _ _ E2)) as Hscan.
    destruct r2 as [top|e|].
    2:{ intros [= <- <- <-]. apply Hnone. no_order_list. }
    2:{ destruct (Idle.get_top_loss_crypto_not_running _ _ _ _ _ E2). }
    destruct (invest_in_crypto top (usdt_balance * default_fraction)%float w2)
      as [[r3 w3] t3] eqn:E3.
    set (asked := Call (GetAssetBalance "USDT") (inr (Balance b))).
    assert (Hbuy : forall pre q reply tail,
               Forall no_order pre -> Forall no_order tail ->
               orderly None
                 (asked :: t2 ++ (pre ++ Call (OrderMarketBuy top q) reply
                                      :: tail)) /\
               tracked None
                 (asked :: t2 ++ (pre ++ Call (OrderMarketBuy top q) reply
                                      :: tail)) =
               step None (Call (OrderMarketBuy top q) reply)).
    { intros pre q reply tail Hpre Htail.
      change (asked :: t2 ++ pre ++ Call (OrderMarketBuy top q) reply :: tail)
        with ((asked :: t2) ++ pre ++ [Call (OrderMarketBuy top q) reply]
                ++ tail).
      assert (H1 : Forall no_order ((asked :: t2) ++ pre)) by no_order_list.
      rewrite app_assoc. split.
      - apply orderly_quiet_app; [assumption|]. simpl. split; [reflexivity|].
        now destruct (no_orders
                        (step None (Call (OrderMarketBuy top q) reply))
                        _ Htail).
      - rewrite tracked_quiet_app by assumption. rewrite tracked_app.
        now destruct (no_orders
                        (tracked None [Call (OrderMarketBuy top q) reply])
                        _ Htail) as [-> _]. }
    destruct (Idle.invest_in_crypto_shape _ _ _ _ _ _ E3)
      as [(e3 & -> & Hq)|(tk & cp & info & q3 & Hcp & Hcases)].
    { apply quiet_no_order in Hq.
      intros [= <- <- <-]. apply Hnone. no_order_list. }
    cbv zeta in Hcases.
    destruct Hcases
      as [(e3 & Hb & -> & ->)|[(e3 & Hb & -> & ->)|(o & -> & ->)]].
    + intros [= <- <- <-].
      apply (Hbuy [Call (GetSymbolTicker top) (inr (Ticker tk));
                   Call GetExchangeInfo (inr (ExchangeInfo info))]
                  q3 (inl e3) [Log (LogBuyError top e3)]); no_order_list.
    + intros [= <- <- <-].
      apply (Hbuy [Call (GetSymbolTicker top) (inr (Ticker tk));
                   Call GetExchangeInfo (inr (ExchangeInfo info))]
                  q3 (inl e3) [Log (LogUnexpected e3); Sleep 1; Sleep 1]);
        no_order_list.
    + destruct (fills o) as [|f rest] eqn:Ef.
      * intros [= <- <- <-].
        destruct (Hbuy [Call (GetSymbolTicker top) (inr (Ticker tk));
                        Call GetExchangeInfo (inr (ExchangeInfo info))]
                       q3 (inr (Order o))
                       [Log (LogBought q3 top
                               (usdt_balance * default_fraction)%float cp);
                        Log (LogUnexpected IndexError); Sleep 1; Sleep 1])
          as [Ho Ht]; try no_order_list.
        split; [exact Ho|]. refine (eq_trans Ht _). simpl. now rewrite Ef.
      * destruct (py_float (qty f)) as [e4|a] eqn:Ea; intros [= <- <- <-].
        -- destruct (Hbuy [Call (GetSymbolTicker top) (inr (Ticker tk));
                           Call GetExchangeInfo (inr (ExchangeInfo info))]
                          q3 (inr (Order o))
                          [Log (LogBought q3 top
                                  (usdt_balance * default_fraction)%float cp);
                           Log (LogUnexpected ValueError); Sleep 1; Sleep 1])
             as [Ho Ht]; try no_order_list.
           split; [exact Ho|]. refine (eq_trans Ht _). simpl. now rewrite Ef, Ea.
        -- destruct (Hbuy [Call (GetSymbolTicker top) (inr (Ticker tk));
                           Call GetExchangeInfo (inr (ExchangeInfo info))]
                          q3 (inr (Order o))
                          [Log (LogBought q3 top
                                  (usdt_balance * default_fraction)%float cp);
                           Log (LogActiveTrade (top, cp, a)); Sleep 1])
             as [Ho Ht]; try no_order_list.
           split; [exact Ho|]. refine (eq_trans Ht _). simpl. now rewrite Ef, Ea.
Qed.

(** Any number of iterations, from any value of [active_trade]. *)
Lemma iterations_ledger (fuel : nat) (n : nat) :
  forall (active_trade : option trade) (w w' : W)
         (r : outcome (option trade)) (t : list event),
    iterations n fuel active_trade w = (r, w', t) ->
    orderly (position_of active_trade) t /\
    match r with
    | Returned next =>
        tracked (position_of active_trade) t = position_of next
    | Raised _ => False
    | Running =>
        exists t0 t1 c buy_price,
          t = t0 ++ t1 /\ polled c buy_price default_target_gain fuel t1
    end.
Proof.
  induction n as [|n IH]; intros active_trade w w' r t Hrun.
  - injection Hrun as <- <- <-. now split.
  - simpl in Hrun. unfold bind in Hrun.
    destruct (iteration fuel active_trade w) as [[r1 w1] t1] eqn:E1.
    destruct (iteration_ledger _ _ _ _ _ _ E1) as [Ho1 Hr1].
    destruct r1 as [next|e|]; [|destruct Hr1|].
    + destruct (iterations n fuel next w1) as [[r2 w2] t2] eqn:E2.
      injection Hrun as <- <- <-.
      destruct (IH _ _ _ _ _ E2) as [Ho2 Hr2]. split.
      * apply orderly_app; [assumption|]. now rewrite Hr1.
      * destruct r2 as [last|e|]; [|assumption|].
        -- now rewrite tracked_app, Hr1.
        -- destruct Hr2 as (t0 & t3 & c & bp & -> & Hp).
           exists (t1 ++ t0), t3, c, bp. split; [apply app_assoc|assumption].
    + injection Hrun as <- <- <-. split; [assumption|].
      destruct Hr1 as (c & bp & a & _ & Hp).
      exists [], t1, c, bp. now split.
Qed.

End WithClient.

End Loop.

Section LoopExtras.

Context {W : Type} {client : Exchange W}.

(** X6.  No exception leaves the loop of [run_trading_bot]: whatever the
    exchange replies, and whatever the replies hold, [n] iterations end with
    a value of [active_trade], unless they are cut short, and that only in
    [wait_for_pump], after [fuel] rounds that did not reach the target. *)
Theorem run_trading_bot_raises_nothing
    (n fuel : nat) (w w' : W) (r : outcome (option trade)) (t : list event) :
  run_trading_bot n fuel w = (r, w', t) ->
  match r with
  | Returned _ => True
  | Raised _ => False
  | Running =>
      exists t0 t1 c buy_price,
        t = t0 ++ t1 /\ polled c buy_price default_target_gain fuel t1
  end.
Proof.
  intros Hrun. unfold run_trading_bot in Hrun.
  destruct (Loop.iterations_ledger _ _ _ _ _ _ _ Hrun) as [_ H].
  destruct r as [next|e|]; [exact I|assumption|assumption].
Qed.

(** X7.  One trade at a time.  Read the position off the orders of a run: a
    buy that is answered with an order whose first fill has a quantity opens
    one, a sale that is answered with an order whose first fill has a price
    closes it.  Then every buy order of [run_trading_bot] is placed with no
    position open, every sell order sells the symbol of the open position,
    in its quantity rounded to six decimals, and after any number of
    iterations [active_trade] is the position that the orders have left. *)
Theorem run_trading_bot_one_trade_at_a_time
    (n fuel : nat) (w w' : W) (r : outcome (option trade)) (t : list event) :
  run_trading_bot n fuel w = (r, w', t) ->
  orderly None t /\
  match r with
  | Returned active_trade => tracked None t = position_of active_trade
  | _ => True
  end.
Proof.
  intros Hrun. unfold run_trading_bot in Hrun.
  destruct (Loop.iterations_ledger _ _ _ _ _ _ _ Hrun) as [Ho H].
  split; [exact Ho|]. destruct r as [next|e|]; [exact H|exact I|exact I].
Qed.

End LoopExtras.

Lemma starved_example_eq :
  run_trading_bot 2 1 round_trip_world =
  (Running, snd (fst starved_example), snd starved_example).
Proof. vm_compute. reflexivity. Defined.

(** X6 at a scripted run whose second iteration finds a price short of the
    target and has no second round. *)
Lemma run_trading_bot_raises_nothing_witness :
  exists t0 t1 c buy_price,
    snd starved_example = t0 ++ t1 /\
    polled c buy_price default_target_gain 1 t1.
Proof.
  exact (run_trading_bot_raises_nothing 2 1 round_trip_world _ _ _
           starved_example_eq).
Defined.

Lemma round_trip_example_eq :
  run_trading_bot 2 5 round_trip_world =
  (Returned None, snd (fst round_trip_example), snd round_trip_example).
Proof. vm_compute. reflexivity. Defined.

(** X7 at a scripted purchase followed by its sale. *)
Lemma run_trading_bot_one_trade_at_a_time_witness :
  orderly None (snd round_trip_example) /\
  tracked None (snd round_trip_example) = None.
Proof.
  exact (run_trading_bot_one_trade_at_a_time 2 5 round_trip_world _ _ _
           round_trip_example_eq).
Defined.

(** ** Where a position comes from *)
Module Ledger.

Lemma step_some (held : option position) (ev : event)
    (c : option string) (a : float) :
  step held ev = Some (c, a) ->
  held = Some (c, a) \/
  exists bought o f rest,
    ev = Call (OrderMarketBuy c bought) (inr (Order o)) /\
    fills o = f :: rest /\ py_float (qty f) = inr a.
Proof.
  destruct ev as [[s i l|s| |s|s q|s q] [e|[k|tk|info|b|o]]| |]; simpl;
    try (intros ->; now left).
  - destruct (fills o) as [|f rest] eqn:Ef; [intros ->; now left|].
    destruct (py_float (qty f)) as [e|a'] eqn:Ea; [intros ->; now left|].
    intros [= -> ->]. right. now exists q, o, f, rest.
  - destruct (fills o) as [|f rest]; [intros ->; now left|].
    destruct (py_float (fill_price f)); [intros ->; now left|discriminate].
Qed.

Lemma tracked_some (t : list event) (c : option string) (a : float) :
  forall held,
    tracked held t = Some (c, a) ->
    held = Some (c, a) \/
    exists bought o f rest,
      In (Call (OrderMarketBuy c bought) (inr (Order o))) t /\
      fills o = f :: rest /\ py_float (qty f) = inr a.
Proof.
  unfold tracked. induction t as [|ev t IH]; simpl; intros held H;
    [now left|].
  destruct (IH _ H) as [Hs|(bought & o & f & rest & Hin & Hf & Hq)].
  - destruct (step_some _ _ _ _ Hs)
      as [->|(bought & o & f & rest & -> & Hf & Hq)]; [now left|].
    right. exists bought, o, f, rest. repeat split; try assumption. now left.
  - right. exists bought, o, f, rest. repeat split; try assumption. now right.
Qed.

End Ledger.

Section LedgerExtras.

Context {W : Type} {client : Exchange W}.

(** X8.  [run_trading_bot] sells nothing that it has not bought: before
    every sell order of a run there is a buy order of the same symbol that
    the exchange answered with an order, and the quantity sold is the
    quantity of the first fill of that order, rounded to six decimals. *)
Theorem run_trading_bot_sells_what_it_bought
    (n fuel : nat) (w w' : W) (r : outcome (option trade))
    (t t0 t1 : list event) (c : option string) (q : float)
    (reply : exn + response) :
  run_trading_bot n fuel w = (r, w', t) ->
  t = t0 ++ Call (OrderMarketSell c q) reply :: t1 ->
  backed t0 c q.
Proof.
  intros Hrun ->. unfold run_trading_bot in Hrun.
  destruct (Loop.iterations_ledger _ _ _ _ _ _ _ Hrun) as [Ho _].
  apply Loop.orderly_split in Ho. destruct Ho as [_ [(a & Ht & Hq) _]].
  simpl in Ht.
  destruct (Ledger.tracked_some _ _ _ _ Ht)
    as [[=]|(bought & o & f & rest & Hin & Hf & Ha)].
  now exists bought, o, f, rest, a.
Qed.

End LedgerExtras.

Lemma round_trip_example_split :
  snd round_trip_example =
  round_trip_before ++ round_trip_sale :: round_trip_after.
Proof. vm_compute. reflexivity. Defined.

(** X8 at the sale of the scripted round trip. *)
Lemma run_trading_bot_sells_what_it_bought_witness :
  backed round_trip_before (Some "ETHUSDT"%string) 0.02%float.
Proof.
  exact (run_trading_bot_sells_what_it_bought 2 5 round_trip_world _ _ _ _ _ _
           _ _ round_trip_example_eq round_trip_example_split).
Defined.

(** ** What the buy path needs, and what the scan keeps *)
Module Edges.

Lemma next_such_raises {A : Type} (p : A -> bool) (l : list A) (e : exn) :
  next_such p l = inl e -> e = StopIteration.
Proof. unfold next_such. destruct (find p l); congruence. Qed.

Lemma next_such_absent {A : Type} (p : A -> bool) (l : list A) :
  (forall x, In x l -> p x = false) -> next_such p l = inl StopIteration.
Proof.
  intros H. unfold next_such. now rewrite (Idle.find_none_all p l H).
Qed.

Lemma polled_requests (c : option string) (buy_price target_gain : float)
    (n : nat) (t : list event) :
  polled c buy_price target_gain n t ->
  requests t = repeat (GetSymbolTicker c) n.
Proof.
  induction 1 as [|n e t He Hp IH|n tk p t Hf Hlt Hp IH]; simpl;
    [reflexivity|now rewrite IH|now rewrite IH].
Qed.

Lemma repeat_snoc {A : Type} (x : A) (n : nat) :
  repeat x n ++ [x] = repeat x (S n).
Proof. induction n as [|n IH]; simpl; [reflexivity|now rewrite IH]. Qed.

(** Nothing is below a nan. *)
Lemma ltb_nan (x v : float) : is_nan v = true -> (x <? v)%float = false.
Proof.
  unfold is_nan. rewrite eqb_spec, ltb_spec. intros H.
  destruct (Prim2SF v) as [s|s| |s m e] eqn:Ev.
  - destruct s; discriminate.
  - destruct s; discriminate.
  - unfold SFltb, SFcompare. now destruct (Prim2SF x) as [[|]|[|]| |[|] ? ?].
  - exfalso. revert H. unfold SFeqb, SFcompare.
    destruct s; rewrite Z.compare_refl, ?Pos.compare_cont_spec,
      Pos.compare_refl; discriminate.
Qed.

Lemma chosen_failures (pre : list string) (l : list (string * option float)) :
  forall b, chosen b (failures pre ++ l) = chosen b l.
Proof.
  unfold chosen. induction pre as [|c pre IH]; intros b; simpl;
    [reflexivity|apply IH].
Qed.

Lemma chosen_nan (l : list (string * option float)) (s : string) (v : float) :
  is_nan v = true -> chosen (Some v, Some s) l = (Some v, Some s).
Proof.
  intros Hv. unfold chosen.
  induction l as [|[c [change|]] l IH]; simpl; [reflexivity| |exact IH].
  unfold update. simpl. now rewrite (ltb_nan change v Hv).
Qed.

Section WithClient.

Context {W : Type} {client : Exchange W}.

(** A scan that returns leaves the variables chosen along its trace. *)
Lemma scan_chosen (tf : string) (cs : list string) :
  forall (b b' : best) (w w' : W) (t : list event),
    scan tf b cs w = (Returned b', w', t) -> b' = chosen b (changes t).
Proof.
  induction cs as [|c cs IH]; intros b b' w w' t Hrun.
  - now injection Hrun as <- <- <-.
  - simpl in Hrun. unfold bind in Hrun.
    rewrite Scanner.scan_symbol_eq in Hrun.
    destruct (get_klines c tf 2 w) as [[e|ohlcv] w1].
    + destruct (is_binance e); [|discriminate].
      destruct (scan tf b cs w1) as [[[b2|e2|] w2] t2] eqn:E2;
        try discriminate.
      injection Hrun as <- <- <-. apply (IH _ _ _ _ _ E2).
    + destruct (price_change_percent ohlcv) as [e|change] eqn:Ec;
        [discriminate|].
      destruct (scan tf (update b c change) cs w1)
        as [[[b2|e2|] w2] t2] eqn:E2; try discriminate.
      injection Hrun as <- <- <-. simpl. rewrite Ec.
      apply (IH _ _ _ _ _ E2).
Qed.

End WithClient.

End Edges.

Section EdgeExtras.

Context {W : Type} {client : Exchange W}.

(** X9.  The PRICE_FILTER of line 93 is looked up and never used, yet it is
    needed: when the entry of the symbol in the exchange information has no
    filter of that type, [invest_in_crypto] raises [StopIteration] after the
    ticker and the exchange information, and places no order, whatever the
    LOT_SIZE filter says. *)
Theorem invest_in_crypto_needs_price_filter
    (crypto : option string) (amount_to_invest : float) (w w' : W)
    (r : outcome (option (order * float))) (t : list event)
    (info : exchange_info) (entry : symbol_info) :
  invest_in_crypto crypto amount_to_invest w = (r, w', t) ->
  In (Call GetExchangeInfo (inr (ExchangeInfo info))) t ->
  next_such (fun item => symbol_eqb (symbol item) crypto) (symbols info)
  = inr entry ->
  (forall f, In f (filters entry) -> has_type "PRICE_FILTER" f = false) ->
  r = Raised StopIteration /\
  requests t = [GetSymbolTicker crypto; GetExchangeInfo].
Proof.
  intros Hrun Hin Hentry Hnone. revert Hrun Hin.
  rewrite Buying.invest_in_crypto_eq.
  destruct (get_symbol_ticker crypto w) as [[e|tk] w1].
  { intros [= <- <- <-] [[=]|[]]. }
  cbv zeta.
  destruct (py_float (price tk)) as [e|current_price].
  { intros [= <- <- <-] [[=]|[]]. }
  destruct (py_truediv amount_to_invest current_price) as [e|raw].
  { intros [= <- <- <-] [[=]|[]]. }
  destruct (get_exchange_info w1) as [[e|info'] w2].
  { intros [= <- <- <-] [[=]|[[=]|[]]]. }
  assert (Hinfo : forall tail,
             (forall ev, In ev tail -> is_exchange_info ev = false) ->
             In (Call GetExchangeInfo (inr (ExchangeInfo info)))
                (Call (GetSymbolTicker crypto) (inr (Ticker tk))
                   :: Call GetExchangeInfo (inr (ExchangeInfo info'))
                   :: tail) ->
             info' = info).
  { intros tail Htail [[=]|[[= ->]|Hin]]; [reflexivity|].
    discriminate (Htail _ Hin). }
  destruct (next_such _ (symbols info')) as [e|si] eqn:E3.
  { intros [= <- <- <-] Hin. apply (Hinfo []) in Hin; [|intros ev []].
    subst info'. rewrite Hentry in E3. discriminate. }
  destruct (next_such (has_type "LOT_SIZE") (filters si)) as [e|lot] eqn:E4.
  { intros [= <- <- <-] Hin.
    rewrite (Edges.next_such_raises _ _ _ E4). now split. }
  destruct (next_such (has_type "PRICE_FILTER") (filters si)) as [e|pf] eqn:E5.
  { intros [= <- <- <-] Hin.
    rewrite (Edges.next_such_raises _ _ _ E5). now split. }
  assert (Hsame : forall (r0 : outcome (option (order * float))) (w0 : W)
                         tail,
             (forall ev, In ev tail -> is_exchange_info ev = false) ->
             (r0, w0,
              Call (GetSymbolTicker crypto) (inr (Ticker tk))
                :: Call GetExchangeInfo (inr (ExchangeInfo info'))
                :: tail) = (r, w', t) ->
             In (Call GetExchangeInfo (inr (ExchangeInfo info))) t -> False).
  { intros r0 w0 tail Htail [= <- <- <-] Hin.
    apply (Hinfo _ Htail) in Hin. subst info'.
    rewrite Hentry in E3. injection E3 as <-.
    rewrite (Edges.next_such_absent _ _ Hnone) in E5. discriminate. }
  destruct (adjust_quantity lot raw) as [e|q].
  { intros Hres Hin. exfalso.
    refine (Hsame _ _ [] _ Hres Hin). intros ev []. }
  destruct (order_market_buy crypto q w2) as [[e|o] w3].
  - destruct (is_binance e); intros Hres Hin; exfalso.
    + refine (Hsame _ _ [Call (OrderMarketBuy crypto q) (inl e);
                       Log (LogBuyError crypto e)] _ Hres Hin).
      intros ev [<-|[<-|[]]]; reflexivity.
    + refine (Hsame _ _ [Call (OrderMarketBuy crypto q) (inl e)]
                    _ Hres Hin).
      intros ev [<-|[]]; reflexivity.
  - intros Hres Hin. exfalso.
    refine (Hsame _ _ [Call (OrderMarketBuy crypto q) (inr (Order o));
                     Log (LogBought q crypto amount_to_invest current_price)]
                  _ Hres Hin).
    intros ev [<-|[<-|[]]]; reflexivity.
Qed.

(** X11.  An iteration that holds a trade asks the exchange for nothing but
    the price of the symbol held, at most [fuel] times, and then, at most
    once and as its last request, for the sale of the amount held, rounded
    to six decimals: no balance, no candles, no exchange information, no
    buy. *)
Theorem holding_iteration_requests
    (fuel : nat) (crypto : option string) (buy_price amount_bought : float)
    (w w' : W) (r : outcome (option trade)) (t : list event) :
  iteration fuel (Some (crypto, buy_price, amount_bought)) w = (r, w', t) ->
  exists k,
    (k <= fuel)%nat /\
    (requests t = repeat (GetSymbolTicker crypto) k \/
     exists q,
       py_round amount_bought sell_precision = inr q /\
       requests t =
         repeat (GetSymbolTicker crypto) k ++ [OrderMarketSell crypto q]).
Proof.
  rewrite Holding.iteration_holding_eq.
  destruct (wait_for_pump fuel crypto buy_price default_target_gain w)
    as [[r1 w1] t1] eqn:E1.
  pose proof (Steps.wait_for_pump_run _ _ _ _ _ _ _ _ E1) as Hw.
  destruct r1 as [p|e|].
  3:{ intros [= <- <- <-]. exists fuel. split; [lia|left].
      apply (Edges.polled_requests _ _ _ _ _ Hw). }
  2:{ destruct Hw as (_ & n & t0 & reply & Hn & Hp & ->).
      intros [= <- <- <-]. exists (S n). split; [lia|left].
      rewrite !Scanner.requests_app, (Edges.polled_requests _ _ _ _ _ Hp).
      simpl. rewrite app_nil_r. apply Edges.repeat_snoc. }
  destruct Hw as (_ & n & t0 & tk & Hn & Hp & -> & _).
  assert (Hreq : requests (t0 ++ [Call (GetSymbolTicker crypto)
                                       (inr (Ticker tk))]) =
                 repeat (GetSymbolTicker crypto) (S n)).
  { rewrite Scanner.requests_app, (Edges.polled_requests _ _ _ _ _ Hp).
    apply Edges.repeat_snoc. }
  rewrite Steps.sell_crypto_eq.
  destruct (py_round amount_bought sell_precision) as [e|q] eqn:Eq.
  { intros [= <- <- <-]. exists (S n). split; [lia|left].
    rewrite Scanner.requests_app, Hreq. apply app_nil_r. }
  assert (Hsold : forall reply tail,
             requests tail = [] ->
             requests ((t0 ++ [Call (GetSymbolTicker crypto)
                                    (inr (Ticker tk))])
                         ++ (Call (OrderMarketSell crypto q) reply :: tail)) =
             repeat (GetSymbolTicker crypto) (S n)
               ++ [OrderMarketSell crypto q]).
  { intros reply tail Htail. rewrite Scanner.requests_app, Hreq.
    change (requests (Call (OrderMarketSell crypto q) reply :: tail))
      with (OrderMarketSell crypto q :: requests tail).
    now rewrite Htail. }
  destruct (order_market_sell crypto q w1) as [[e|o] w2].
  - destruct (is_binance e); intros [= <- <- <-];
      exists (S n); (split; [lia|right]); exists q;
      (split; [reflexivity|]); now apply Hsold.
  - destruct (fills o) as [|f rest].
    + intros [= <- <- <-]. exists (S n). split; [lia|right]. exists q.
      split; [reflexivity|]. now apply Hsold.
    + destruct (py_float (fill_price f)); intros [= <- <- <-];
        exists (S n); (split; [lia|right]); exists q;
        (split; [reflexivity|]); now apply Hsold.
Qed.

(** X12.  A change that is not a number is never displaced: when the first
    symbol of the watchlist whose candles arrive has a change that is a nan
    (an infinite opening price gives one), [get_top_loss_crypto] returns
    that symbol, whatever the losses of the symbols after it. *)
Theorem get_top_loss_crypto_keeps_nan
    (cryptos : list string) (timeframe : string) (w w' : W)
    (top : option string) (t : list event)
    (pre : list string) (s : string) (v : float)
    (rest : list (string * option float)) :
  get_top_loss_crypto cryptos timeframe w = (Returned top, w', t) ->
  changes t = failures pre ++ (s, Some v) :: rest ->
  is_nan v = true ->
  top = Some s.
Proof.
  rewrite Scanner.get_top_loss_crypto_eq.
  destruct (scan timeframe (None, None) cryptos w) as [[r1 w1] t1] eqn:E.
  destruct r1 as [[bl bc]|e|]; try discriminate.
  intros [= <- <- <-] Hch Hv.
  rewrite Scanner.changes_app in Hch. simpl in Hch. rewrite app_nil_r in Hch.
  pose proof (Edges.scan_chosen _ _ _ _ _ _ _ E) as Hb.
  rewrite Hch, Edges.chosen_failures in Hb.
  change (chosen (None, None) ((s, Some v) :: rest))
    with (chosen (Some v, Some s) rest) in Hb.
  rewrite (Edges.chosen_nan _ _ _ Hv) in Hb. now injection Hb as _ ->.
Qed.

End EdgeExtras.

Lemma unfiltered_example_eq :
  invest_in_crypto (Some "ETHUSDT"%string) 40 unfiltered_world =
  (fst (fst unfiltered_example), snd (fst unfiltered_example),
   snd unfiltered_example).
Proof.
  unfold unfiltered_example.
  now destruct (invest_in_crypto _ _ _) as [[? ?] ?].
Defined.

Lemma unfiltered_example_told :
  In (Call GetExchangeInfo (inr (ExchangeInfo unfiltered_info)))
     (snd unfiltered_example).
Proof.
  vm_compute.
  repeat match goal with |- _ \/ _ => (left; reflexivity) || right end.
Defined.

Lemma unfiltered_entry_found :
  next_such (fun item => symbol_eqb (symbol item) (Some "ETHUSDT"%string))
            (symbols unfiltered_info) = inr unfiltered_entry.
Proof. vm_compute. reflexivity. Defined.

Lemma unfiltered_entry_filters (f : exchange_filter) :
  In f (filters unfiltered_entry) -> has_type "PRICE_FILTER" f = false.
Proof. intros [<-|[]]. reflexivity. Defined.

(** X9 at a scripted entry of ETHUSDT that has a LOT_SIZE filter only. *)
Lemma invest_in_crypto_needs_price_filter_witness :
  fst (fst unfiltered_example) = Raised StopIteration /\
  requests (snd unfiltered_example) =
    [GetSymbolTicker (Some "ETHUSDT"%string); GetExchangeInfo].
Proof.
  exact (invest_in_crypto_needs_price_filter
           (Some "ETHUSDT"%string) 40 unfiltered_world _ _ _
           unfiltered_info unfiltered_entry
           unfiltered_example_eq unfiltered_example_told
           unfiltered_entry_found unfiltered_entry_filters).
Defined.

Lemma holding_example_eq :
  iteration 5 (Some Mock.eth_trade)
            (Mock.hold_world (inr (Mock.filled "2011.00" "0.02"))) =
  (fst (fst Mock.sold_example), snd (fst Mock.sold_example),
   snd Mock.sold_example).
Proof.
  unfold Mock.sold_example. now destruct (iteration _ _ _) as [[? ?] ?].
Defined.

(** X11 at a scripted wait of three rounds followed by the sale. *)
Lemma holding_iteration_requests_witness :
  exists k,
    (k <= 5)%nat /\
    (requests (snd Mock.sold_example) =
       repeat (GetSymbolTicker (Some "ETHUSDT"%string)) k \/
     exists q,
       py_round 0.02 sell_precision = inr q /\
       requests (snd Mock.sold_example) =
         repeat (GetSymbolTicker (Some "ETHUSDT"%string)) k
           ++ [OrderMarketSell (Some "ETHUSDT"%string) q]).
Proof.
  exact (holding_iteration_requests 5 (Some "ETHUSDT"%string) 2000 0.02
           _ _ _ _ holding_example_eq).
Defined.

Lemma nan_example_eq :
  get_top_loss_crypto cryptos "1h" nan_world =
  (Returned nan_top, snd (fst nan_example), snd nan_example).
Proof. vm_compute. reflexivity. Defined.

Lemma nan_example_changes :
  changes (snd nan_example) =
  failures [ "BTCUSDT"%string ] ++ ("ETHUSDT"%string, Some nan) :: nan_rest.
Proof. vm_compute. reflexivity. Defined.

(** X12 at a scripted scan in which BTCUSDT fails, ETHUSDT opens at an
    infinite price and BNBUSDT has lost 4.76 percent. *)
Lemma get_top_loss_crypto_keeps_nan_witness :
  nan_top = Some "ETHUSDT"%string.
Proof.
  exact (get_top_loss_crypto_keeps_nan cryptos "1h" nan_world _ _ _
           [ "BTCUSDT"%string ] "ETHUSDT" nan nan_rest
           nan_example_eq nan_example_changes eq_refl).
Defined.

(** * The order of the candles, other failures, the cycle *)

Import Candles Lot Outage Cycle.

(** ** The order of the candles *)

(** C1.  The source takes the opening price from the first row of a reply
    and the closing price from its second row, and its comments call them
    the most recent candle and the previous one.  On a reply that lists the
    older candle first, as the hours of BTCUSDT and ETHUSDT in
    [Candles.ascending_world] are listed, it therefore takes the opening
    price of the older candle and the closing price of the more recent one:
    BTCUSDT is valued at -1 and ETHUSDT at 0, where the open of the most
    recent candle and the close of the prior one give 0 and -5; and the scan
    returns BTCUSDT, where the first minimum of the changes as the
    specification words them is ETHUSDT. *)
Theorem get_top_loss_crypto_takes_rows_by_position :
  oldest_first btc_hours = true /\
  oldest_first eth_hours = true /\
  price_change_percent btc_hours = inr (-1)%float /\
  claimed_change btc_hours = inr 0%float /\
  price_change_percent eth_hours = inr 0%float /\
  claimed_change eth_hours = inr (-5)%float /\
  fst (fst ascending_example) = Returned (Some "BTCUSDT"%string) /\
  first_minimum (claimed_changes (snd ascending_example)) "ETHUSDT".
Proof.
  repeat (split; [vm_compute; reflexivity|]).
  assert (E : claimed_changes (snd ascending_example) =
              ("BTCUSDT"%string, Some 0%float)
                :: ("ETHUSDT"%string, Some (-5)%float)
                :: failures [ "BNBUSDT"; "XRPUSDT"; "ADAUSDT"; "SOLUSDT";
                              "DOGEUSDT"; "DOTUSDT"; "AVAXUSDT"; "LTCUSDT";
                              "LINKUSDT" ]%string)
    by (vm_compute; reflexivity).
  rewrite E. exists 1%nat, (-5)%float. split; [reflexivity|]. split.
  - intros j s' v' H.
    destruct j as [|[|j]]; simpl in H.
    + injection H as _ <-. vm_compute. reflexivity.
    + injection H as _ <-. vm_compute. reflexivity.
    + exfalso. do 9 (destruct j as [|j]; [discriminate H|]; simpl in H).
      destruct j; discriminate H.
  - intros j s' v' Hj H. destruct j as [|j]; [|lia].
    injection H as _ <-. vm_compute. reflexivity.
Qed.

(** ** Failures that are not the exchange's *)

(** The scan stops at a candle request that times out: the failure of
    BTCUSDT, a [BinanceAPIException], is logged and skipped, that of
    ETHUSDT, a [ReadTimeout], leaves the scanner unlogged, and the nine
    symbols after it, which have candles, are never asked for. *)
Lemma get_top_loss_crypto_aborts_on_timeout :
  fst (fst late_example) = Raised read_timeout /\
  snd late_example =
    [ Call (GetKlines "BTCUSDT" "1h" 2) (inl Mock.binance_error);
      Log (LogKlinesError "BTCUSDT" Mock.binance_error);
      Call (GetKlines "ETHUSDT" "1h" 2) (inl read_timeout) ] /\
  Mock.klines_of late_world "BNBUSDT" = inr Mock.falling.
Proof. repeat split; vm_compute; reflexivity. Qed.

(** Every candle request times out, and the scanner returns nothing, [None]
    included: it raises at the first symbol, and the iteration of the loop
    ends in the handler of line 185 with no record of the scan. *)
Lemma idle_timeout_scanner_raises :
  fst (fst (get_top_loss_crypto cryptos "1h" silent_world))
  = Raised read_timeout /\
  fst (fst silent_example) = Returned None /\
  snd silent_example =
    [ Call (GetAssetBalance "USDT")
           (inr (Balance {| free := "100.00000000" |}));
      Call (GetKlines "BTCUSDT" "1h" 2) (inl read_timeout);
      Log (LogUnexpected read_timeout); Sleep 1; Sleep 1 ].
Proof. repeat split; vm_compute; reflexivity. Qed.

(** A price request that times out ends the wait: the exception leaves
    [wait_for_pump], with no log record and no [time.sleep]. *)
Lemma wait_for_pump_aborts_on_timeout :
  fst (fst silent_wait) = Raised read_timeout /\
  snd silent_wait =
    [ Call (GetSymbolTicker (Some "ETHUSDT"%string)) (inl read_timeout) ].
Proof. repeat split; vm_compute; reflexivity. Qed.

(** ** The floor of the quotient and the floor division *)

(** With 40 USDT at a price of 2000 the raw quantity is 0.02; at a step of
    0.0001 the quotient [0.02 / 0.0001] is 200 and its floor gives the
    quantity 0.02, but [0.02 // 0.0001] is 199 and the order is for
    0.0199. *)
Lemma floor_division_below_floor_of_quotient :
  py_truediv 40 2000 = inr 0.02%float /\
  py_truediv 0.02 0.0001 = inr 200%float /\
  py_floordiv 0.02 0.0001 = inr 199%float /\
  claimed_quantity eth_lot 0.02 = inr 0.02%float /\
  adjust_quantity eth_lot 0.02 = inr 0.019900000000000001%float /\
  submitted (snd purchase_example) = [ 0.019900000000000001%float ].
Proof. repeat split; vm_compute; reflexivity. Qed.

(** ** The cycle of a held position *)
Module CycleSteps.

Section WithClient.

Context {W : Type} {client : Exchange W}.

(** An iteration with no active trade begins with the balance request. *)
Lemma iteration_idle_first (fuel : nat) (w w' : W)
    (r : outcome (option trade)) (t : list event) :
  iteration fuel None w = (r, w', t) ->
  exists b t', t = Call (GetAssetBalance "USDT") b :: t'.
Proof.
  rewrite Buying.iteration_idle_eq.
  destruct (get_asset_balance "USDT" w) as [[e|b] w1].
  { intros [= <- <- <-]. eexists _, _. reflexivity. }
  cbv zeta. destruct (py_float (free b)) as [e|usdt_balance].
  { intros [= <- <- <-]. eexists _, _. reflexivity. }
  destruct (usdt_balance <? 10)%float.
  { intros [= <- <- <-]. eexists _, _. reflexivity. }
  destruct (get_top_loss_crypto cryptos default_timeframe w1)
    as [[[top|e|] w2] t2].
  2,3: intros [= <- <- <-]; eexists _, _; reflexivity.
  destruct (invest_in_crypto top (usdt_balance * default_fraction)%float w2)
    as [[[[[o bp]|]|e|] w3] t3].
  2-4: intros [= <- <- <-]; eexists _, _; reflexivity.
  destruct (fills o) as [|f rest];
    [intros [= <- <- <-]; eexists _, _; reflexivity|].
  destruct (py_float (qty f));
    intros [= <- <- <-]; eexists _, _; reflexivity.
Qed.

(** One iteration of the loop, as [iterations] runs it. *)
Lemma iterations_one (fuel : nat) (active_trade : option trade) (w : W) :
  iterations 1 fuel active_trade w =
  match iteration fuel active_trade w with
  | (Returned next, w', t) => (Returned next, w', t ++ [])
  | (Raised e, w', t) => (Raised e, w', t)
  | (Running, w', t) => (Running, w', t)
  end.
Proof.
  simpl. unfold bind.
  destruct (iteration fuel active_trade w) as [[[next|e|] w'] t]; reflexivity.
Qed.

End WithClient.

End CycleSteps.

Section CycleClaims.

Context {W : Type} {client : Exchange W}.

(** C4.  The cycle of a held position.  Let the loop hold
    [active_trade = (crypto, buy_price, amount_bought)], let the wait for
    the target return, and let [reply] be what the exchange answers to the
    sale of the amount rounded to six decimals.  Then the iteration places
    that sale right after the wait, and it is its only order.  A sale that
    failed (an exception, or an order without a first fill that has a price)
    leaves [active_trade] as it was, a rejection by the exchange being
    logged as "Failed to sell"; the loop is in HOLDING again, and when the
    wait returns once more it places the same sale once more.  A sale that
    went through clears [active_trade], and the next iteration is an IDLE
    one: it begins with the balance request. *)
Theorem holding_keeps_trade_until_sold
    (fuel : nat) (crypto : option string) (buy_price amount_bought : float)
    (w w1 w2 : W) (target_price q : float) (t1 : list event)
    (reply : exn + order) :
  wait_for_pump fuel crypto buy_price default_target_gain w
  = (Returned target_price, w1, t1) ->
  py_round amount_bought sell_precision = inr q ->
  order_market_sell crypto q w1 = (reply, w2) ->
  exists tail,
    iteration fuel (Some (crypto, buy_price, amount_bought)) w =
    (Returned (after_sale (crypto, buy_price, amount_bought) reply), w2,
     t1 ++ Call (OrderMarketSell crypto q) (answer reply) :: tail) /\
    (forall ev, In ev (t1 ++ tail) -> is_sell ev = false /\ is_buy ev = false) /\
    (if went_through reply
     then In (Log (LogTradeCompleted crypto)) tail
     else forall e, reply = inl e -> is_binance e = true ->
                    In (Log (LogSellFailed crypto)) tail) /\
    (forall n,
        iterations (S n) fuel (Some (crypto, buy_price, amount_bought)) w =
        let '(r3, w3, t3) :=
          iterations n fuel
                     (after_sale (crypto, buy_price, amount_bought) reply)
                     w2 in
        (r3, w3,
         (t1 ++ Call (OrderMarketSell crypto q) (answer reply) :: tail)
           ++ t3)) /\
    (went_through reply = false ->
     forall target_price' w3 t3 reply' w4,
       wait_for_pump fuel crypto buy_price default_target_gain w2
       = (Returned target_price', w3, t3) ->
       order_market_sell crypto q w3 = (reply', w4) ->
       exists tail',
         iterations 2 fuel (Some (crypto, buy_price, amount_bought)) w =
         (Returned (after_sale (crypto, buy_price, amount_bought) reply'), w4,
          (t1 ++ Call (OrderMarketSell crypto q) (answer reply) :: tail)
            ++ t3 ++ Call (OrderMarketSell crypto q) (answer reply')
            :: tail')) /\
    (went_through reply = true ->
     exists r3 w3 b t3,
       iterations 2 fuel (Some (crypto, buy_price, amount_bought)) w =
       (r3, w3,
        (t1 ++ Call (OrderMarketSell crypto q) (answer reply) :: tail)
          ++ Call (GetAssetBalance "USDT") b :: t3)).
Proof.
  intros Hwait Hq Hsell.
  destruct (Holding.iteration_cycle _ _ _ _ _ _ _ _ _ _ _ Hwait Hq Hsell)
    as (tail & Hrun & Hquiet & Hlog).
  exists tail.
  assert (Hloop : forall n,
             iterations (S n) fuel (Some (crypto, buy_price, amount_bought)) w =
             let '(r3, w3, t3) :=
               iterations n fuel
                          (after_sale (crypto, buy_price, amount_bought) reply)
                          w2 in
             (r3, w3,
              (t1 ++ Call (OrderMarketSell crypto q) (answer reply) :: tail)
                ++ t3)).
  { intros n. simpl. unfold bind. rewrite Hrun.
    now destruct (iterations n fuel _ w2) as [[r3 w3] t3]. }
  repeat (split; [assumption|]). split.
  - intros Hfailed target_price' w3 t3 reply' w4 Hwait' Hsell'.
    destruct (Holding.iteration_cycle _ _ _ _ _ _ _ _ _ _ _ Hwait' Hq Hsell')
      as (tail' & Hrun' & _).
    exists tail'. rewrite (Hloop 1%nat).
    unfold after_sale at 1. rewrite Hfailed. cbv beta iota.
    rewrite CycleSteps.iterations_one. unfold trade in *.
    rewrite Hrun'. cbv beta iota.
    now rewrite app_nil_r.
  - intros Hsold. rewrite (Hloop 1%nat).
    unfold after_sale. rewrite Hsold. cbv beta iota.
    rewrite CycleSteps.iterations_one.
    destruct (iteration fuel None w2) as [[r3 w3] t3] eqn:E3.
    destruct (CycleSteps.iteration_idle_first _ _ _ _ _ E3) as (b & t' & ->).
    destruct r3 as [next|e|].
    + exists (Returned next), w3, b, (t' ++ []). reflexivity.
    + exists (Raised e), w3, b, t'. reflexivity.
    + exists Running, w3, b, t'. reflexivity.
Qed.

End CycleClaims.

(** C4 at the scripted position of [Cycle.retry_start], whose sale the
    exchange rejects once: the sale follows the wait and the trade is kept;
    the second iteration waits and sells again, and the trade is cleared. *)
Lemma holding_keeps_trade_until_sold_witness :
  exists tail tail',
    iteration 5 (Some Mock.eth_trade) retry_start =
    (Returned (Some Mock.eth_trade), retry_rejected,
     snd retry_wait
       ++ Call (OrderMarketSell (Some "ETHUSDT"%string) 0.02)
               (inl Mock.binance_error) :: tail) /\
    iterations 2 5 (Some Mock.eth_trade) retry_start =
    (Returned None, retry_sold,
     (snd retry_wait
        ++ Call (OrderMarketSell (Some "ETHUSDT"%string) 0.02)
                (inl Mock.binance_error) :: tail)
       ++ snd retry_second_wait
       ++ Call (OrderMarketSell (Some "ETHUSDT"%string) 0.02)
               (inr (Order (Mock.filled "2011.00" "0.02"))) :: tail').
Proof.
  assert (Hwait : wait_for_pump 5 (Some "ETHUSDT"%string) 2000
                                default_target_gain retry_start =
                  (Returned 2010.5%float, retry_waited, snd retry_wait))
    by (vm_compute; reflexivity).
  assert (Hq : py_round 0.02 sell_precision = inr 0.02%float)
    by (vm_compute; reflexivity).
  assert (Hsell : order_market_sell (Some "ETHUSDT"%string) 0.02 retry_waited =
                  (inl Mock.binance_error, retry_rejected))
    by reflexivity.
  assert (Hwait' : wait_for_pump 5 (Some "ETHUSDT"%string) 2000
                                 default_target_gain retry_rejected =
                   (Returned 2010.5%float, retry_rewaited,
                    snd retry_second_wait))
    by (vm_compute; reflexivity).
  assert (Hsell' : order_market_sell (Some "ETHUSDT"%string) 0.02
                                     retry_rewaited =
                   (inr (Mock.filled "2011.00" "0.02"), retry_sold))
    by (vm_compute; reflexivity).
  destruct (holding_keeps_trade_until_sold
              5 (Some "ETHUSDT"%string) 2000 0.02 retry_start retry_waited
              retry_rejected 2010.5 0.02 (snd retry_wait)
              (inl Mock.binance_error) Hwait Hq Hsell)
    as (tail & Hrun & _ & _ & _ & Hretry & _).
  destruct (Hretry eq_refl _ _ _ _ _ Hwait' Hsell') as (tail' & Hrun').
  exists tail, tail'. split; [exact Hrun|exact Hrun'].
Defined.
